(** * TPA-audit: the article audit and the site crawl, embedded and verified

    Shallow embedding of [tpa_articles.py] and [tpa_crawl.py].

    - Text is modelled as [string] (a sequence of 8-bit characters); the
      character classes of the regular expressions and of [str.strip],
      [str.lower] are the ASCII ones.
    - Values read from JSON-LD are [Py.json]; Python exceptions are [Py.exn]
      and code that may raise returns [Py.result].
    - What the programs take from outside (the JSON parser, the ISO date
      parser, the URL parser, the network, the browser, the clock, the hash
      seed, the standard output, the file system) is a [Variable] of the
      section that uses it.
    - The interpreter is CPython 3.11 on Linux: [%Y] writes a year without
      leading zeros, [%b] is the month of the C locale, and the standard
      output takes the fixed texts of the programs. *)

From Stdlib Require Import ZArith NArith Ascii Lia Sorted Permutation.
From Stdlib Require String.
From stdpp Require Import base option list strings gmap.

Set Warnings "-register-all".
Local Open Scope Z_scope.

(** ** Python values and library functions used by both programs *)
Module Py.

(** *** Characters *)

Definition code (c : ascii) : N := N_of_ascii c.

Definition between (lo hi c : ascii) : bool :=
  (code lo <=? code c)%N && (code c <=? code hi)%N.

Definition is_digit (c : ascii) : bool := between "0" "9" c.
Definition is_lower (c : ascii) : bool := between "a" "z" c.
Definition is_upper (c : ascii) : bool := between "A" "Z" c.

(** [\w] *)
Definition is_word (c : ascii) : bool :=
  is_digit c || is_lower c || is_upper c || Ascii.eqb c "_".

(** What [str.strip()] removes: tab, LF, VT, FF, CR, FS, GS, RS, US, space. *)
Definition is_space (c : ascii) : bool :=
  ((9 <=? code c)%N && (code c <=? 13)%N)
  || ((28 <=? code c)%N && (code c <=? 32)%N).

Definition to_lower (c : ascii) : ascii :=
  if is_upper c then ascii_of_N (code c + 32) else c.

Definition to_upper (c : ascii) : ascii :=
  if is_lower c then ascii_of_N (code c - 32) else c.

(** *** Strings *)

Fixpoint map_string (f : ascii → ascii) (s : string) : string :=
  match s with
  | EmptyString => EmptyString
  | String c s' => String (f c) (map_string f s')
  end.

(** [s.lower()] *)
Definition lower (s : string) : string := map_string to_lower s.

(** [s.capitalize()] *)
Definition capitalize (s : string) : string :=
  match s with
  | EmptyString => EmptyString
  | String c s' => String (to_upper c) (lower s')
  end.

(** [s.startswith(p)] *)
Fixpoint startswith (p s : string) : bool :=
  match p, s with
  | EmptyString, _ => true
  | String a p', String b s' => Ascii.eqb a b && startswith p' s'
  | String _ _, EmptyString => false
  end.

(** [p in s] *)
Fixpoint contains (p s : string) : bool :=
  startswith p s ||
  match s with
  | EmptyString => false
  | String _ s' => contains p s'
  end.

Fixpoint drop (n : nat) (s : string) : string :=
  match n, s with
  | O, _ => s
  | S n', String _ s' => drop n' s'
  | S _, EmptyString => EmptyString
  end.

Fixpoint take (n : nat) (s : string) : string :=
  match n, s with
  | S n', String c s' => String c (take n' s')
  | _, _ => EmptyString
  end.

(** [s.replace(old, new)] for a non-empty [old]: occurrences are replaced
    from the left and do not overlap; [skip] counts the characters of an
    occurrence still to be passed over. *)
Fixpoint replace_from (old new : string) (skip : nat) (s : string) : string :=
  match s with
  | EmptyString => EmptyString
  | String c s' =>
      match skip with
      | S k => replace_from old new k s'
      | O =>
          if startswith old s
          then new +:+ replace_from old new (String.length old - 1) s'
          else String c (replace_from old new O s')
      end
  end.

Definition replace (old new s : string) : string := replace_from old new O s.

(** [s.lstrip()], [s.rstrip()], [s.strip()] and [s.rstrip(chars)] *)
Fixpoint lstrip_with (p : ascii → bool) (s : string) : string :=
  match s with
  | String c s' => if p c then lstrip_with p s' else s
  | EmptyString => EmptyString
  end.

Fixpoint rstrip_with (p : ascii → bool) (s : string) : string :=
  match s with
  | EmptyString => EmptyString
  | String c s' =>
      match rstrip_with p s' with
      | EmptyString => if p c then EmptyString else String c EmptyString
      | r => String c r
      end
  end.

Definition strip (s : string) : string :=
  rstrip_with is_space (lstrip_with is_space s).

Definition rstrip_char (ch : ascii) (s : string) : string :=
  rstrip_with (Ascii.eqb ch) s.

(** [s.split(sep)] for a one-character separator *)
Fixpoint split (sep : ascii) (s : string) : list string :=
  match s with
  | EmptyString => [EmptyString]
  | String c s' =>
      if Ascii.eqb c sep then EmptyString :: split sep s'
      else match split sep s' with
           | w :: ws => String c w :: ws
           | [] => [String c EmptyString]
           end
  end.

(** [sep.join(l)] *)
Fixpoint join (sep : string) (l : list string) : string :=
  match l with
  | [] => EmptyString
  | [w] => w
  | w :: ws => w +:+ sep +:+ join sep ws
  end.

(** [int(s)] for a string of ASCII digits *)
Definition int_of_digits (s : string) : Z :=
  (fix go (acc : Z) (s : string) : Z :=
     match s with
     | EmptyString => acc
     | String c s' => go (10 * acc + (Z.of_N (code c) - 48)) s'
     end) 0 s.

(** *** Regular expressions

    The patterns of the two programs are sequences of literals, single
    character classes, starred classes, one capture group and the
    assertions [\b] and [$].  [match_at] is the backtracking matcher of
    [re]: a greedy star first takes as much as it can and gives back one
    character at a time, a lazy star first takes nothing. *)

Inductive atom :=
| Lit (s : string)
| Set1 (p : ascii → bool)
| Star (p : ascii → bool)
| LazyStar (p : ascii → bool)
| Open
| Close
| WordB
| Eos.

Definition regex := list atom.

(** [p+] and [p{n}] *)
Definition plus (p : ascii → bool) : regex := [Set1 p; Star p].
Definition times (n : nat) (p : ascii → bool) : regex := List.repeat (Set1 p) n.

Record found := { group1 : string; before_rest : option ascii; rest : string }.

Definition last_char (s : string) (prev : option ascii) : option ascii :=
  (fix go (s : string) (prev : option ascii) : option ascii :=
     match s with
     | EmptyString => prev
     | String c s' => go s' (Some c)
     end) s prev.

Definition word_at (c : option ascii) : bool :=
  match c with Some c => is_word c | None => false end.

Definition next_char (s : string) : option ascii :=
  match s with String c _ => Some c | EmptyString => None end.

(** [prev] is the character before the current position, [s] the text from
    the current position on, [gopen] the text from where group 1 opened and
    [grp] what group 1 captured. *)
Fixpoint match_at (r : regex) (prev : option ascii) (s gopen grp : string)
  : option found :=
  match r with
  | [] => Some {| group1 := grp; before_rest := prev; rest := s |}
  | a :: r' =>
      match a with
      | Lit l =>
          if startswith l s
          then match_at r' (last_char l prev) (drop (String.length l) s) gopen grp
          else None
      | Set1 p =>
          match s with
          | String c s' => if p c then match_at r' (Some c) s' gopen grp else None
          | EmptyString => None
          end
      | Star p =>
          (fix star (prev : option ascii) (s : string) : option found :=
             match s with
             | String c s' =>
                 if p c
                 then match star (Some c) s' with
                      | Some m => Some m
                      | None => match_at r' prev s gopen grp
                      end
                 else match_at r' prev s gopen grp
             | EmptyString => match_at r' prev s gopen grp
             end) prev s
      | LazyStar p =>
          (fix lazy (prev : option ascii) (s : string) : option found :=
             match match_at r' prev s gopen grp with
             | Some m => Some m
             | None =>
                 match s with
                 | String c s' => if p c then lazy (Some c) s' else None
                 | EmptyString => None
                 end
             end) prev s
      | Open => match_at r' prev s s grp
      | Close =>
          match_at r' prev s gopen
            (take (String.length gopen - String.length s) gopen)
      | WordB =>
          if xorb (word_at prev) (word_at (next_char s))
          then match_at r' prev s gopen grp
          else None
      | Eos =>
          match s with
          | EmptyString => match_at r' prev s gopen grp
          | String c EmptyString =>
              if Ascii.eqb c "010" then match_at r' prev s gopen grp else None
          | _ => None
          end
      end
  end.

(** [re.search(r, s)]: the match at the leftmost position that has one *)
Fixpoint search_from (r : regex) (prev : option ascii) (s : string) : option found :=
  match match_at r prev s s EmptyString with
  | Some m => Some m
  | None =>
      match s with
      | String c s' => search_from r (Some c) s'
      | EmptyString => None
      end
  end.

Definition search (r : regex) (s : string) : option found := search_from r None s.

(** [re.finditer(r, s)], group 1 of each match: matches are found from the
    left and do not overlap; [skip] counts the characters of the last match
    still to be passed over. *)
Fixpoint finditer_from (r : regex) (prev : option ascii) (skip : nat) (s : string)
  : list string :=
  match skip with
  | S k =>
      match s with
      | String c s' => finditer_from r (Some c) k s'
      | EmptyString => []
      end
  | O =>
      match match_at r prev s s EmptyString, s with
      | Some m, String c s' =>
          group1 m ::
            finditer_from r (Some c) (String.length s - String.length (rest m) - 1) s'
      | Some m, EmptyString => [group1 m]
      | None, String c s' => finditer_from r (Some c) O s'
      | None, EmptyString => []
      end
  end.

Definition finditer (r : regex) (s : string) : list string :=
  finditer_from r None O s.

(** *** JSON values, as [json.loads] builds them

    An object is the list of its members, each key once.  The programs only
    test a number for truth, so an integer stands for any number. *)

Inductive json :=
| JNull
| JBool (b : bool)
| JNum (n : Z)
| JStr (s : string)
| JArr (l : list json)
| JObj (members : list (string * json)).

(** Truth value of a Python object *)
Definition truthy (v : json) : bool :=
  match v with
  | JNull => false
  | JBool b => b
  | JNum n => negb (n =? 0)
  | JStr s => negb (String.eqb s EmptyString)
  | JArr l => match l with [] => false | _ => true end
  | JObj m => match m with [] => false | _ => true end
  end.

Fixpoint assoc (k : string) (m : list (string * json)) : option json :=
  match m with
  | [] => None
  | (k', v) :: m' => if String.eqb k k' then Some v else assoc k m'
  end.

(** *** Exceptions *)

Inductive exn :=
| JSONDecodeError
| AttributeError
| TypeError
| KeyError
| ValueError
| TimeoutError
| ServerDisconnectedError
| Other (name : string).

Inductive result (A : Type) :=
| Ok (a : A)
| Raise (e : exn).
Arguments Ok {A} a.
Arguments Raise {A} e.

(** The exceptions raised by the operations on JSON values below *)
Definition from_values (e : exn) : Prop :=
  e = AttributeError ∨ e = TypeError ∨ e = KeyError.

Definition bind {A B} (m : result A) (f : A → result B) : result B :=
  match m with
  | Ok a => f a
  | Raise e => Raise e
  end.

(** [d.get(k, default)]: only a dict has [get] *)
Definition get (d : json) (k : string) (default : json) : result json :=
  match d with
  | JObj m => Ok (match assoc k m with Some v => v | None => default end)
  | _ => Raise AttributeError
  end.

(** [k in d] for a string [k] *)
Definition has (k : string) (d : json) : result bool :=
  match d with
  | JObj m => Ok (bool_decide (is_Some (assoc k m)))
  | JStr s => Ok (contains k s)
  | JArr l => Ok (existsb (λ x, match x with JStr s => String.eqb s k | _ => false end) l)
  | _ => Raise TypeError
  end.

(** The items that [for d in v] goes through *)
Definition iter (v : json) : result (list json) :=
  match v with
  | JArr l => Ok l
  | JObj m => Ok (map (λ kv, JStr kv.1) m)
  | JStr s => Ok (map (λ c, JStr (String c EmptyString)) (String.list_ascii_of_string s))
  | _ => Raise TypeError
  end.

(** [len(v)] *)
Definition len (v : json) : result nat :=
  match v with
  | JArr l => Ok (length l)
  | JObj m => Ok (length m)
  | JStr s => Ok (String.length s)
  | _ => Raise TypeError
  end.

(** [v[1]]: a list or a string is indexed by position, a dict by key, and
    no dict read from JSON has the key [1]. *)
Definition item1 (v : json) : result json :=
  match v with
  | JArr (_ :: x :: _) => Ok x
  | JStr (String _ (String c _)) => Ok (JStr (String c EmptyString))
  | JObj _ => Raise KeyError
  | _ => Raise TypeError
  end.

(** [next((d for d in l if f(d)), None)] *)
Fixpoint first_where (f : json → result bool) (l : list json) : result (option json) :=
  match l with
  | [] => Ok None
  | d :: l' =>
      match f d with
      | Raise e => Raise e
      | Ok true => Ok (Some d)
      | Ok false => first_where f l'
      end
  end.

(** *** Sorting

    [l.sort(key=...)] is stable and compares keys with [<] only; the
    result of a stable sort is determined by that, and this insertion sort
    computes it. *)
Section Sort.
Context {A K : Type} (lt : K → K → bool) (key : A → K).

Fixpoint insert_by (x : A) (l : list A) : list A :=
  match l with
  | [] => [x]
  | y :: l' => if lt (key y) (key x) then y :: insert_by x l' else x :: y :: l'
  end.

Definition sort_by (l : list A) : list A := foldr insert_by [] l.

(** [x] may stand before [y] in a sorted list: [key y < key x] is false *)
Definition ascending (x y : A) : Prop := lt (key y) (key x) = false.
End Sort.

(** [<] on [str] *)
Definition str_lt (a b : string) : bool := String.ltb a b.

(** *** Counting

    [Counter(keys)] for string keys, and [counts.get(k, 0)] *)
Definition Counter (keys : list string) : gmap string nat :=
  foldl (λ counts k, <[k := S (default O (counts !! k))]> counts) ∅ keys.

Definition count_of (counts : gmap string nat) (k : string) : nat :=
  default O (counts !! k).

(** [sum(l)] *)
Definition sum (l : list Z) : Z := foldr Z.add 0 l.

End Py.

#[global] Instance result_ret : MRet Py.result := @Py.Ok.
#[global] Instance result_bind : MBind Py.result := λ A B f m, Py.bind m f.

(** ** [tpa_articles.py] *)
Module TpaArticles.

Definition BASE_URL : string := "https://thepaymentsassociation.org".

Definition ARTICLE_TYPE_OVERRIDES : gmap string string :=
  {[ "thought-leadership-quarterly" := "Thought Leadership";
     "thought-leadership" := "Thought Leadership";
     "payments-intelligence" := "Payments Intelligence" ]}.

(** *** [datetime] *)

Inductive month_name :=
| Jan | Feb | Mar | Apr | May | Jun | Jul | Aug | Sep | Oct | Nov | Dec.

(** A [datetime]: [year] is in 1..9999 and [day] in 1..31; the time of day
    is not used by the program. *)
Record datetime := { year : Z; month : month_name; day : Z }.

(** [%b], in the C locale *)
Definition month_abbr (m : month_name) : string :=
  match m with
  | Jan => "Jan" | Feb => "Feb" | Mar => "Mar" | Apr => "Apr"
  | May => "May" | Jun => "Jun" | Jul => "Jul" | Aug => "Aug"
  | Sep => "Sep" | Oct => "Oct" | Nov => "Nov" | Dec => "Dec"
  end.

Definition month_number (m : month_name) : Z :=
  match m with
  | Jan => 1 | Feb => 2 | Mar => 3 | Apr => 4
  | May => 5 | Jun => 6 | Jul => 7 | Aug => 8
  | Sep => 9 | Oct => 10 | Nov => 11 | Dec => 12
  end.

Definition digit (n : Z) : ascii := ascii_of_N (48 + Z.to_N (n mod 10)).

(** [%m], [%d]: two digits *)
Definition pad2 (n : Z) : string :=
  String (digit (n / 10)) (String (digit n) EmptyString).

(** The last four decimal digits of a number *)
Definition pad4 (n : Z) : string :=
  String (digit (n / 1000)) (String (digit (n / 100)) (pad2 n)).

(** [%Y], as CPython 3.11 writes it with the C library of Linux: the year
    in decimal without leading zeros, so that a year below 1000 has fewer
    than four digits *)
Definition strftime_Y (n : Z) : string :=
  if n <? 10 then String (digit n) EmptyString
  else if n <? 100 then pad2 n
  else if n <? 1000 then String (digit (n / 100)) (pad2 n)
  else pad4 n.

(** [d.strftime] with format [%b %Y] *)
Definition strftime_b_Y (d : datetime) : string :=
  month_abbr (month d) +:+ " " +:+ strftime_Y (year d).

(** [d.strftime] with format [%Y-%m-%d] *)
Definition strftime_Y_m_d (d : datetime) : string :=
  strftime_Y (year d) +:+ "-" +:+ pad2 (month_number (month d)) +:+ "-"
    +:+ pad2 (day d).

(** [d1] is an earlier day than [d2]. *)
Definition earlier (d1 d2 : datetime) : Prop :=
  year d1 < year d2
  ∨ (year d1 = year d2
     ∧ (month_number (month d1) < month_number (month d2)
        ∨ (month_number (month d1) = month_number (month d2) ∧ day d1 < day d2))).

(** The years and the days that a [datetime] can have *)
Definition in_range (d : datetime) : Prop :=
  1 ≤ year d ≤ 9999 ∧ 1 ≤ day d ≤ 31.

(** *** The patterns *)

Definition dquote : ascii := "034".
Definition squote : ascii := "039".
Definition is_quote (c : ascii) : bool := Ascii.eqb c dquote || Ascii.eqb c squote.
Definition not_gt (c : ascii) : bool := negb (Ascii.eqb c ">").
Definition not_dquote (c : ascii) : bool := negb (Ascii.eqb c dquote).
Definition not_newline (c : ascii) : bool := negb (Ascii.eqb c "010").
Definition any_char (c : ascii) : bool := true.
Definition slug_char (c : ascii) : bool :=
  Py.is_lower c || Py.is_digit c || Ascii.eqb c "-".

(** [<script[^>]*type=[QA]application/ld\+json[QA][^>]*>(.*?)</script>]
    with [re.DOTALL], where [Q] and [A] stand for the double quote and the
    apostrophe *)
Definition jsonld_re : Py.regex :=
  [ Py.Lit "<script"; Py.Star not_gt; Py.Lit "type="; Py.Set1 is_quote;
    Py.Lit "application/ld+json"; Py.Set1 is_quote; Py.Star not_gt; Py.Lit ">";
    Py.Open; Py.LazyStar any_char; Py.Close; Py.Lit "</script>" ].

(** [<title>(.*?)</title>] *)
Definition title_re : Py.regex :=
  [ Py.Lit "<title>"; Py.Open; Py.LazyStar not_newline; Py.Close; Py.Lit "</title>" ].

(** The pattern [class=Q(V)Q], where [Q] stands for the double quote
    character and [V] for [[^Q]*elementor-location-single[^Q]*] *)
Definition container_re : Py.regex :=
  [ Py.Lit "class="; Py.Set1 (Ascii.eqb dquote); Py.Open; Py.Star not_dquote;
    Py.Lit "elementor-location-single"; Py.Star not_dquote; Py.Close;
    Py.Set1 (Ascii.eqb dquote) ].

(** [filter_types-([a-z0-9-]+)] *)
Definition filter_types_re : Py.regex :=
  [ Py.Lit "filter_types-"; Py.Open ] ++ Py.plus slug_char ++ [ Py.Close ].

(** [\bcategory-([a-z0-9-]+)\b] *)
Definition category_re : Py.regex :=
  [ Py.WordB; Py.Lit "category-"; Py.Open ] ++ Py.plus slug_char ++ [ Py.Close; Py.WordB ].

(** *** The rows of the report *)

Record row := {
  url : string;
  title : string;
  author : Py.json;
  published_date : string;
  article_type : Py.json;
  status : string;
  reason : string
}.

(** [v == s] for a string [s] *)
Definition is_str (s : string) (v : Py.json) : bool :=
  match v with Py.JStr t => String.eqb t s | _ => false end.

(** [' '.join(w.capitalize() for w in slug.split('-'))] *)
Definition humanize (slug : string) : string :=
  Py.join " " (map Py.capitalize (Py.split "-" slug)).

(** *** What the program takes from outside *)

(** One [GET]: [session.get] raises or gives a response, whose body is read
    by [resp.text()], which may raise too. *)
Record response := { resp_status : Z; resp_text : Py.result string }.

(** The parsed sitemap, as far as the program looks at it: the texts of its
    [loc] elements in document order ([None] for an empty element). *)
Definition Element := list (option string).

(** Requests made and seconds slept by the sitemap phase *)
Record world := { requests : nat; slept : list Z }.

Inductive event :=
| Get (u : string)
| Sleep (seconds : Z).

(** The number of requests and the sleeps of a log *)
Fixpoint gets (log : list event) : nat :=
  match log with
  | [] => O
  | Get _ :: log' => S (gets log')
  | Sleep _ :: log' => gets log'
  end.

Fixpoint sleeps (log : list event) : list Z :=
  match log with
  | [] => []
  | Get _ :: log' => sleeps log'
  | Sleep s :: log' => s :: sleeps log'
  end.

(** **** The summary of [main]

    The number of articles saved and the three counts that are printed *)
Definition summary (all_results : list row) : nat * nat * nat * nat :=
  let counts := Py.Counter (map status all_results) in
  (length all_results,
   Py.count_of counts "DELETE_CANDIDATE",
   Py.count_of counts "REVIEW",
   Py.count_of counts "KEEP").

(** A value that can be a key of a [Counter]: a list and a dict are not
    hashable. *)
Definition hashable (v : Py.json) : bool :=
  match v with
  | Py.JArr _ | Py.JObj _ => false
  | _ => true
  end.

(** What [json.loads] raises: [JSONDecodeError] on a malformed text,
    [ValueError] on an integer of more digits than the interpreter
    converts (4300), [RecursionError] on a text that is nested too deep *)
Inductive json_error := Malformed | TooManyDigits | TooDeep.

Definition json_exn (e : json_error) : Py.exn :=
  match e with
  | Malformed => Py.JSONDecodeError
  | TooManyDigits => Py.ValueError
  | TooDeep => Py.Other "RecursionError"
  end.

(** What a run of [main] leaves: the rows of the CSV file, when it was
    written to its end, and the counts printed or the exception that ended
    the run *)
Record run := {
  csv : option (list row);
  ended : Py.result (nat * nat * nat * nat)
}.

Section Program.
(** [datetime.now(timezone.utc).year] when the module is loaded *)
Variable now_year : Z.
(** [json.loads] *)
Variable json_loads : string → Py.json + json_error.
(** [datetime.fromisoformat]; [None] is [ValueError] *)
Variable fromisoformat : string → option datetime.
(** [urlopen] followed by [ET.fromstring]: the answer to the [n]-th
    request of the run *)
Variable urlopen : nat → string → Py.result Element.
(** The answer of the session to the [n]-th [GET] of a URL *)
Variable session_get : string → nat → Py.result response.
(** The order in which [list(s)] goes through a set of strings: that of
    their places in the hash table, which changes with the hash seed of the
    run.  Nothing is assumed of it, and every order of the members is that
    of some [hash_lt]. *)
Variable hash_lt : string → string → bool.
(** Whether [print] can write the line of a row (line 169), which holds
    text of the page, to the standard output; it raises
    [UnicodeEncodeError] otherwise.  The fixed texts of the program, the
    URLs and the error messages are taken to be printable, and so is, in
    the summary, an article type that line 169 has printed. *)
Variable can_print : row → bool.
(** Lines 209 to 217: the directory is made and the rows are written to
    the CSV file, which may raise *)
Variable write_csv : list row → Py.result unit.

Definition CUTOFF_YEAR : Z := now_year - 3.

(** **** [fetch_xml] *)

Definition request (w : world) : world :=
  {| requests := S (requests w); slept := slept w |}.

Definition sleep (seconds : Z) (w : world) : world :=
  {| requests := requests w; slept := slept w ++ [seconds] |}.

(** The [for attempt in range(retries)] loop; falling out of the loop
    returns [None].  [time.sleep] raises [ValueError] on a negative number
    of seconds, and this error leaves the function. *)
Fixpoint fetch_xml_loop (u : string) (retries : nat) (backoff : Z)
    (attempts : list nat) (w : world) : Py.result (option Element) * world :=
  match attempts with
  | [] => (Py.Ok None, w)
  | attempt :: more =>
      match urlopen (requests w) u with
      | Py.Ok root => (Py.Ok (Some root), request w)
      | Py.Raise e =>
          if Z.of_nat attempt <? Z.of_nat retries - 1
          then
            let wait := backoff * (Z.of_nat attempt + 1) in
            if wait <? 0 then (Py.Raise Py.ValueError, request w)
            else fetch_xml_loop u retries backoff more (sleep wait (request w))
          else (Py.Raise e, request w)
      end
  end.

Definition fetch_xml (u : string) (retries : nat) (backoff : Z) (w : world)
  : Py.result (option Element) * world :=
  fetch_xml_loop u retries backoff (seq 0 retries) w.

(** [root.findall('.//{ns}loc')]; on [None] the attribute is missing *)
Definition findall_loc (root : option Element) : Py.result (list (option string)) :=
  match root with
  | Some locs => Py.Ok locs
  | None => Py.Raise Py.AttributeError
  end.

(** [loc.text or ''] *)
Definition text_or_empty (t : option string) : string := default EmptyString t.

(** **** [get_article_urls_from_sitemap] *)

(** The inner loop over the [loc] elements of one post sitemap *)
Definition add_articles (locs : list (option string)) (article_urls : gset string)
  : gset string :=
  foldl (λ acc loc,
           let u := Py.rstrip_char "/" (text_or_empty loc) in
           if Py.contains "/article/" u then {[u]} ∪ acc else acc)
        article_urls locs.

(** The loop over the post sitemaps *)
Fixpoint fetch_post_sitemaps (post_sitemaps : list string)
    (article_urls : gset string) (w : world) : Py.result (gset string) * world :=
  match post_sitemaps with
  | [] => (Py.Ok article_urls, w)
  | sitemap_url :: more =>
      match fetch_xml sitemap_url 3 5 w with
      | (Py.Raise e, w') => (Py.Raise e, w')
      | (Py.Ok sm, w') =>
          match findall_loc sm with
          | Py.Raise e => (Py.Raise e, w')
          | Py.Ok locs => fetch_post_sitemaps more (add_articles locs article_urls) w'
          end
      end
  end.

(** [list(s)]: the members of the set in the order of the hash table *)
Definition listed (s : gset string) : list string :=
  Py.sort_by hash_lt id (elements s).

Definition get_article_urls_from_sitemap (w : world)
  : Py.result (list string) * world :=
  match fetch_xml (BASE_URL +:+ "/sitemap.xml") 3 5 w with
  | (Py.Raise e, w') => (Py.Raise e, w')
  | (Py.Ok root, w') =>
      match findall_loc root with
      | Py.Raise e => (Py.Raise e, w')
      | Py.Ok locs =>
          let post_sitemaps :=
            omap (λ loc, if Py.contains "post-sitemap" (text_or_empty loc)
                         then loc else None) locs in
          match fetch_post_sitemaps post_sitemaps ∅ w' with
          | (Py.Raise e, w'') => (Py.Raise e, w'')
          | (Py.Ok article_urls, w'') => (Py.Ok (listed article_urls), w'')
          end
      end
  end.

(** **** [extract_jsonld] *)

(** The body of the [try] for one matched block: [Some] is the
    [return], [None] is the end of the turn (by [continue] or by falling
    through). *)
Definition jsonld_block (text : string) : Py.result (option (Py.json * Py.json)) :=
  match json_loads text with
  | inr e => Py.Raise (json_exn e)
  | inl data =>
      let graph :=
        match data with
        | Py.JObj m => Py.assoc "@graph" m
        | Py.JArr _ => Some data
        | _ => None
        end in
      match graph with
      | None => Py.Ok None
      | Some graph =>
          items ← Py.iter graph;
          article ← Py.first_where (Py.has "datePublished") items;
          breadcrumb ←
            Py.first_where
              (λ d, t ← Py.get d "@type" Py.JNull;
                    Py.Ok (match t with
                           | Py.JStr s => String.eqb s "BreadcrumbList"
                           | _ => false
                           end))
              items;
          category ←
            match breadcrumb with
            | Some b =>
                if Py.truthy b
                then
                  elems ← Py.get b "itemListElement" (Py.JArr []);
                  n ← Py.len elems;
                  if bool_decide (2 ≤ n)%nat
                  then second ← Py.item1 elems; Py.get second "name" Py.JNull
                  else Py.Ok Py.JNull
                else Py.Ok Py.JNull
            | None => Py.Ok Py.JNull
            end;
          match article with
          | Some a => if Py.truthy a then Py.Ok (Some (a, category)) else Py.Ok None
          | None => Py.Ok None
          end
      end
  end.

(** [except (json.JSONDecodeError, AttributeError): continue] *)
Definition skipped (e : Py.exn) : bool :=
  match e with
  | Py.JSONDecodeError | Py.AttributeError => true
  | _ => false
  end.

Fixpoint extract_blocks (blocks : list string) : Py.result (Py.json * Py.json) :=
  match blocks with
  | [] => Py.Ok (Py.JObj [], Py.JNull)
  | text :: more =>
      match jsonld_block text with
      | Py.Ok (Some found) => Py.Ok found
      | Py.Ok None => extract_blocks more
      | Py.Raise e => if skipped e then extract_blocks more else Py.Raise e
      end
  end.

Definition extract_jsonld (html : string) : Py.result (Py.json * Py.json) :=
  extract_blocks (Py.finditer jsonld_re html).

(** **** [scrape_article]: what is done with a page that was read *)

(** Title *)
Definition page_title (data : Py.json) (html : string) : Py.result string :=
  let title_match := Py.search title_re html in
  headline ← Py.get data "headline" Py.JNull;
  let title :=
    if Py.truthy headline then headline
    else Py.JStr (match title_match with
                  | Some m => Py.group1 m
                  | None => "Unknown"
                  end) in
  match title with
  | Py.JStr t => Py.Ok (Py.strip (Py.replace " | The Payments Association" "" t))
  | _ => Py.Raise Py.AttributeError
  end.

(** Publication date *)
Definition page_pub_date (data : Py.json) : Py.result (option datetime) :=
  date_str ← Py.get data "datePublished" (Py.JStr "");
  if Py.truthy date_str
  then match date_str with
       | Py.JStr s =>
           match fromisoformat s with
           | Some d => Py.Ok (Some d)
           | None => Py.Raise Py.ValueError
           end
       | _ => Py.Raise Py.TypeError
       end
  else Py.Ok None.

(** Author *)
Definition page_author (data : Py.json) : Py.result Py.json :=
  author_data ← Py.get data "author" (Py.JObj []);
  let author_data :=
    match author_data with
    | Py.JArr l => match l with first :: _ => first | [] => Py.JObj [] end
    | _ => author_data
    end in
  Py.Ok (match author_data with
         | Py.JObj m => default (Py.JStr "Unknown") (Py.assoc "name" m)
         | _ => Py.JStr "Unknown"
         end).

(** Article type: the three-strategy fallback chain *)
Definition page_article_type (html : string) (breadcrumb_category : Py.json) : Py.json :=
  let article_type := Py.JStr "Unknown" in
  let container_match := Py.search container_re html in
  let article_type :=
    match container_match with
    | Some cm =>
        match Py.search filter_types_re (Py.group1 cm) with
        | Some type_match =>
            let raw := Py.group1 type_match in
            Py.JStr (default (humanize raw) (ARTICLE_TYPE_OVERRIDES !! raw))
        | None => article_type
        end
    | None => article_type
    end in
  let article_type :=
    if is_str "Unknown" article_type && Py.truthy breadcrumb_category
    then breadcrumb_category
    else article_type in
  let article_type :=
    if is_str "Unknown" article_type
    then match container_match with
         | Some cm =>
             match Py.search category_re (Py.group1 cm) with
             | Some cat_match => Py.JStr (humanize (Py.group1 cat_match))
             | None => article_type
             end
         | None => article_type
         end
    else article_type in
  article_type.

(** Status *)
Definition page_status (pub_date : option datetime) : string * string :=
  match pub_date with
  | Some d =>
      let status := if year d <? CUTOFF_YEAR then "DELETE_CANDIDATE" else "KEEP" in
      (status,
       "Published " +:+ strftime_b_Y d +:+
       (if String.eqb status "DELETE_CANDIDATE" then "  — over 3 years old" else ""))
  | None => ("REVIEW", "Could not determine publish date")
  end.

(** Lines 110 to 166: the row that is made from a page *)
Definition build_row (u html : string) : Py.result row :=
  '(data, breadcrumb_category) ← extract_jsonld html;
  title ← page_title data html;
  pub_date ← page_pub_date data;
  author ← page_author data;
  let article_type := page_article_type html breadcrumb_category in
  let '(status, reason) := page_status pub_date in
  Py.Ok {| url := u;
           title := title;
           author := author;
           published_date :=
             match pub_date with
             | Some d => strftime_Y_m_d d
             | None => "Unknown"
             end;
           article_type := article_type;
           status := status;
           reason := reason |}.

(** What is done with a page that was read: the row is made and its line
    is printed (line 169), both inside the [try] *)
Definition page_row (u html : string) : Py.result row :=
  result ← build_row u html;
  if can_print result then Py.Ok result
  else Py.Raise (Py.Other "UnicodeEncodeError").

(** **** [scrape_article] *)

(** The body of the [try] of one attempt *)
Definition attempt_body (u : string) (attempt : nat) : Py.result (option row) :=
  resp ← session_get u attempt;
  if negb (resp_status resp =? 200) then Py.Ok None
  else
    html ← resp_text resp;
    result ← page_row u html;
    Py.Ok (Some result).

(** [except (asyncio.TimeoutError, aiohttp.ServerDisconnectedError)] *)
Definition transient (e : Py.exn) : bool :=
  match e with
  | Py.TimeoutError | Py.ServerDisconnectedError => true
  | _ => false
  end.

(** The [for attempt in range(retries)] loop, with the requests made and
    the seconds slept; falling out of the loop returns [None]. *)
Fixpoint scrape_loop (u : string) (retries : nat) (attempts : list nat)
  : option row * list event :=
  match attempts with
  | [] => (None, [])
  | attempt :: more =>
      match attempt_body u attempt with
      | Py.Ok result => (result, [Get u])
      | Py.Raise e =>
          if transient e
          then
            if Z.of_nat attempt <? Z.of_nat retries - 1
            then
              let wait := 2 ^ Z.of_nat attempt in
              let '(result, log) := scrape_loop u retries more in
              (result, Get u :: Sleep wait :: log)
            else (None, [Get u])
          else (None, [Get u])
      end
  end.

Definition scrape_article_log (u : string) (retries : nat) : option row * list event :=
  scrape_loop u retries (seq 0 retries).

Definition scrape_article (u : string) (retries : nat) : option row :=
  (scrape_article_log u retries).1.

(** **** [main] *)

(** [all_results] before it is sorted *)
Definition scrape_all (article_list : list string) : list row :=
  let raw := map (λ u, scrape_article u 3) article_list in
  omap id raw.

(** Lines 187 to 207: [all_results] once it is sorted, which is what
    line 217 writes to the CSV file *)
Definition all_results (w : world) : Py.result (list row) * world :=
  match get_article_urls_from_sitemap w with
  | (Py.Raise e, w') => (Py.Raise e, w')
  | (Py.Ok article_list, w') =>
      let all_results := scrape_all article_list in
      (Py.Ok (Py.sort_by Py.str_lt published_date all_results), w')
  end.

(** The whole run.  After the CSV file is written, [Counter] is built
    over the statuses, which are strings, and over the article types,
    where it raises [TypeError] on the first list or dict; then the
    summary is printed. *)
Definition main (w : world) : run * world :=
  match all_results w with
  | (Py.Raise e, w') => ({| csv := None; ended := Py.Raise e |}, w')
  | (Py.Ok rows, w') =>
      match write_csv rows with
      | Py.Raise e => ({| csv := None; ended := Py.Raise e |}, w')
      | Py.Ok _ =>
          if forallb (λ r, hashable (article_type r)) rows
          then ({| csv := Some rows; ended := Py.Ok (summary rows) |}, w')
          else ({| csv := Some rows; ended := Py.Raise Py.TypeError |}, w')
      end
  end.

(** **** Vocabulary of the properties *)

(** The [i]-th request of [u] ends in a timeout or a disconnection,
    raised by [session.get] or while the body is read. *)
Definition fails_transiently (u : string) (i : nat) : Prop :=
  ∃ e, transient e = true ∧
       (session_get u i = Py.Raise e ∨
        ∃ resp, session_get u i = Py.Ok resp ∧ resp_status resp = 200
                ∧ resp_text resp = Py.Raise e).

(** The [k]-th request of [u] is answered with status 200 and [html]. *)
Definition succeeds_with (u : string) (k : nat) (html : string) : Prop :=
  ∃ resp, session_get u k = Py.Ok resp ∧ resp_status resp = 200
          ∧ resp_text resp = Py.Ok html.

(** The rows of a report that are about [u] *)
Definition rows_of (u : string) (rows : list row) : list row :=
  filter (λ r, url r = u) rows.

(** What [scrape_article] returns for the outcome of [page_row] *)
Definition returned (outcome : Py.result row) : option row :=
  match outcome with
  | Py.Ok result => Some result
  | Py.Raise _ => None
  end.

End Program.

End TpaArticles.

(** ** [tpa_crawl.py] *)
Module TpaCrawl.

Definition BASE_URL : string := "https://thepaymentsassociation.org".

Definition SKIP_PATTERNS : list Py.regex :=
  [ [Py.Lit "/events/tag/"];
    [Py.Lit "/events/category/"];
    [Py.Lit "/day/"];
    Py.times 4 Py.is_digit ++ [Py.Lit "-"] ++ Py.times 2 Py.is_digit ++ [Py.Eos];
    Py.times 4 Py.is_digit ++ [Py.Lit "-"] ++ Py.times 2 Py.is_digit
      ++ [Py.Lit "-"] ++ Py.times 2 Py.is_digit;
    [Py.Lit "?"];
    [Py.Lit "/page/"];
    [Py.Lit "/feed/"];
    [Py.Lit "/author/"] ].

Definition should_skip (u : string) : bool :=
  existsb (λ pattern, bool_decide (is_Some (Py.search pattern u))) SKIP_PATTERNS.

(** [(\d{4})] *)
Definition year_re : Py.regex := [Py.Open] ++ Py.times 4 Py.is_digit ++ [Py.Close].

(** The parts of [urlparse(url)] that the program reads *)
Record ParseResult := { scheme : string; netloc : string; path : string }.

Record row := { url : string; status : string; reason : string }.

Definition status_order : gmap string Z :=
  {[ "DELETE_CANDIDATE" := 0; "DUPLICATE" := 1; "REVIEW" := 2; "KEEP" := 3 ]}.

Definition duplicate_pairs : list (string * string) :=
  [ ("/members/become-a-member", "/become-a-member");
    ("/members/purchase-membership", "/purchase-membership");
    ("/members/terms-and-conditions", "/terms-and-conditions") ].

(** The crawl: the set of visited URLs, the list of URLs still to visit
    (the next one to visit is the last), and the pages opened so far. *)
Record state := {
  visited : gset string;
  to_visit : list string;
  opened : list string
}.

Section Program.
(** [datetime.now(timezone.utc).year] when the module is loaded *)
Variable now_year : Z.
(** [urllib.parse.urlparse]; [None] is [ValueError] *)
Variable urlparse : string → option ParseResult.
(** [page.goto(url)] followed by the evaluation of the [href] of every
    link of the page; [None] when either raises *)
Variable browse : string → option (list string).

Definition CUTOFF_YEAR : Z := now_year - 3.

Definition parse (u : string) : Py.result ParseResult :=
  match urlparse u with
  | Some parsed => Py.Ok parsed
  | None => Py.Raise Py.ValueError
  end.

Definition is_top_level (u : string) : Py.result bool :=
  parsed ← parse u;
  let parts :=
    filter (λ p, p ≠ EmptyString) (Py.split "/" (path parsed)) in
  Py.Ok (bool_decide (length parts ≤ 2)%nat).

(** **** [categorise] *)

(** The loop over the duplicate pairs *)
Fixpoint find_duplicate (pairs : list (string * string)) (p : string)
  : option (string * string) :=
  match pairs with
  | [] => None
  | entry :: more =>
      if String.eqb p entry.1
      then Some ("DUPLICATE", "Possible duplicate of " +:+ BASE_URL +:+ entry.2)
      else find_duplicate more p
  end.

(** [year_match and int(year_match.group(1)) < CUTOFF_YEAR], with the
    matched year *)
Definition old_year (p : string) : option string :=
  match Py.search year_re p with
  | Some year_match =>
      if Py.int_of_digits (Py.group1 year_match) <? CUTOFF_YEAR
      then Some (Py.group1 year_match)
      else None
  | None => None
  end.

(** The body of [categorise] from the lower-cased path on, over a table
    of duplicate pairs *)
Definition categorise_path (pairs : list (string * string)) (p : string)
  : string * string :=
  match find_duplicate pairs p with
  | Some found => found
  | None =>
      if Py.contains "/gallery/" p then
        match old_year p with
        | Some y => ("DELETE_CANDIDATE", "Old gallery page from " +:+ y)
        | None => ("KEEP", "Recent gallery page")
        end
      else if Py.contains "/event/" p then
        match old_year p with
        | Some y => ("DELETE_CANDIDATE", "Past event from " +:+ y)
        | None => ("REVIEW", "Past or upcoming event — check if still relevant")
        end
      else if Py.contains "/directory/" p then
        ("REVIEW", "Check if member is still active")
      else if Py.contains "/filter_categories/" p || Py.contains "/directory_cat/" p then
        ("REVIEW", "Auto-generated category page — check if needed")
      else if Py.contains "/webinar/" p then
        match old_year p with
        | Some y => ("DELETE_CANDIDATE", "Old webinar from " +:+ y)
        | None => ("KEEP", "Webinar page")
        end
      else if Py.contains "/article/" p || Py.contains "/whitepaper/" p then
        ("KEEP", "Content page")
      else ("KEEP", "Core site page")
  end.

Definition categorise (u : string) : Py.result (string * string) :=
  parsed ← parse u;
  Py.Ok (categorise_path duplicate_pairs (Py.lower (path parsed))).

(** **** [crawl_url] *)

(** The loop over the links of a page; an exception leaves the loop with
    the links collected so far. *)
Fixpoint collect_links (links : list string) (seen : gset string)
    (new_links : list string) : list string :=
  match links with
  | [] => new_links
  | link :: more =>
      match parse link with
      | Py.Raise _ => new_links
      | Py.Ok parsed =>
          if String.eqb (netloc parsed) "thepaymentsassociation.org"
          then
            let clean :=
              scheme parsed +:+ "://" +:+ netloc parsed
                +:+ Py.rstrip_char "/" (path parsed) in
            if negb (should_skip clean)
            then
              match is_top_level clean with
              | Py.Raise _ => new_links
              | Py.Ok true =>
                  if bool_decide (clean ∉ seen)
                  then collect_links more seen (new_links ++ [clean])
                  else collect_links more seen new_links
              | Py.Ok false => collect_links more seen new_links
              end
            else collect_links more seen new_links
          else collect_links more seen new_links
      end
  end.

(** [seen] is the global [visited] when the page is opened *)
Definition crawl_url (u : string) (seen : gset string) : list string :=
  match browse u with
  | Some links => collect_links links seen []
  | None => []
  end.

(** **** [main] *)

(** The inner [while to_visit and len(batch) < 10] loop; [stack] lists
    [to_visit] from its last element to its first. *)
Fixpoint fill_batch (stack : list string) (seen : gset string) (batch : list string)
  : list string * gset string * list string :=
  match stack with
  | [] => (stack, seen, batch)
  | u :: stack' =>
      if bool_decide (length batch < 10)%nat
      then
        if bool_decide (u ∉ seen) && negb (should_skip u)
        then fill_batch stack' ({[u]} ∪ seen) (batch ++ [u])
        else fill_batch stack' seen batch
      else (stack, seen, batch)
  end.

(** One turn of the outer [while to_visit] loop; [None] when the loop is
    left. *)
Definition crawl_round (st : state) : option state :=
  match to_visit st with
  | [] => None
  | _ =>
      let '(stack, seen, batch) := fill_batch (rev (to_visit st)) (visited st) [] in
      match batch with
      | [] => None
      | _ =>
          let results := map (λ u, crawl_url u seen) batch in
          Some {| visited := seen;
                  to_visit := rev stack ++ concat results;
                  opened := opened st ++ batch |}
      end
  end.

Definition initial : state :=
  {| visited := ∅; to_visit := [BASE_URL]; opened := [] |}.

(** The outer loop, for at most [fuel] turns: [Some] when it is left *)
Fixpoint crawl (fuel : nat) (st : state) : option state :=
  match fuel with
  | O => None
  | S fuel' =>
      match crawl_round st with
      | None => Some st
      | Some st' => crawl fuel' st'
      end
  end.

(** [parsed.scheme + "://" + parsed.netloc + parsed.path.rstrip("/")], the
    value of [clean] in [crawl_url] *)
Definition clean_url (parsed : ParseResult) : string :=
  scheme parsed +:+ "://" +:+ netloc parsed +:+ Py.rstrip_char "/" (path parsed).

(** A link that passes the three tests of [crawl_url] before the test of
    [visited] *)
Definition on_site (u : string) : Prop :=
  should_skip u = false
  ∧ is_top_level u = Py.Ok true
  ∧ ∃ link parsed,
      urlparse link = Some parsed
      ∧ netloc parsed = "thepaymentsassociation.org"
      ∧ u = clean_url parsed.

(** The states that the outer loop goes through *)
Inductive reachable : state → Prop :=
| reachable_initial : reachable initial
| reachable_round (st st' : state) :
    reachable st → crawl_round st = Some st' → reachable st'.

(** The rows in the order of [sorted(visited)] *)
Fixpoint categorise_all (urls : list string) : Py.result (list row) :=
  match urls with
  | [] => Py.Ok []
  | u :: more =>
      '(status, reason) ← categorise u;
      rows ← categorise_all more;
      Py.Ok ({| url := u; status := status; reason := reason |} :: rows)
  end.

Definition status_key (x : row) : Z := default 99 (status_order !! status x).

Definition sort_rows (rows : list row) : list row :=
  Py.sort_by Z.ltb status_key rows.

(** What [main] does once the crawl is over *)
Definition report (seen : gset string) : Py.result (list row) :=
  rows ← categorise_all (Py.sort_by Py.str_lt id (elements seen));
  Py.Ok (sort_rows rows).

Definition main (fuel : nat) : option (Py.result (list row)) :=
  st ← crawl fuel initial;
  Some (report (visited st)).

End Program.

(** The number of URLs found and the four counts that [main] prints *)
Definition summary (rows : list row) : nat * nat * nat * nat * nat :=
  let counts := Py.Counter (map status rows) in
  (length rows,
   Py.count_of counts "DELETE_CANDIDATE",
   Py.count_of counts "DUPLICATE",
   Py.count_of counts "REVIEW",
   Py.count_of counts "KEEP").

End TpaCrawl.

(** ** Sample surroundings, for the examples below *)
Module Sample.
Import Py.

(** [q s] is [s] between double quotes *)
Definition q (s : string) : string :=
  String TpaArticles.dquote (s +:+ String TpaArticles.dquote EmptyString).

Fixpoint lookup {A} (table : list (string * A)) (k : string) : option A :=
  match table with
  | [] => None
  | (k', v) :: more => if String.eqb k k' then Some v else lookup more k
  end.

(** A JSON-LD graph with an article and a breadcrumb list *)
Definition graph_text (published section : string) : string :=
  "{" +:+ q "@graph" +:+ ":[{" +:+ q "@type" +:+ ":" +:+ q "Article" +:+ ","
    +:+ q "headline" +:+ ":" +:+ q "Open banking | The Payments Association" +:+ ","
    +:+ q "datePublished" +:+ ":" +:+ q published +:+ ","
    +:+ q "author" +:+ ":{" +:+ q "name" +:+ ":" +:+ q "Ann" +:+ "}},{"
    +:+ q "@type" +:+ ":" +:+ q "BreadcrumbList" +:+ ","
    +:+ q "itemListElement" +:+ ":[{" +:+ q "name" +:+ ":" +:+ q "Home" +:+ "},{"
    +:+ q "name" +:+ ":" +:+ q section +:+ "}]}]}".

Definition graph_value (published section : string) : json :=
  JObj [("@graph",
         JArr [ JObj [("@type", JStr "Article");
                      ("headline", JStr "Open banking | The Payments Association");
                      ("datePublished", JStr published);
                      ("author", JObj [("name", JStr "Ann")])];
                JObj [("@type", JStr "BreadcrumbList");
                      ("itemListElement",
                       JArr [JObj [("name", JStr "Home")];
                             JObj [("name", JStr section)]])] ])].

(** A graph whose breadcrumb names its section by a list *)
Definition listy_text : string :=
  "{" +:+ q "@graph" +:+ ":[{" +:+ q "datePublished" +:+ ":" +:+ q "2024-02-01"
    +:+ "},{" +:+ q "@type" +:+ ":" +:+ q "BreadcrumbList" +:+ ","
    +:+ q "itemListElement" +:+ ":[{" +:+ q "name" +:+ ":" +:+ q "Home" +:+ "},{"
    +:+ q "name" +:+ ":[" +:+ q "News" +:+ "]}]}]}".

Definition listy_value : json :=
  JObj [("@graph",
         JArr [ JObj [("datePublished", JStr "2024-02-01")];
                JObj [("@type", JStr "BreadcrumbList");
                      ("itemListElement",
                       JArr [JObj [("name", JStr "Home")];
                             JObj [("name", JArr [JStr "News"])]])] ])].

(** [json.loads] on the texts used below; every other text is taken as
    malformed. *)
Definition json_loads (text : string) : json + TpaArticles.json_error :=
  match
    lookup [ (graph_text "2021-05-12" "Industry News",
              graph_value "2021-05-12" "Industry News");
             (graph_text "2024-02-01" "Industry News",
              graph_value "2024-02-01" "Industry News");
             (graph_text "yesterday" "Industry News",
              graph_value "yesterday" "Industry News");
             (listy_text, listy_value);
             ("[1]", JArr [JNum 1]) ] text
  with
  | Some value => inl value
  | None => inr TpaArticles.Malformed
  end.

(** [datetime.fromisoformat] on the dates used below *)
Definition fromisoformat (s : string) : option TpaArticles.datetime :=
  lookup [ ("2021-05-12", {| TpaArticles.year := 2021; TpaArticles.month := TpaArticles.May; TpaArticles.day := 12 |});
           ("2024-02-01", {| TpaArticles.year := 2024; TpaArticles.month := TpaArticles.Feb; TpaArticles.day := 1 |}) ] s.

(** [urlparse] on absolute URLs of the form [scheme://host/path], with an
    optional [?query] and [#fragment] and no [;parameters] *)
Fixpoint upto (stop : ascii → bool) (s : string) : string :=
  match s with
  | EmptyString => EmptyString
  | String c s' => if stop c then EmptyString else String c (upto stop s')
  end.

Fixpoint from (stop : ascii → bool) (s : string) : string :=
  match s with
  | EmptyString => EmptyString
  | String c s' => if stop c then s else from stop s'
  end.

Definition urlparse (u : string) : option TpaCrawl.ParseResult :=
  let after_scheme := drop 3 (from (Ascii.eqb ":") u) in
  let ends_netloc c := Ascii.eqb c "/" || Ascii.eqb c "?" || Ascii.eqb c "#" in
  let ends_path c := Ascii.eqb c "?" || Ascii.eqb c "#" in
  Some {| TpaCrawl.scheme := upto (Ascii.eqb ":") u;
          TpaCrawl.netloc := upto ends_netloc after_scheme;
          TpaCrawl.path := upto ends_path (from ends_netloc after_scheme) |}.

(** A site of three pages: the home page links twice to [/about] and once
    to an event, [/about] links back to the home page, and the page of the
    event cannot be loaded. *)
Definition browse (u : string) : option (list string) :=
  lookup
    [ ("https://thepaymentsassociation.org",
       Some [ "https://thepaymentsassociation.org/about/";
              "https://thepaymentsassociation.org/about";
              "https://thepaymentsassociation.org/event/fintech-2023";
              "https://example.org/elsewhere" ]);
      ("https://thepaymentsassociation.org/about",
       Some [ "https://thepaymentsassociation.org/" ]) ] u
  ≫= id.

(** The sitemap index names one post sitemap, which lists four articles;
    the first request of the run fails. *)
Definition urlopen (n : nat) (u : string) : result TpaArticles.Element :=
  match n with
  | O => Raise (Other "URLError")
  | _ =>
      default (Raise (Other "HTTPError"))
        (lookup
           [ ("https://thepaymentsassociation.org/sitemap.xml",
              Ok [ Some "https://thepaymentsassociation.org/post-sitemap.xml";
                   Some "https://thepaymentsassociation.org/page-sitemap.xml" ]);
             ("https://thepaymentsassociation.org/post-sitemap.xml",
              Ok [ Some "https://thepaymentsassociation.org/article/old/";
                   Some "https://thepaymentsassociation.org/article/new/";
                   Some "https://thepaymentsassociation.org/article/undated";
                   Some "https://thepaymentsassociation.org/article/gone/";
                   None ]) ] u)
  end.

Definition script (text : string) : string :=
  "<script type=" +:+ q "application/ld+json" +:+ ">" +:+ text +:+ "</script>".

Definition page (published : string) : string :=
  "<html><head><title>Open banking</title>"
    +:+ script (graph_text published "Industry News")
    +:+ "</head><body class=" +:+ q "elementor-location-single category-news" +:+ "></body></html>".

Definition undated_page : string :=
  "<html><head><title>Undated | The Payments Association</title></head></html>".

(** A page whose breadcrumb names its section by a list *)
Definition listy_page : string :=
  "<html><head><title>Listy</title>" +:+ script listy_text +:+ "</head></html>".

Definition bare_page : string := "<html></html>".

(** The old article is served at the third request, after a timeout and a
    disconnection; the new and the undated one are served at once, and so
    are an article dated [yesterday], an article with a list for its
    section and an article without a title; the connection to one article
    is reset at the first request; any other URL is answered with 404. *)
Definition session_get (u : string) (attempt : nat) : result TpaArticles.response :=
  if String.eqb u "https://thepaymentsassociation.org/article/undatable" then
    Ok {| TpaArticles.resp_status := 200;
          TpaArticles.resp_text := Ok (page "yesterday") |}
  else if String.eqb u "https://thepaymentsassociation.org/article/listy" then
    Ok {| TpaArticles.resp_status := 200; TpaArticles.resp_text := Ok listy_page |}
  else if String.eqb u "https://thepaymentsassociation.org/article/untitled" then
    Ok {| TpaArticles.resp_status := 200; TpaArticles.resp_text := Ok bare_page |}
  else if String.eqb u "https://thepaymentsassociation.org/article/reset" then
    match attempt with
    | 0%nat => Raise (Other "ClientOSError")
    | _ =>
        Ok {| TpaArticles.resp_status := 200;
              TpaArticles.resp_text := Ok (page "2024-02-01") |}
    end
  else if String.eqb u "https://thepaymentsassociation.org/article/old" then
    match attempt with
    | 0%nat => Raise TimeoutError
    | 1%nat =>
        Ok {| TpaArticles.resp_status := 200;
              TpaArticles.resp_text := Raise ServerDisconnectedError |}
    | _ =>
        Ok {| TpaArticles.resp_status := 200;
              TpaArticles.resp_text := Ok (page "2021-05-12") |}
    end
  else if String.eqb u "https://thepaymentsassociation.org/article/new" then
    Ok {| TpaArticles.resp_status := 200;
          TpaArticles.resp_text := Ok (page "2024-02-01") |}
  else if String.eqb u "https://thepaymentsassociation.org/article/undated" then
    Ok {| TpaArticles.resp_status := 200; TpaArticles.resp_text := Ok undated_page |}
  else
    Ok {| TpaArticles.resp_status := 404; TpaArticles.resp_text := Ok "" |}.

Definition w0 : TpaArticles.world :=
  {| TpaArticles.requests := 0; TpaArticles.slept := [] |}.


(** Two hash orders, under which a set of two is listed in opposite
    orders *)
Definition hash_lt (a b : string) : bool := false.
Definition hash_gt (a b : string) : bool := true.

(** Every row can be printed, and the file system does not fail. *)
Definition can_print (r : TpaArticles.row) : bool := true.
Definition write_csv (rows : list TpaArticles.row) : result unit := Ok tt.

(** The article URLs of the sample sitemaps and the report of the run *)
Definition article_list : list string :=
  Eval vm_compute in
    match TpaArticles.get_article_urls_from_sitemap urlopen hash_lt w0 with
    | (Ok urls, _) => urls
    | (Raise _, _) => []
    end.

Definition rows : list TpaArticles.row :=
  Eval vm_compute in
    match
      TpaArticles.all_results 2025 json_loads fromisoformat urlopen session_get
        hash_lt can_print w0
    with
    | (Ok report, _) => report
    | (Raise _, _) => []
    end.


Definition urlopen_ties (n : nat) (u : string) : result TpaArticles.Element :=
  default (Raise (Other "HTTPError"))
    (lookup
       [ ("https://thepaymentsassociation.org/sitemap.xml",
          Ok [ Some "https://thepaymentsassociation.org/post-sitemap.xml" ]);
         ("https://thepaymentsassociation.org/post-sitemap.xml",
          Ok [ Some "https://thepaymentsassociation.org/article/undated";
               Some "https://thepaymentsassociation.org/article/untitled" ]) ] u).

Definition w1 : TpaArticles.world :=
  {| TpaArticles.requests := 3; TpaArticles.slept := [5] |}.

(** The row of the old article *)
Definition old_row : TpaArticles.row :=
  {| TpaArticles.url := "https://thepaymentsassociation.org/article/old";
     TpaArticles.title := "Open banking";
     TpaArticles.author := JStr "Ann";
     TpaArticles.published_date := "2021-05-12";
     TpaArticles.article_type := JStr "Industry News";
     TpaArticles.status := "DELETE_CANDIDATE";
     TpaArticles.reason := "Published May 2021  — over 3 years old" |}.

(** A page whose only JSON-LD block is cut short *)
Definition broken_page : string :=
  "<html><head><title>Fees | The Payments Association</title>"
    +:+ script "{" +:+ "</head></html>".

(** A page whose main container is marked [filter_types-unknown] *)
Definition marked_page : string :=
  "<div class="
    +:+ q "elementor elementor-location-single filter_types-unknown category-news"
    +:+ "></div>".

(** The crawl after its first turn *)
Definition after_home : TpaCrawl.state :=
  {| TpaCrawl.visited := {[ TpaCrawl.BASE_URL ]};
     TpaCrawl.to_visit :=
       [ "https://thepaymentsassociation.org/about";
         "https://thepaymentsassociation.org/about";
         "https://thepaymentsassociation.org/event/fintech-2023" ];
     TpaCrawl.opened := [ TpaCrawl.BASE_URL ] |}.

(** The crawl of the sample site when it ends: the event was opened
    before [/about], which was popped after it. *)
Definition final : TpaCrawl.state :=
  {| TpaCrawl.visited :=
       {[ TpaCrawl.BASE_URL;
          "https://thepaymentsassociation.org/about";
          "https://thepaymentsassociation.org/event/fintech-2023" ]};
     TpaCrawl.to_visit := [];
     TpaCrawl.opened :=
       [ TpaCrawl.BASE_URL;
         "https://thepaymentsassociation.org/event/fintech-2023";
         "https://thepaymentsassociation.org/about" ] |}.

(** The clean URLs of the on-site links of the sample site *)
Definition site : list string :=
  [ "https://thepaymentsassociation.org/about";
    "https://thepaymentsassociation.org/event/fintech-2023";
    "https://thepaymentsassociation.org" ].

(** The report of the crawl of the sample site *)
Definition crawl_rows : list TpaCrawl.row :=
  [ {| TpaCrawl.url := "https://thepaymentsassociation.org/event/fintech-2023";
       TpaCrawl.status := "REVIEW";
       TpaCrawl.reason := "Past or upcoming event — check if still relevant" |};
    {| TpaCrawl.url := "https://thepaymentsassociation.org";
       TpaCrawl.status := "KEEP";
       TpaCrawl.reason := "Core site page" |};
    {| TpaCrawl.url := "https://thepaymentsassociation.org/about";
       TpaCrawl.status := "KEEP";
       TpaCrawl.reason := "Core site page" |} ].

(** A page whose JSON-LD block is a list of numbers *)
Definition numbers_page : string := script "[1]".

End Sample.


(** ** The fallback chain and the path rules, as the specification words them *)
Module Claims.
Import Py.

(** *** The article type *)

(** (a) the [filter_types-*] class of the main container, through the
    override table or humanized *)
Definition type_marker (html : string) : option json :=
  cm ← search TpaArticles.container_re html;
  type_match ← search TpaArticles.filter_types_re (group1 cm);
  let slug := group1 type_match in
  Some (JStr (default (TpaArticles.humanize slug)
                (TpaArticles.ARTICLE_TYPE_OVERRIDES !! slug))).

(** (b) the category of the breadcrumb *)
Definition breadcrumb_type (breadcrumb_category : json) : option json :=
  if truthy breadcrumb_category then Some breadcrumb_category else None.

(** (c) the [category-*] class of the main container *)
Definition category_marker (html : string) : option json :=
  cm ← search TpaArticles.container_re html;
  cat_match ← search TpaArticles.category_re (group1 cm);
  Some (JStr (TpaArticles.humanize (group1 cat_match))).

Definition strategies (html : string) (breadcrumb_category : json) : list (option json) :=
  [ type_marker html; breadcrumb_type breadcrumb_category; category_marker html ].

(** Each strategy is tried only if the previous ones yielded nothing. *)
Fixpoint first_of (candidates : list (option json)) : json :=
  match candidates with
  | [] => JStr "Unknown"
  | Some v :: _ => v
  | None :: more => first_of more
  end.

(** Each strategy is tried only if the previous ones yielded nothing or
    the label [Unknown]. *)
Fixpoint first_known (candidates : list (option json)) : json :=
  match candidates with
  | [] => JStr "Unknown"
  | Some v :: more => if TpaArticles.is_str "Unknown" v then first_known more else v
  | None :: more => first_known more
  end.

(** Every field that the extractor fills is [Unknown]. *)
Definition all_unknown (r : TpaArticles.row) : Prop :=
  TpaArticles.title r = "Unknown"
  ∧ TpaArticles.author r = JStr "Unknown"
  ∧ TpaArticles.published_date r = "Unknown"
  ∧ TpaArticles.article_type r = JStr "Unknown".

(** *** The work items *)

(** Every article URL has exactly one row in the report. *)
Definition every_item_reported (article_list : list string)
    (rows : list TpaArticles.row) : Prop :=
  ∀ u, u ∈ article_list → ∃ r, TpaArticles.rows_of u rows = [r].

(** No URL is pending twice. *)
Definition queued_once (st : TpaCrawl.state) : Prop := NoDup (TpaCrawl.to_visit st).

(** *** The path rules *)

Definition rule := string → option (string * string).

(** The runs of digits of a text, from left to right; [run] is the run
    that is being read. *)
Fixpoint digit_runs (run : string) (p : string) : list string :=
  match p with
  | EmptyString => if String.eqb run EmptyString then [] else [run]
  | String c p' =>
      if is_digit c then digit_runs (run +:+ String c EmptyString) p'
      else (if String.eqb run EmptyString then [] else [run])
             ++ digit_runs EmptyString p'
  end.

(** The 4-digit years embedded in a path: its numbers of four digits *)
Definition embedded_years (p : string) : list string :=
  filter (λ run, String.length run = 4%nat) (digit_runs EmptyString p).

(** A text that begins with four digits *)
Definition begins_with_year (p : string) : bool :=
  match p with
  | String a (String b (String c (String d _))) =>
      is_digit a && is_digit b && is_digit c && is_digit d
  | _ => false
  end.

(** The first four consecutive digits of a path, whatever stands before
    and after them *)
Fixpoint first_four_digits (p : string) : option string :=
  if begins_with_year p then Some (take 4 p)
  else match p with
       | String _ p' => first_four_digits p'
       | EmptyString => None
       end.

Section Rules.
Variable now_year : Z.
Variable pairs : list (string * string).

Definition duplicate_rule : rule := TpaCrawl.find_duplicate pairs.

(** An embedded 4-digit year older than the cutoff, in the words of the
    specification: the first such year of the path *)
Definition embedded_old_year (p : string) : option string :=
  find (λ y, int_of_digits y <? now_year - 3) (embedded_years p).

(** The year that [categorise] reads: the first four consecutive digits, if
    they make a number below the cutoff *)
Definition leading_old_year (p : string) : option string :=
  match first_four_digits p with
  | Some y => if int_of_digits y <? now_year - 3 then Some y else None
  | None => None
  end.

(** A marker whose pages are dated by a year of the path, which [old]
    finds when it is before the cutoff *)
Definition dated_rule (old : string → option string) (marker old_reason : string)
    (otherwise : string * string) : rule :=
  λ p, if contains marker p
       then Some (match old p with
                  | Some y => ("DELETE_CANDIDATE", old_reason +:+ y)
                  | None => otherwise
                  end)
       else None.

Definition marker_rule (markers : list string) (verdict : string * string) : rule :=
  λ p, if existsb (λ marker, contains marker p) markers then Some verdict else None.

Definition gallery_rule (old : string → option string) : rule :=
  dated_rule old "/gallery/" "Old gallery page from " ("KEEP", "Recent gallery page").
Definition webinar_rule (old : string → option string) : rule :=
  dated_rule old "/webinar/" "Old webinar from " ("KEEP", "Webinar page").
Definition event_rule (old : string → option string) : rule :=
  dated_rule old "/event/" "Past event from "
    ("REVIEW", "Past or upcoming event — check if still relevant").
Definition directory_rule : rule :=
  marker_rule ["/directory/"] ("REVIEW", "Check if member is still active").
Definition generated_rule : rule :=
  marker_rule ["/filter_categories/"; "/directory_cat/"]
    ("REVIEW", "Auto-generated category page — check if needed").
Definition content_rule : rule :=
  marker_rule ["/article/"; "/whitepaper/"] ("KEEP", "Content page").

(** First match wins; a path that no rule matches is a core site page. *)
Fixpoint first_match (rules : list rule) (p : string) : string * string :=
  match rules with
  | [] => ("KEEP", "Core site page")
  | r :: more =>
      match r p with
      | Some verdict => verdict
      | None => first_match more p
      end
  end.

(** The rules as the specification lists them: [/webinar/] with
    [/gallery/], and a page old when a 4-digit year embedded in its path is
    before the cutoff *)
Definition rules_as_listed : list rule :=
  [ duplicate_rule; gallery_rule embedded_old_year; webinar_rule embedded_old_year;
    event_rule embedded_old_year; directory_rule; generated_rule; content_rule ].

(** The rules as [categorise] tests them: [/webinar/] after the generated
    pages, and a page old when the first four consecutive digits of its
    path make a number below the cutoff *)
Definition rules_as_tested : list rule :=
  [ duplicate_rule; gallery_rule leading_old_year; event_rule leading_old_year;
    directory_rule; generated_rule; webinar_rule leading_old_year; content_rule ].
End Rules.

End Claims.

(** ** The order that lists a set as a given list *)
Module Orders.

(** The place of a text in a list *)
Fixpoint index_of (x : string) (l : list string) : nat :=
  match l with
  | [] => O
  | y :: l' => if String.eqb x y then O else S (index_of x l')
  end.

(** [a] stands before [b] in [l] *)
Definition order_of (l : list string) (a b : string) : bool :=
  (index_of a l <? index_of b l)%nat.

End Orders.

(** ** What the patterns of the crawl match, in plain terms *)

Module Shapes.

(** The patterns of [SKIP_PATTERNS] that are literal texts *)
Definition skip_markers : list string :=
  [ "/events/tag/"; "/events/category/"; "/day/"; "?"; "/page/"; "/feed/";
    "/author/" ].

(** A string of exactly [n] digits *)
Fixpoint digits (n : nat) (s : string) : bool :=
  match n, s with
  | O, EmptyString => true
  | S n', String c s' => Py.is_digit c && digits n' s'
  | _, _ => false
  end.

(** [YYYY-MM] and [YYYY-MM-DD] *)
Definition year_month (d : string) : Prop :=
  ∃ y m, d = y +:+ "-" +:+ m ∧ digits 4 y = true ∧ digits 2 m = true.

Definition year_month_day (d : string) : Prop :=
  ∃ y m day,
    d = y +:+ "-" +:+ m +:+ "-" +:+ day
    ∧ digits 4 y = true ∧ digits 2 m = true ∧ digits 2 day = true.

Definition newline : string := String "010" EmptyString.

(** [' '.join(slug.split('-'))] character by character *)
Definition hyphen_to_space (c : ascii) : ascii :=
  if Ascii.eqb c "-" then " "%char else c.

End Shapes.

(** * Properties *)

(** ** The order on strings *)

Lemma ascii_compare_lt_trans (a b c : ascii) :
  Ascii.compare a b = Lt → Ascii.compare b c = Lt → Ascii.compare a c = Lt.
Proof.
  unfold Ascii.compare. rewrite !N.compare_lt_iff. lia.
Qed.

Lemma ascii_compare_refl (a : ascii) : Ascii.compare a a = Eq.
Proof. unfold Ascii.compare. apply N.compare_refl. Qed.

Lemma string_compare_lt_trans (a b c : string) :
  String.compare a b = Lt → String.compare b c = Lt → String.compare a c = Lt.
Proof.
  revert b c. induction a as [|x a IH]; intros [|y b] [|z c]; simpl; try done.
  destruct (Ascii.compare x y) eqn:Hxy; try done.
  - apply Ascii.compare_eq_iff in Hxy as ->.
    destruct (Ascii.compare y z); try done. apply IH.
  - intros _. destruct (Ascii.compare y z) eqn:Hyz; try done.
    + apply Ascii.compare_eq_iff in Hyz as <-. by rewrite Hxy.
    + by rewrite (ascii_compare_lt_trans x y z).
Qed.

Lemma str_lt_irrefl (a : string) : Py.str_lt a a = false.
Proof.
  unfold Py.str_lt, String.ltb.
  assert (String.compare a a = Eq) as ->; [|done].
  induction a as [|x a IH]; simpl; [done|]. by rewrite ascii_compare_refl.
Qed.

Lemma str_lt_asym (a b : string) : Py.str_lt a b = true → Py.str_lt b a = false.
Proof.
  unfold Py.str_lt, String.ltb. rewrite (String.compare_antisym b a).
  destruct (String.compare a b); simpl; done.
Qed.

Lemma str_le_trans (a b c : string) :
  Py.str_lt b a = false → Py.str_lt c b = false → Py.str_lt c a = false.
Proof.
  unfold Py.str_lt, String.ltb. intros Hba Hcb.
  destruct (String.compare c a) eqn:Hca; try done.
  destruct (String.compare b a) eqn:Hba'; try done.
  - apply String.compare_eq_iff in Hba' as ->. by rewrite Hca in Hcb.
  - destruct (String.compare c b) eqn:Hcb'; try done.
    + apply String.compare_eq_iff in Hcb' as ->. congruence.
    + rewrite String.compare_antisym in Hba'.
      destruct (String.compare a b) eqn:Hab; try done.
      pose proof (string_compare_lt_trans _ _ _ Hca Hab) as Hcb2. congruence.
Qed.

(** ** Substrings *)

Lemma string_app_cons (x : ascii) (a b : string) :
  String x a +:+ b = String x (a +:+ b).
Proof. reflexivity. Qed.





(** ** The stable sort *)
Section SortFacts.
Context {A K : Type} `{EqDecision K} (lt : K → K → bool) (key : A → K).
Hypothesis lt_irrefl : ∀ a, lt a a = false.
Hypothesis lt_asym : ∀ a b, lt a b = true → lt b a = false.
Hypothesis le_trans : ∀ a b c, lt b a = false → lt c b = false → lt c a = false.

Local Abbreviation ascending := (Py.ascending lt key).

Lemma insert_by_Permutation (x : A) (l : list A) :
  Permutation (x :: l) (Py.insert_by lt key x l).
Proof.
  induction l as [|y l IH]; simpl; [done|].
  destruct (lt (key y) (key x)); [|done].
  rewrite <- IH. apply perm_swap.
Qed.

Lemma sort_by_Permutation (l : list A) : Permutation l (Py.sort_by lt key l).
Proof.
  induction l as [|x l IH]; simpl; [done|].
  rewrite <- insert_by_Permutation. by constructor.
Qed.

Lemma insert_by_sorted (x : A) (l : list A) :
  StronglySorted ascending l → StronglySorted ascending (Py.insert_by lt key x l).
Proof.
  induction 1 as [|y l Hl IH Hy]; simpl.
  - repeat constructor.
  - destruct (lt (key y) (key x)) eqn:Hyx.
    + constructor; [done|].
      rewrite <- insert_by_Permutation. constructor; [|done].
      by apply lt_asym.
    + constructor; [by constructor|].
      constructor; [done|].
      eapply Forall_impl; [exact Hy|]. intros z Hz. by eapply le_trans.
Qed.

Lemma sort_by_sorted (l : list A) : StronglySorted ascending (Py.sort_by lt key l).
Proof.
  induction l as [|x l IH]; simpl; [constructor|]. by apply insert_by_sorted.
Qed.

Lemma insert_by_stable (k : K) (x : A) (l : list A) :
  filter (λ y, key y = k) (Py.insert_by lt key x l)
  = filter (λ y, key y = k) (x :: l).
Proof.
  induction l as [|y l IH]; simpl; [done|].
  destruct (lt (key y) (key x)) eqn:Hyx; [|done].
  rewrite !filter_cons, IH, !filter_cons.
  destruct (decide (key y = k)) as [Hy|]; [|done].
  destruct (decide (key x = k)) as [Hx|]; [|done].
  rewrite Hy, Hx, lt_irrefl in Hyx. done.
Qed.

(** Rows of equal key keep the order they had *)
Lemma sort_by_stable (k : K) (l : list A) :
  filter (λ y, key y = k) (Py.sort_by lt key l) = filter (λ y, key y = k) l.
Proof.
  induction l as [|x l IH]; simpl; [done|].
  rewrite insert_by_stable, !filter_cons, IH. done.
Qed.

Lemma sorted_lookup (l : list A) (i j : nat) (x y : A) :
  StronglySorted ascending l → l !! i = Some x → l !! j = Some y →
  (i < j)%nat → ascending x y.
Proof.
  intros Hl. revert i j. induction Hl as [|z l Hl IH Hz]; intros i j Hi Hj Hij.
  - done.
  - destruct j as [|j]; [lia|]. simpl in Hj. destruct i as [|i]; simpl in Hi.
    + injection Hi as ->. rewrite Forall_forall in Hz. apply Hz.
      by eapply list_elem_of_lookup_2.
    + eapply IH; [done..|lia].
Qed.
End SortFacts.

(** Two sorted lists with the same members are equal. *)
Lemma sorted_perm_eq {A} (R : A → A → Prop) (l1 l2 : list A) :
  (∀ x y, x ∈ l1 → y ∈ l1 → R x y → R y x → x = y) →
  StronglySorted R l1 → StronglySorted R l2 → l1 ≡ₚ l2 → l1 = l2.
Proof.
  intros Hanti Hl1. revert l2 Hanti.
  induction Hl1 as [|x l1 Hl1 IH Hx]; intros l2 Hanti Hl2 Hperm.
  - by apply Permutation_nil_l in Hperm.
  - destruct Hl2 as [|y l2 Hl2 Hy].
    { by apply Permutation_nil_r in Hperm. }
    assert (x = y) as <-.
    { assert (x ∈ y :: l2) as Hxin by (rewrite <- Hperm; left).
      assert (y ∈ x :: l1) as Hyin by (rewrite Hperm; left).
      apply elem_of_cons in Hxin as [?|Hxin]; [done|].
      apply elem_of_cons in Hyin as [?|Hyin]; [done|].
      rewrite Forall_forall in Hx, Hy.
      apply Hanti; [left|by right|by apply Hx|by apply Hy]. }
    f_equal. apply IH; [|done|by eapply Permutation_cons_inv].
    intros a b Ha Hb. apply Hanti; by right.
Qed.

Lemma sorted_from_lookup {A} (R : A → A → Prop) (l : list A) :
  (∀ i j x y, l !! i = Some x → l !! j = Some y → (i < j)%nat → R x y) →
  StronglySorted R l.
Proof.
  induction l as [|z l IH]; intros Hl; constructor.
  - apply IH. intros i j x y Hi Hj Hij. apply (Hl (S i) (S j)); [done|done|lia].
  - apply Forall_forall. intros y Hy.
    apply list_elem_of_lookup_1 in Hy as [j Hj].
    apply (Hl O (S j)); [done|done|lia].
Qed.

Lemma index_of_lookup (l : list string) (i : nat) (x : string) :
  NoDup l → l !! i = Some x → Orders.index_of x l = i.
Proof.
  intros Hnd. revert i. induction Hnd as [|y l Hy Hnd IH]; intros i Hi; [done|].
  simpl. destruct i as [|i]; simpl in Hi.
  - injection Hi as ->. by rewrite String.eqb_refl.
  - destruct (String.eqb_spec x y) as [->|_].
    + exfalso. apply Hy. by eapply list_elem_of_lookup_2.
    + f_equal. by apply IH.
Qed.

Lemma lookup_index_of (l : list string) (x : string) :
  x ∈ l → l !! Orders.index_of x l = Some x.
Proof.
  induction l as [|y l IH]; intros Hx; [by apply elem_of_nil in Hx|].
  simpl. destruct (String.eqb_spec x y) as [->|Hne]; [done|].
  apply elem_of_cons in Hx as [?|Hx]; [done|]. by apply IH.
Qed.

Lemma order_of_asym (l : list string) (a b : string) :
  Orders.order_of l a b = true → Orders.order_of l b a = false.
Proof. unfold Orders.order_of. rewrite Nat.ltb_lt, Nat.ltb_ge. lia. Qed.

Lemma order_of_trans (l : list string) (a b c : string) :
  Orders.order_of l b a = false → Orders.order_of l c b = false →
  Orders.order_of l c a = false.
Proof. unfold Orders.order_of. rewrite !Nat.ltb_ge. lia. Qed.

(** X22: the model of [list(s)] leaves the order of the members open:
    whatever list holds the members of the set once each, there is a hash
    order under which the set is listed as that list. *)
Theorem X22_any_order_is_a_hash_order (s : gset string) (l : list string) :
  l ≡ₚ elements s → TpaArticles.listed (Orders.order_of l) s = l.
Proof.
  intros Hperm.
  assert (NoDup l) as Hnd by (rewrite Hperm; apply NoDup_elements).
  assert (Py.sort_by (Orders.order_of l) id (elements s) ≡ₚ l) as Hsorted.
  { by rewrite <- (sort_by_Permutation (Orders.order_of l) id), Hperm. }
  unfold TpaArticles.listed.
  apply (sorted_perm_eq (Py.ascending (Orders.order_of l) id)); [| | |done].
  - intros x y Hx Hy Hxy Hyx. rewrite Hsorted in Hx, Hy.
    assert (Orders.index_of x l = Orders.index_of y l) as Heq.
    { unfold Py.ascending, Orders.order_of in *. simpl in *.
      apply Nat.ltb_ge in Hxy, Hyx. lia. }
    apply lookup_index_of in Hx, Hy. rewrite Heq in Hx. congruence.
  - apply sort_by_sorted; [apply order_of_asym|apply order_of_trans].
  - apply sorted_from_lookup. intros i j x y Hi Hj Hij.
    unfold Py.ascending, Orders.order_of. simpl.
    rewrite (index_of_lookup l i x), (index_of_lookup l j y) by done.
    apply Nat.ltb_ge. lia.
Qed.

(** ** Exceptions of the library functions *)

Lemma bind_Ok {A B} (m : Py.result A) (k : A → Py.result B) (b : B) :
  m ≫= k = Py.Ok b → ∃ a, m = Py.Ok a ∧ k a = Py.Ok b.
Proof. destruct m as [a|e]; simpl; [eauto|done]. Qed.

Lemma bind_Raise {A B} (m : Py.result A) (k : A → Py.result B) (e : Py.exn) :
  m ≫= k = Py.Raise e → m = Py.Raise e ∨ ∃ a, m = Py.Ok a ∧ k a = Py.Raise e.
Proof. destruct m as [a|e']; simpl; [eauto|]. intros [= ->]. by left. Qed.

Lemma get_raises d k v e : Py.get d k v = Py.Raise e → Py.from_values e.
Proof. destruct d; simpl; intros [= <-]; unfold Py.from_values; auto. Qed.

Lemma has_raises k d e : Py.has k d = Py.Raise e → Py.from_values e.
Proof. destruct d; simpl; intros [= <-]; unfold Py.from_values; auto. Qed.

Lemma iter_raises v e : Py.iter v = Py.Raise e → Py.from_values e.
Proof. destruct v; simpl; intros [= <-]; unfold Py.from_values; auto. Qed.

Lemma len_raises v e : Py.len v = Py.Raise e → Py.from_values e.
Proof. destruct v; simpl; intros [= <-]; unfold Py.from_values; auto. Qed.

Lemma item1_raises v e : Py.item1 v = Py.Raise e → Py.from_values e.
Proof.
  destruct v as [| | |s|l|m]; simpl; try (intros [= <-]; unfold Py.from_values; auto).
  - destruct s as [|? [|? ?]]; intros [= <-]; unfold Py.from_values; auto.
  - destruct l as [|? [|? ?]]; intros [= <-]; unfold Py.from_values; auto.
Qed.

Lemma first_where_raises f l e :
  (∀ d e', f d = Py.Raise e' → Py.from_values e') →
  Py.first_where f l = Py.Raise e → Py.from_values e.
Proof.
  intros Hf. induction l as [|d l IH]; simpl; [done|].
  destruct (f d) as [[|]|e'] eqn:Hd; [done|done|].
  intros [= <-]. by eapply Hf.
Qed.

(** ** [tpa_articles.py]: the page, the retries, the report *)
(** *** Labels made from slugs *)

Lemma to_lower_to_upper (c : ascii) : Py.to_lower (Py.to_upper c) = Py.to_lower c.
Proof. by destruct c as [[] [] [] [] [] [] [] []]; vm_compute. Qed.

Lemma to_lower_hyphen (c : ascii) :
  Ascii.eqb (Py.to_lower c) "-" = Ascii.eqb c "-".
Proof. by destruct c as [[] [] [] [] [] [] [] []]; vm_compute. Qed.

Lemma lower_app (a b : string) : Py.lower (a +:+ b) = Py.lower a +:+ Py.lower b.
Proof.
  induction a as [|c a IH]; [done|].
  rewrite string_app_cons. unfold Py.lower in *. simpl.
  by rewrite string_app_cons, IH.
Qed.

Lemma to_lower_idem (c : ascii) : Py.to_lower (Py.to_lower c) = Py.to_lower c.
Proof. by destruct c as [[] [] [] [] [] [] [] []]; vm_compute. Qed.

Lemma lower_idem (s : string) : Py.lower (Py.lower s) = Py.lower s.
Proof.
  unfold Py.lower. induction s as [|c s IH]; [done|].
  cbn [Py.map_string]. by rewrite IH, to_lower_idem.
Qed.

Lemma lower_capitalize (w : string) : Py.lower (Py.capitalize w) = Py.lower w.
Proof.
  destruct w as [|c w]; [done|].
  change (String (Py.to_lower (Py.to_upper c)) (Py.lower (Py.lower w))
          = String (Py.to_lower c) (Py.lower w)).
  by rewrite to_lower_to_upper, lower_idem.
Qed.

Lemma lower_join (sep : string) (l : list string) :
  Py.lower (Py.join sep l) = Py.join (Py.lower sep) (map Py.lower l).
Proof.
  induction l as [|w [|w' l] IH]; [done|done|].
  change (Py.join sep (w :: w' :: l)) with (w +:+ sep +:+ Py.join sep (w' :: l)).
  rewrite !lower_app, IH. done.
Qed.

Lemma split_cons (sep : ascii) (s : string) : ∃ w ws, Py.split sep s = w :: ws.
Proof.
  induction s as [|c s (w & ws & IH)]; simpl; [by eauto|].
  destruct (Ascii.eqb c sep); [by eauto|]. rewrite IH. by eauto.
Qed.

Lemma join_cons (sep w w' : string) (l : list string) :
  Py.join sep (w :: w' :: l) = w +:+ sep +:+ Py.join sep (w' :: l).
Proof. reflexivity. Qed.

Lemma join_cons_char (sep : string) (c : ascii) (w : string) (l : list string) :
  Py.join sep (String c w :: l) = String c (Py.join sep (w :: l)).
Proof. destruct l; [done|]. by rewrite !join_cons, string_app_cons. Qed.

Lemma join_split_lower (s : string) :
  Py.join " " (map Py.lower (Py.split "-" s))
  = Py.map_string Shapes.hyphen_to_space (Py.lower s).
Proof.
  induction s as [|c s IH]; [done|].
  destruct (split_cons "-" s) as (w & ws & Hs). rewrite Hs in IH.
  unfold Py.lower in *. cbn [Py.split Py.map_string]. rewrite Hs.
  unfold Shapes.hyphen_to_space at 1. rewrite to_lower_hyphen.
  destruct (Ascii.eqb_spec c "-") as [->|Hne].
  - cbn [map]. cbn [map] in IH. rewrite join_cons, IH. done.
  - cbn [map Py.map_string]. rewrite join_cons_char. by rewrite <- IH.
Qed.

(** X19: the label that the program makes from a slug (the words between
    the hyphens, capitalized and joined by spaces) is, letter case apart,
    the slug with a space for every hyphen: no character is lost or
    added. *)
Theorem X19_humanize (slug : string) :
  Py.lower (TpaArticles.humanize slug)
  = Py.map_string Shapes.hyphen_to_space (Py.lower slug)
  ∧ String.length (TpaArticles.humanize slug) = String.length slug.
Proof.
  assert (Py.lower (TpaArticles.humanize slug)
          = Py.map_string Shapes.hyphen_to_space (Py.lower slug)) as Hlower.
  { unfold TpaArticles.humanize. rewrite lower_join, map_map.
    rewrite (map_ext _ Py.lower) by apply lower_capitalize.
    apply join_split_lower. }
  split; [done|].
  assert (∀ f s, String.length (Py.map_string f s) = String.length s) as Hlen.
  { intros f s. induction s as [|c s IH]; [done|]. simpl. by rewrite IH. }
  rewrite <- (Hlen Py.to_lower (TpaArticles.humanize slug)).
  fold (Py.lower (TpaArticles.humanize slug)). rewrite Hlower.
  unfold Py.lower. by rewrite !Hlen.
Qed.

Section ArticleFacts.
Variable now_year : Z.
Variable json_loads : string → Py.json + TpaArticles.json_error.
Variable fromisoformat : string → option TpaArticles.datetime.
Variable urlopen : nat → string → Py.result TpaArticles.Element.
Variable session_get : string → nat → Py.result TpaArticles.response.
Variable hash_lt : string → string → bool.
Variable can_print : TpaArticles.row → bool.
Variable write_csv : list TpaArticles.row → Py.result unit.

Local Abbreviation jsonld_block := (TpaArticles.jsonld_block json_loads).
Local Abbreviation extract_blocks := (TpaArticles.extract_blocks json_loads).
Local Abbreviation extract_jsonld := (TpaArticles.extract_jsonld json_loads).
Local Abbreviation page_pub_date := (TpaArticles.page_pub_date fromisoformat).
Local Abbreviation page_status := (TpaArticles.page_status now_year).
Local Abbreviation build_row := (TpaArticles.build_row now_year json_loads fromisoformat).
Local Abbreviation page_row :=
  (TpaArticles.page_row now_year json_loads fromisoformat can_print).
Local Abbreviation attempt_body :=
  (TpaArticles.attempt_body now_year json_loads fromisoformat session_get can_print).
Local Abbreviation scrape_loop :=
  (TpaArticles.scrape_loop now_year json_loads fromisoformat session_get can_print).
Local Abbreviation scrape_article_log :=
  (TpaArticles.scrape_article_log now_year json_loads fromisoformat session_get
     can_print).
Local Abbreviation scrape_article :=
  (TpaArticles.scrape_article now_year json_loads fromisoformat session_get can_print).
Local Abbreviation scrape_all :=
  (TpaArticles.scrape_all now_year json_loads fromisoformat session_get can_print).
Local Abbreviation fetch_xml_loop := (TpaArticles.fetch_xml_loop urlopen).
Local Abbreviation fetch_xml := (TpaArticles.fetch_xml urlopen).
Local Abbreviation fetch_post_sitemaps := (TpaArticles.fetch_post_sitemaps urlopen).
Local Abbreviation get_article_urls_from_sitemap :=
  (TpaArticles.get_article_urls_from_sitemap urlopen hash_lt).
Local Abbreviation all_results :=
  (TpaArticles.all_results now_year json_loads fromisoformat urlopen session_get
     hash_lt can_print).
Local Abbreviation main :=
  (TpaArticles.main now_year json_loads fromisoformat urlopen session_get hash_lt
     can_print write_csv).
Local Abbreviation fails_transiently := (TpaArticles.fails_transiently session_get).
Local Abbreviation succeeds_with := (TpaArticles.succeeds_with session_get).

(** *** No exception of the page processing is taken for a timeout *)

Lemma from_values_not_transient e : Py.from_values e → TpaArticles.transient e = false.
Proof. by intros [->|[->| ->]]. Qed.

Lemma json_exn_not_transient (err : TpaArticles.json_error) :
  TpaArticles.transient (TpaArticles.json_exn err) = false.
Proof. by destruct err. Qed.

Lemma jsonld_block_raises text e :
  jsonld_block text = Py.Raise e →
  (∃ err, json_loads text = inr err ∧ e = TpaArticles.json_exn err)
  ∨ Py.from_values e.
Proof.
  unfold TpaArticles.jsonld_block.
  destruct (json_loads text) as [data|err]; [|intros [= <-]; left; by exists err].
  match goal with |- context [match ?g with Some _ => _ | None => Py.Ok None end] =>
    destruct g as [graph|] end; [|done].
  intros H. right.
  apply bind_Raise in H as [H|(items & _ & H)]; [by eapply iter_raises|].
  apply bind_Raise in H as [H|(article & _ & H)].
  { eapply first_where_raises; [|exact H]. intros d e'. apply has_raises. }
  apply bind_Raise in H as [H|(breadcrumb & _ & H)].
  { eapply first_where_raises; [|exact H]. intros d e' Hd.
    apply bind_Raise in Hd as [Hd|(? & _ & ?)]; [by eapply get_raises|done]. }
  apply bind_Raise in H as [H|(category & _ & H)].
  - destruct breadcrumb as [b|]; [|done]. destruct (Py.truthy b); [|done].
    apply bind_Raise in H as [H|(elems & _ & H)]; [by eapply get_raises|].
    apply bind_Raise in H as [H|(n & _ & H)]; [by eapply len_raises|].
    case_bool_decide; [|done].
    apply bind_Raise in H as [H|(second & _ & H)]; [by eapply item1_raises|].
    by eapply get_raises.
  - destruct article as [a|]; [|done]. by destruct (Py.truthy a).
Qed.

Lemma extract_blocks_raises blocks e :
  extract_blocks blocks = Py.Raise e → TpaArticles.transient e = false.
Proof.
  induction blocks as [|text more IH]; simpl; [done|].
  destruct (jsonld_block text) as [[found|]|e'] eqn:Hb; [done|done|].
  destruct (TpaArticles.skipped e') eqn:Hs; [done|]. intros [= <-].
  apply jsonld_block_raises in Hb as [(err & _ & ->)|Hb].
  - apply json_exn_not_transient.
  - by apply from_values_not_transient.
Qed.

Lemma build_row_raises u html e :
  build_row u html = Py.Raise e → TpaArticles.transient e = false.
Proof.
  unfold TpaArticles.build_row. intros H.
  apply bind_Raise in H as [H|([data cat] & _ & H)].
  { by eapply extract_blocks_raises. }
  apply bind_Raise in H as [H|(title & _ & H)].
  { unfold TpaArticles.page_title in H.
    apply bind_Raise in H as [H|(headline & _ & H)].
    - by eapply from_values_not_transient, get_raises.
    - repeat case_match; simplify_eq; done. }
  apply bind_Raise in H as [H|(pub_date & _ & H)].
  { unfold TpaArticles.page_pub_date in H.
    apply bind_Raise in H as [H|(date_str & _ & H)].
    - by eapply from_values_not_transient, get_raises.
    - repeat case_match; simplify_eq; done. }
  apply bind_Raise in H as [H|(author & _ & H)].
  { unfold TpaArticles.page_author in H.
    apply bind_Raise in H as [H|(author_data & _ & H)]; [|done].
    by eapply from_values_not_transient, get_raises. }
  by destruct (page_status pub_date).
Qed.

Lemma page_row_raises u html e :
  page_row u html = Py.Raise e → TpaArticles.transient e = false.
Proof.
  unfold TpaArticles.page_row. intros H.
  apply bind_Raise in H as [H|(result & _ & H)]; [by eapply build_row_raises|].
  destruct (can_print result); [done|]. by injection H as <-.
Qed.

(** *** The retry loop *)

Lemma attempt_body_fails u i :
  fails_transiently u i →
  ∃ e, TpaArticles.transient e = true ∧ attempt_body u i = Py.Raise e.
Proof.
  intros (e & He & [H|(resp & H & Hs & Ht)]); exists e; split; try done;
    unfold TpaArticles.attempt_body; rewrite H; simpl; [done|].
  rewrite Hs, Ht. done.
Qed.

Lemma attempt_body_succeeds u k html :
  succeeds_with u k html →
  attempt_body u k = (result ← page_row u html; Py.Ok (Some result)).
Proof.
  intros (resp & H & Hs & Ht). unfold TpaArticles.attempt_body.
  rewrite H. simpl. rewrite Hs, Ht. done.
Qed.

(** The log of [k] failed attempts, the first of them numbered [a],
    followed by a last request *)
Lemma scrape_loop_recovers u retries a n k html :
  (a + n = retries)%nat → (k < n)%nat →
  (∀ i, (a ≤ i < a + k)%nat → fails_transiently u i) →
  succeeds_with u (a + k) html →
  scrape_loop u retries (seq a n)
  = (TpaArticles.returned (page_row u html),
     flat_map (λ i, [TpaArticles.Get u; TpaArticles.Sleep (2 ^ Z.of_nat i)]) (seq a k)
       ++ [TpaArticles.Get u]).
Proof.
  revert a n. induction k as [|k IH]; intros a n Hn Hk Hfail Hok.
  - destruct n as [|n]; [lia|]. simpl.
    rewrite Nat.add_0_r in Hok. rewrite (attempt_body_succeeds _ _ _ Hok).
    destruct (page_row u html) as [result|e] eqn:Hrow; simpl; [done|].
    by rewrite (page_row_raises _ _ _ Hrow).
  - destruct n as [|n]; [lia|]. simpl.
    destruct (attempt_body_fails u a) as (e & He & ->); [apply Hfail; lia|].
    rewrite He.
    destruct (Z.ltb_spec (Z.of_nat a) (Z.of_nat retries - 1)); [|lia].
    rewrite (IH (S a) n); [done|lia|lia| |].
    + intros i Hi. apply Hfail. lia.
    + by replace (S a + k)%nat with (a + S k)%nat by lia.
Qed.

Lemma gets_retry_log u (l : list nat) :
  TpaArticles.gets
    (flat_map (λ i, [TpaArticles.Get u; TpaArticles.Sleep (2 ^ Z.of_nat i)]) l
       ++ [TpaArticles.Get u])
  = S (length l).
Proof.
  induction l as [|i l IH]; [done|].
  cbn [flat_map app TpaArticles.gets length]. by rewrite IH.
Qed.

Lemma sleeps_retry_log u (l : list nat) :
  TpaArticles.sleeps
    (flat_map (λ i, [TpaArticles.Get u; TpaArticles.Sleep (2 ^ Z.of_nat i)]) l
       ++ [TpaArticles.Get u])
  = map (λ i, 2 ^ Z.of_nat i) l.
Proof.
  induction l as [|i l IH]; [done|].
  cbn [flat_map app TpaArticles.sleeps map]. by rewrite IH.
Qed.

(** Whatever the session answers, a scrape makes at most [retries]
    requests. *)
Lemma scrape_loop_bounded u retries (attempts : list nat) :
  (TpaArticles.gets (scrape_loop u retries attempts).2 ≤ length attempts)%nat.
Proof.
  induction attempts as [|attempt more IH]; simpl; [done|].
  destruct (attempt_body u attempt) as [result|e]; simpl; [cbn; lia|].
  destruct (TpaArticles.transient e); [|cbn; lia].
  destruct (Z.of_nat attempt <? Z.of_nat retries - 1); [|cbn; lia].
  destruct (scrape_loop u retries more) as [result log]. simpl in *. lia.
Qed.

(** [k] failed attempts, the first of them numbered [a], and an attempt
    that is not to be repeated *)
Lemma scrape_loop_stops u retries a n k :
  (a + n = retries)%nat → (k < n)%nat →
  (∀ i, (a ≤ i < a + k)%nat → fails_transiently u i) →
  (∀ e, attempt_body u (a + k) = Py.Raise e → TpaArticles.transient e = false) →
  scrape_loop u retries (seq a n)
  = (match attempt_body u (a + k) with
     | Py.Ok result => result
     | Py.Raise _ => None
     end,
     flat_map (λ i, [TpaArticles.Get u; TpaArticles.Sleep (2 ^ Z.of_nat i)]) (seq a k)
       ++ [TpaArticles.Get u]).
Proof.
  revert a n. induction k as [|k IH]; intros a n Hn Hk Hfail Hstop.
  - destruct n as [|n]; [lia|]. simpl. rewrite Nat.add_0_r in *.
    destruct (attempt_body u a) as [result|e] eqn:Hbody; [done|].
    by rewrite (Hstop e).
  - destruct n as [|n]; [lia|]. simpl.
    destruct (attempt_body_fails u a) as (e & He & ->); [apply Hfail; lia|].
    rewrite He.
    destruct (Z.ltb_spec (Z.of_nat a) (Z.of_nat retries - 1)); [|lia].
    rewrite (IH (S a) n); [|lia|lia| |].
    + by replace (S a + k)%nat with (a + S k)%nat by lia.
    + intros i Hi. apply Hfail. lia.
    + by replace (S a + k)%nat with (a + S k)%nat by lia.
Qed.

(** C4: when the requests of a URL end in a timeout or in a server
    disconnection [k] times, with [k < retries], the scrape has slept 1, 2,
    4, ... seconds between them and makes one more request, which is its
    last, so that it makes [k + 1], at most [retries].  When that request
    is answered with the page, the scrape returns the row of the page, and
    [None] when the processing of the page raises.  When that request ends
    in an exception of any other class, the scrape returns [None] although
    attempts are left. *)
Theorem C4_retry_recovers (u : string) (retries k : nat) :
  (k < retries)%nat →
  (∀ i, (i < k)%nat → fails_transiently u i) →
  (∀ html,
     succeeds_with u k html →
     (∀ r, page_row u html = Py.Ok r → scrape_article u retries = Some r)
     ∧ (∀ e, page_row u html = Py.Raise e → scrape_article u retries = None)
     ∧ TpaArticles.gets (scrape_article_log u retries).2 = S k
     ∧ (TpaArticles.gets (scrape_article_log u retries).2 ≤ retries)%nat
     ∧ TpaArticles.sleeps (scrape_article_log u retries).2
       = map (λ i, 2 ^ Z.of_nat i) (seq 0 k))
  ∧ (∀ e,
       TpaArticles.transient e = false →
       (session_get u k = Py.Raise e
        ∨ ∃ resp, session_get u k = Py.Ok resp
                  ∧ TpaArticles.resp_status resp = 200
                  ∧ TpaArticles.resp_text resp = Py.Raise e) →
       scrape_article u retries = None
       ∧ TpaArticles.gets (scrape_article_log u retries).2 = S k
       ∧ TpaArticles.sleeps (scrape_article_log u retries).2
         = map (λ i, 2 ^ Z.of_nat i) (seq 0 k)).
Proof.
  intros Hk Hfail.
  assert (∀ i, (0 ≤ i < 0 + k)%nat → fails_transiently u i) as Hfail'.
  { intros i Hi. apply Hfail. lia. }
  unfold TpaArticles.scrape_article, TpaArticles.scrape_article_log.
  split.
  - intros html Hok.
    rewrite (scrape_loop_recovers u retries 0 retries k html); try done.
    simpl. rewrite gets_retry_log, sleeps_retry_log, length_seq.
    split_and!; [by intros r ->|by intros e ->|done|lia|done].
  - intros e He Hraise.
    assert (attempt_body u k = Py.Raise e) as Hbody.
    { unfold TpaArticles.attempt_body.
      destruct Hraise as [->|(resp & -> & Hs & Ht)]; [done|].
      simpl. by rewrite Hs, Ht. }
    rewrite (scrape_loop_stops u retries 0 retries k); [|done|done|done|].
    + simpl. rewrite Hbody, gets_retry_log, sleeps_retry_log, length_seq. done.
    + simpl. intros e'. rewrite Hbody. by intros [= <-].
Qed.

(** *** The sitemap fetch *)

(** The three ways [fetch_xml] ends, for the attempts [a .. a + n - 1] of
    [retries = a + n]. *)
Lemma fetch_xml_loop_spec u retries backoff a n w :
  0 ≤ backoff →
  (a + n = retries)%nat →
  match fetch_xml_loop u retries backoff (seq a n) w with
  | (Py.Ok (Some root), w') =>
      ∃ k, (k < n)%nat
           ∧ (∀ i, (i < k)%nat → ∃ e, urlopen (TpaArticles.requests w + i)%nat u = Py.Raise e)
           ∧ urlopen (TpaArticles.requests w + k)%nat u = Py.Ok root
           ∧ TpaArticles.requests w' = (TpaArticles.requests w + S k)%nat
           ∧ TpaArticles.slept w'
             = TpaArticles.slept w ++ map (λ i, backoff * (Z.of_nat i + 1)) (seq a k)
  | (Py.Ok None, w') => n = O ∧ w' = w
  | (Py.Raise e, w') =>
      (0 < n)%nat
      ∧ (∀ i, (i < n)%nat → ∃ e', urlopen (TpaArticles.requests w + i)%nat u = Py.Raise e')
      ∧ urlopen (TpaArticles.requests w + (n - 1))%nat u = Py.Raise e
      ∧ TpaArticles.requests w' = (TpaArticles.requests w + n)%nat
      ∧ TpaArticles.slept w'
        = TpaArticles.slept w ++ map (λ i, backoff * (Z.of_nat i + 1)) (seq a (n - 1))
  end.
Proof.
  intros Hbackoff. revert a w.
  induction n as [|n IH]; intros a w Hn; simpl; [done|].
  destruct (urlopen (TpaArticles.requests w) u) as [root|e] eqn:Hreq.
  - exists O. rewrite Nat.add_0_r, app_nil_r. repeat split; try done; try lia.
    simpl. lia.
  - destruct (Z.ltb_spec (Z.of_nat a) (Z.of_nat retries - 1)) as [Hlt|Hge].
    + destruct (Z.ltb_spec (backoff * (Z.of_nat a + 1)) 0) as [Hneg|_]; [nia|].
      assert (S a + n = retries)%nat as Hn' by lia.
      specialize (IH (S a)
        (TpaArticles.sleep (backoff * (Z.of_nat a + 1)) (TpaArticles.request w)) Hn').
      destruct (fetch_xml_loop _ _ _ _ _) as [[[root|]|e'] w']; simpl in IH.
      * destruct IH as (k & Hk & Hfail & Hok & Hreqs & Hslept).
        exists (S k). repeat split; try lia.
        -- intros [|i] Hi; [rewrite Nat.add_0_r; eauto|].
           replace (TpaArticles.requests w + S i)%nat
             with (S (TpaArticles.requests w) + i)%nat by lia.
           apply Hfail. lia.
        -- by replace (TpaArticles.requests w + S k)%nat
             with (S (TpaArticles.requests w) + k)%nat by lia.
        -- rewrite Hslept. simpl. by rewrite <- app_assoc.
      * destruct IH as [-> _]. lia.
      * destruct IH as (Hpos & Hfail & Hlast & Hreqs & Hslept).
        repeat split; try lia.
        -- intros [|i] Hi; [rewrite Nat.add_0_r; eauto|].
           replace (TpaArticles.requests w + S i)%nat
             with (S (TpaArticles.requests w) + i)%nat by lia.
           apply Hfail. lia.
        -- rewrite <- Hlast. f_equal. lia.
        -- rewrite Hslept. destruct n as [|n]; [lia|].
           simpl. rewrite Nat.sub_0_r. by rewrite <- app_assoc.
    + assert (n = O) as -> by lia. simpl.
      rewrite Nat.add_0_r, app_nil_r. repeat split; try done; try lia.
      intros i Hi. assert (i = O) as -> by lia. rewrite Nat.add_0_r. eauto.
Qed.


(** With a negative [backoff] the first sleep raises. *)
Lemma fetch_xml_negative u (retries : nat) backoff w e :
  backoff < 0 → (1 < retries)%nat →
  urlopen (TpaArticles.requests w) u = Py.Raise e →
  fetch_xml u retries backoff w = (Py.Raise Py.ValueError, TpaArticles.request w).
Proof.
  intros Hb Hr Hfail. unfold TpaArticles.fetch_xml.
  destruct retries as [|retries]; [lia|].
  change (seq 0 (S retries)) with (0%nat :: seq 1 retries).
  cbn [TpaArticles.fetch_xml_loop]. rewrite Hfail.
  destruct (Z.ltb_spec (Z.of_nat 0) (Z.of_nat (S retries) - 1)); [|lia].
  by destruct (Z.ltb_spec (backoff * (Z.of_nat 0 + 1)) 0); [|lia].
Qed.






(** *** The rows of the report *)

Lemma page_row_built u html r :
  page_row u html = Py.Ok r ↔ build_row u html = Py.Ok r ∧ can_print r = true.
Proof.
  unfold TpaArticles.page_row. split.
  - intros (result & Hrow & H)%bind_Ok.
    destruct (can_print result) eqn:Hprint; [|done]. by injection H as <-.
  - intros [-> Hprint]. simpl. by rewrite Hprint.
Qed.

Lemma build_row_Ok u html r :
  build_row u html = Py.Ok r →
  ∃ data cat pub_date,
    extract_jsonld html = Py.Ok (data, cat)
    ∧ page_pub_date data = Py.Ok pub_date
    ∧ TpaArticles.url r = u
    ∧ TpaArticles.published_date r
      = match pub_date with
        | Some d => TpaArticles.strftime_Y_m_d d
        | None => "Unknown"
        end
    ∧ (TpaArticles.status r, TpaArticles.reason r) = page_status pub_date
    ∧ TpaArticles.article_type r = TpaArticles.page_article_type html cat.
Proof.
  unfold TpaArticles.build_row. intros H.
  apply bind_Ok in H as ([data cat] & Hx & H).
  apply bind_Ok in H as (title & _ & H).
  apply bind_Ok in H as (pub_date & Hd & H).
  apply bind_Ok in H as (author & _ & H).
  exists data, cat, pub_date.
  destruct (page_status pub_date) as [status reason].
  injection H as <-. done.
Qed.

Lemma page_row_Ok u html r :
  page_row u html = Py.Ok r →
  ∃ data cat pub_date,
    extract_jsonld html = Py.Ok (data, cat)
    ∧ page_pub_date data = Py.Ok pub_date
    ∧ TpaArticles.url r = u
    ∧ TpaArticles.published_date r
      = match pub_date with
        | Some d => TpaArticles.strftime_Y_m_d d
        | None => "Unknown"
        end
    ∧ (TpaArticles.status r, TpaArticles.reason r) = page_status pub_date
    ∧ TpaArticles.article_type r = TpaArticles.page_article_type html cat.
Proof. intros [Hrow _]%page_row_built. by apply build_row_Ok. Qed.

Lemma scrape_loop_url u retries attempts r :
  (scrape_loop u retries attempts).1 = Some r → TpaArticles.url r = u.
Proof.
  induction attempts as [|attempt more IH]; simpl; [done|].
  destruct (attempt_body u attempt) as [result|e] eqn:Hb; simpl.
  - intros ->. unfold TpaArticles.attempt_body in Hb.
    apply bind_Ok in Hb as (resp & _ & Hb).
    destruct (negb _); [done|].
    apply bind_Ok in Hb as (html & _ & Hb).
    apply bind_Ok in Hb as (result & Hrow & [= <-]).
    by apply page_row_Ok in Hrow as (? & ? & ? & _ & _ & ? & _).
  - destruct (TpaArticles.transient e); [|done].
    destruct (Z.of_nat attempt <? Z.of_nat retries - 1); [|done].
    by destruct (scrape_loop u retries more).
Qed.

Lemma scrape_article_url u retries r :
  scrape_article u retries = Some r → TpaArticles.url r = u.
Proof. apply scrape_loop_url. Qed.

Lemma scrape_all_cons x (l : list string) :
  scrape_all (x :: l)
  = match scrape_article x 3 with
    | Some r => r :: scrape_all l
    | None => scrape_all l
    end.
Proof. unfold TpaArticles.scrape_all. simpl. by destruct (scrape_article x 3). Qed.

Lemma rows_of_scrape_all u (article_list : list string) :
  NoDup article_list →
  TpaArticles.rows_of u (scrape_all article_list)
  = if decide (u ∈ article_list) then option_list (scrape_article u 3) else [].
Proof.
  unfold TpaArticles.rows_of.
  induction 1 as [|x l Hx Hl IH]; [done|].
  rewrite scrape_all_cons. destruct (scrape_article x 3) as [r|] eqn:Hr.
  - pose proof (scrape_article_url _ _ _ Hr) as Hurl.
    rewrite filter_cons, IH, Hurl.
    destruct (decide (x = u)) as [<-|Hu].
    + rewrite (decide_False (P := x ∈ l)) by done.
      rewrite (decide_True (P := x ∈ x :: l)) by left.
      by rewrite Hr.
    + destruct (decide (u ∈ l)).
      * by rewrite (decide_True (P := u ∈ x :: l)) by (by right).
      * by rewrite (decide_False (P := u ∈ x :: l)) by (intros [->|?]%elem_of_cons; done).
  - rewrite IH. destruct (decide (x = u)) as [<-|Hu].
    + rewrite (decide_False (P := x ∈ l)) by done.
      rewrite (decide_True (P := x ∈ x :: l)) by left.
      by rewrite Hr.
    + destruct (decide (u ∈ l)).
      * by rewrite (decide_True (P := u ∈ x :: l)) by (by right).
      * by rewrite (decide_False (P := u ∈ x :: l)) by (intros [->|?]%elem_of_cons; done).
Qed.

Lemma get_article_urls_NoDup w article_list w' :
  get_article_urls_from_sitemap w = (Py.Ok article_list, w') → NoDup article_list.
Proof.
  unfold TpaArticles.get_article_urls_from_sitemap.
  destruct (fetch_xml _ 3 5 w) as [[root|e1] w1]; [|done].
  destruct (TpaArticles.findall_loc root); [|done].
  destruct (fetch_post_sitemaps _ _ _) as [[urls|e2] w2]; [|done].
  intros [= <- <-]. unfold TpaArticles.listed.
  rewrite <- (sort_by_Permutation hash_lt id (elements urls)). apply NoDup_elements.
Qed.

Lemma elem_of_listed (s : gset string) (u : string) :
  u ∈ TpaArticles.listed hash_lt s ↔ u ∈ s.
Proof.
  unfold TpaArticles.listed.
  by rewrite <- (sort_by_Permutation hash_lt id (elements s)), elem_of_elements.
Qed.

Lemma rows_of_sort_by u (l : list TpaArticles.row) :
  (length (TpaArticles.rows_of u l) ≤ 1)%nat →
  TpaArticles.rows_of u (Py.sort_by Py.str_lt TpaArticles.published_date l)
  = TpaArticles.rows_of u l.
Proof.
  intros Hlen. unfold TpaArticles.rows_of in *.
  assert (filter (λ r, TpaArticles.url r = u)
            (Py.sort_by Py.str_lt TpaArticles.published_date l)
          ≡ₚ filter (λ r, TpaArticles.url r = u) l) as Hp.
  { by rewrite <- (sort_by_Permutation Py.str_lt TpaArticles.published_date l). }
  destruct (filter _ l) as [|r [|r' rest]]; simpl in Hlen.
  - by apply Permutation_nil_r in Hp.
  - by apply Permutation_singleton_r in Hp.
  - lia.
Qed.

Lemma scrape_article_gives_up u :
  (∀ i, (i < 3)%nat → fails_transiently u i) → scrape_article u 3 = None.
Proof.
  intros Hfail.
  unfold TpaArticles.scrape_article, TpaArticles.scrape_article_log. simpl.
  destruct (attempt_body_fails u 0) as (e0 & He0 & ->); [apply Hfail; lia|].
  destruct (attempt_body_fails u 1) as (e1 & He1 & ->); [apply Hfail; lia|].
  destruct (attempt_body_fails u 2) as (e2 & He2 & ->); [apply Hfail; lia|].
  by rewrite He0, He1, He2.
Qed.

Lemma scrape_article_bad_status u resp :
  session_get u 0 = Py.Ok resp → TpaArticles.resp_status resp ≠ 200 →
  scrape_article u 3 = None.
Proof.
  intros Hget Hstatus.
  unfold TpaArticles.scrape_article, TpaArticles.scrape_article_log. simpl.
  unfold TpaArticles.attempt_body. rewrite Hget. simpl.
  by destruct (Z.eqb_spec (TpaArticles.resp_status resp) 200).
Qed.

Lemma scrape_article_other_error u e :
  session_get u 0 = Py.Raise e → TpaArticles.transient e = false →
  scrape_article u 3 = None.
Proof.
  intros Hget He.
  unfold TpaArticles.scrape_article, TpaArticles.scrape_article_log. simpl.
  unfold TpaArticles.attempt_body. rewrite Hget. simpl. by rewrite He.
Qed.

Lemma scrape_article_bad_page u html e :
  succeeds_with u 0 html → page_row u html = Py.Raise e → scrape_article u 3 = None.
Proof.
  intros Hok Hrow.
  unfold TpaArticles.scrape_article, TpaArticles.scrape_article_log.
  rewrite (scrape_loop_recovers u 3 0 3 0 html); [by rewrite Hrow|lia|lia| |done].
  intros i Hi. lia.
Qed.

(** C1, as the program has it: the report of [main] holds, for each article
    URL of the sitemaps, the one row that [scrape_article] returned for it
    and no row when [scrape_article] returned [None]; it returns [None],
    and the URL is left out of the report, when the first answer has a
    status other than 200, when the first request raises an exception that
    is neither a timeout nor a disconnection, when the three requests time
    out or are disconnected, and when the processing of the page raises. *)
Theorem C1_rows_of_main (w : TpaArticles.world) (rows : list TpaArticles.row)
    (w' : TpaArticles.world) :
  all_results w = (Py.Ok rows, w') →
  ∃ article_list,
    get_article_urls_from_sitemap w = (Py.Ok article_list, w')
    ∧ NoDup article_list
    ∧ (∀ u, TpaArticles.rows_of u rows
            = if decide (u ∈ article_list)
              then option_list (scrape_article u 3) else [])
    ∧ (∀ u resp, session_get u 0 = Py.Ok resp →
                 TpaArticles.resp_status resp ≠ 200 → scrape_article u 3 = None)
    ∧ (∀ u e, session_get u 0 = Py.Raise e →
              TpaArticles.transient e = false → scrape_article u 3 = None)
    ∧ (∀ u, (∀ i, (i < 3)%nat → fails_transiently u i) → scrape_article u 3 = None)
    ∧ (∀ u html e, succeeds_with u 0 html → page_row u html = Py.Raise e →
                   scrape_article u 3 = None).
Proof.
  unfold TpaArticles.all_results.
  destruct (get_article_urls_from_sitemap w) as [[l|e] w1] eqn:Hg; [|done].
  intros [= <- <-]. exists l.
  pose proof (get_article_urls_NoDup _ _ _ Hg) as Hnd.
  split_and!; [done|done| |apply scrape_article_bad_status
              |apply scrape_article_other_error|apply scrape_article_gives_up
              |apply scrape_article_bad_page].
  intros u. rewrite rows_of_sort_by; rewrite rows_of_scrape_all by done; [done|].
  destruct (decide (u ∈ l)); [|simpl; lia].
  destruct (scrape_article u 3); simpl; lia.
Qed.

(** *** The date of a page, its status and its place in the report *)

Lemma digit_lt_U (n : Z) : Ascii.compare (TpaArticles.digit n) "U" = Lt.
Proof.
  unfold TpaArticles.digit.
  pose proof (Z.mod_pos_bound n 10 eq_refl) as Hn.
  set (k := Z.to_N (n mod 10)).
  assert (k = 0 ∨ k = 1 ∨ k = 2 ∨ k = 3 ∨ k = 4 ∨ k = 5 ∨ k = 6 ∨ k = 7
          ∨ k = 8 ∨ k = 9)%N as Hk by lia.
  repeat (destruct Hk as [->|Hk]; [reflexivity|]). by rewrite Hk.
Qed.

(** A year is written with a digit first. *)
Lemma strftime_Y_head (y : Z) :
  ∃ n rest, TpaArticles.strftime_Y y = String (TpaArticles.digit n) rest.
Proof.
  unfold TpaArticles.strftime_Y, TpaArticles.pad4, TpaArticles.pad2.
  repeat case_match; eauto.
Qed.

(** A date, as the report writes it, is below [Unknown]. *)
Lemma date_lt_Unknown (d : TpaArticles.datetime) :
  Py.str_lt (TpaArticles.strftime_Y_m_d d) "Unknown" = true.
Proof.
  unfold Py.str_lt, String.ltb, TpaArticles.strftime_Y_m_d.
  destruct (strftime_Y_head (TpaArticles.year d)) as (n & rest & ->).
  rewrite string_app_cons. simpl. by rewrite digit_lt_U.
Qed.

Lemma main_sorted w rows w' :
  all_results w = (Py.Ok rows, w') →
  StronglySorted (Py.ascending Py.str_lt TpaArticles.published_date) rows.
Proof.
  unfold TpaArticles.all_results.
  destruct (get_article_urls_from_sitemap w) as [[l|e] w1]; [|done].
  intros [= <- <-].
  apply sort_by_sorted; [apply str_lt_asym|apply str_le_trans].
Qed.

(** C10: a row whose page gave no date has [Unknown] as its
    [published_date], a row whose page gave the date [d] has [d] written as
    year-month-day; and in the report of [main] every row with a date stands
    before every row with [Unknown], the rows being sorted by comparing
    these strings. *)
Theorem C10_unknown_dates_last (w : TpaArticles.world) (rows : list TpaArticles.row)
    (w' : TpaArticles.world) :
  all_results w = (Py.Ok rows, w') →
  (∀ u html r, page_row u html = Py.Ok r →
     ∃ data cat pub_date,
       extract_jsonld html = Py.Ok (data, cat)
       ∧ page_pub_date data = Py.Ok pub_date
       ∧ TpaArticles.published_date r
         = match pub_date with
           | Some d => TpaArticles.strftime_Y_m_d d
           | None => "Unknown"
           end)
  ∧ (∀ d, Py.str_lt (TpaArticles.strftime_Y_m_d d) "Unknown" = true)
  ∧ StronglySorted (Py.ascending Py.str_lt TpaArticles.published_date) rows
  ∧ (∀ i j r1 r2 d,
       rows !! i = Some r1 → rows !! j = Some r2 →
       TpaArticles.published_date r1 = TpaArticles.strftime_Y_m_d d →
       TpaArticles.published_date r2 = "Unknown" →
       (i < j)%nat).
Proof.
  intros Hmain. pose proof (main_sorted _ _ _ Hmain) as Hsorted.
  split_and!; [|apply date_lt_Unknown|done|].
  - intros u html r Hrow.
    apply page_row_Ok in Hrow as (data & cat & pub_date & ? & ? & _ & ? & _).
    by exists data, cat, pub_date.
  - intros i j r1 r2 d Hi Hj H1 H2.
    destruct (decide (i < j)%nat) as [|Hge]; [done|exfalso].
    pose proof (date_lt_Unknown d) as Hlt.
    destruct (decide (i = j)) as [->|Hne].
    + rewrite Hi in Hj. injection Hj as ->.
      rewrite <- H1, H2, str_lt_irrefl in Hlt. done.
    + assert (j < i)%nat as Hji by lia.
      pose proof (sorted_lookup _ _ rows j i r2 r1 Hsorted Hj Hi Hji) as Hasc.
      unfold Py.ascending in Hasc. rewrite H1, H2 in Hasc. congruence.
Qed.





(** *** Dates as strings *)

Lemma digit_compare (a b : Z) :
  Ascii.compare (TpaArticles.digit a) (TpaArticles.digit b) = (a mod 10 ?= b mod 10).
Proof.
  unfold TpaArticles.digit, Ascii.compare.
  pose proof (Z.mod_pos_bound a 10 eq_refl) as Ha.
  pose proof (Z.mod_pos_bound b 10 eq_refl) as Hb.
  rewrite !N_ascii_embedding by lia.
  rewrite <- (N2Z.inj_compare (48 + Z.to_N (a mod 10)) (48 + Z.to_N (b mod 10))).
  rewrite !N2Z.inj_add, !Z2N.id by lia. apply Z.add_compare_mono_l.
Qed.

Lemma decimal4 (y : Z) :
  0 ≤ y ≤ 9999 →
  y = 1000 * ((y / 1000) mod 10) + 100 * ((y / 100) mod 10)
      + 10 * ((y / 10) mod 10) + y mod 10.
Proof. intros Hy. Z.div_mod_to_equations. lia. Qed.

Lemma decimal2 (n : Z) : 0 ≤ n ≤ 99 → n = 10 * ((n / 10) mod 10) + n mod 10.
Proof. intros Hn. Z.div_mod_to_equations. lia. Qed.

Lemma month_number_range (m : TpaArticles.month_name) :
  1 ≤ TpaArticles.month_number m ≤ 12.
Proof. destruct m; simpl; lia. Qed.

Lemma strftime_Y_four (y : Z) : 1000 ≤ y → TpaArticles.strftime_Y y = TpaArticles.pad4 y.
Proof.
  intros Hy. unfold TpaArticles.strftime_Y.
  destruct (Z.ltb_spec y 10); [lia|]. destruct (Z.ltb_spec y 100); [lia|].
  by destruct (Z.ltb_spec y 1000); [lia|].
Qed.

(** Between days of the years 1000 to 9999, the order of the strings is
    the order of the days. *)
Lemma date_strings_order (d1 d2 : TpaArticles.datetime) :
  TpaArticles.in_range d1 → TpaArticles.in_range d2 →
  1000 ≤ TpaArticles.year d1 → 1000 ≤ TpaArticles.year d2 →
  Py.str_lt (TpaArticles.strftime_Y_m_d d1) (TpaArticles.strftime_Y_m_d d2) = true
  ↔ TpaArticles.earlier d1 d2.
Proof.
  destruct d1 as [y1 m1 n1], d2 as [y2 m2 n2].
  unfold TpaArticles.in_range, TpaArticles.earlier. simpl.
  intros [Hy1 Hn1] [Hy2 Hn2] Hfour1 Hfour2.
  pose proof (month_number_range m1) as Hm1.
  pose proof (month_number_range m2) as Hm2.
  unfold Py.str_lt, String.ltb, TpaArticles.strftime_Y_m_d. simpl.
  rewrite !strftime_Y_four by done.
  unfold TpaArticles.pad4, TpaArticles.pad2. simpl.
  rewrite !digit_compare.
  pose proof (decimal4 y1 ltac:(lia)) as Ey1. pose proof (decimal4 y2 ltac:(lia)) as Ey2.
  pose proof (decimal2 (TpaArticles.month_number m1) ltac:(lia)) as Em1.
  pose proof (decimal2 (TpaArticles.month_number m2) ltac:(lia)) as Em2.
  pose proof (decimal2 n1 ltac:(lia)) as En1. pose proof (decimal2 n2 ltac:(lia)) as En2.
  assert (∀ a, 0 ≤ a mod 10 < 10) as Hdigit by (intros a; by apply Z.mod_pos_bound).
  pose proof (Hdigit (y1 / 1000)). pose proof (Hdigit (y1 / 100)).
  pose proof (Hdigit (y1 / 10)). pose proof (Hdigit y1).
  pose proof (Hdigit (y2 / 1000)). pose proof (Hdigit (y2 / 100)).
  pose proof (Hdigit (y2 / 10)). pose proof (Hdigit y2).
  pose proof (Hdigit (TpaArticles.month_number m1 / 10)).
  pose proof (Hdigit (TpaArticles.month_number m1)).
  pose proof (Hdigit (TpaArticles.month_number m2 / 10)).
  pose proof (Hdigit (TpaArticles.month_number m2)).
  pose proof (Hdigit (n1 / 10)). pose proof (Hdigit n1).
  pose proof (Hdigit (n2 / 10)). pose proof (Hdigit n2).
  clear Hdigit.
  repeat match goal with
         | |- context [?a mod 10 ?= ?b mod 10] =>
             destruct (Z.compare_spec (a mod 10) (b mod 10))
         end; (split; [intros ?; try discriminate|intros ?]); try lia; try done.
Qed.

(** *** Pages without structured data *)

Lemma extract_blocks_malformed (blocks : list string) :
  (∀ text, text ∈ blocks → json_loads text = inr TpaArticles.Malformed) →
  extract_blocks blocks = Py.Ok (Py.JObj [], Py.JNull).
Proof.
  induction blocks as [|text more IH]; intros Hall; simpl; [done|].
  unfold TpaArticles.jsonld_block. rewrite (Hall text) by left. simpl.
  apply IH. intros text' Hin. apply Hall. by right.
Qed.

(** C5, as the program has it: when every JSON-LD block of a page is
    malformed, each block is passed over and the extraction raises nothing;
    the author and the date of the row are [Unknown] and its status is
    [REVIEW]; the title is what the first match of the title pattern holds
    (a [title] tag without attributes, opened and closed on one line),
    without the suffix of the site and stripped, and it is [Unknown] when
    the pattern has no match; the type is that of the class markers of the
    main container, and [Unknown] when the container pattern has no match.
    The row is returned when its line can be printed. *)
Theorem C5_no_structured_data (u html : string) :
  (∀ text, text ∈ Py.finditer TpaArticles.jsonld_re html →
           json_loads text = inr TpaArticles.Malformed) →
  let result :=
    {| TpaArticles.url := u;
       TpaArticles.title :=
         Py.strip
           (Py.replace " | The Payments Association" ""
              (match Py.search TpaArticles.title_re html with
               | Some m => Py.group1 m
               | None => "Unknown"
               end));
       TpaArticles.author := Py.JStr "Unknown";
       TpaArticles.published_date := "Unknown";
       TpaArticles.article_type := TpaArticles.page_article_type html Py.JNull;
       TpaArticles.status := "REVIEW";
       TpaArticles.reason := "Could not determine publish date" |} in
  extract_jsonld html = Py.Ok (Py.JObj [], Py.JNull)
  ∧ build_row u html = Py.Ok result
  ∧ page_row u html
    = (if can_print result then Py.Ok result
       else Py.Raise (Py.Other "UnicodeEncodeError"))
  ∧ (Py.search TpaArticles.title_re html = None →
     TpaArticles.page_title (Py.JObj []) html = Py.Ok "Unknown")
  ∧ (Py.search TpaArticles.container_re html = None →
     TpaArticles.page_article_type html Py.JNull = Py.JStr "Unknown")
  ∧ (∀ text more, json_loads text = inr TpaArticles.Malformed →
                  extract_blocks (text :: more) = extract_blocks more).
Proof.
  intros Hall result.
  assert (extract_jsonld html = Py.Ok (Py.JObj [], Py.JNull)) as Hx
    by by apply extract_blocks_malformed.
  assert (build_row u html = Py.Ok result) as Hrow
    by (unfold TpaArticles.build_row; by rewrite Hx).
  split_and!; [done|done| | | |].
  - unfold TpaArticles.page_row. by rewrite Hrow.
  - unfold TpaArticles.page_title. by intros ->.
  - unfold TpaArticles.page_article_type. by intros ->.
  - intros text more Hbad. simpl. unfold TpaArticles.jsonld_block. by rewrite Hbad.
Qed.

(** *** The article type *)

Lemma is_str_true s v : TpaArticles.is_str s v = true → v = Py.JStr s.
Proof.
  destruct v; simpl; try done. by intros ->%String.eqb_eq.
Qed.

(** The chain of [page_article_type] over what the two markers give *)
Lemma first_known_values (c1 c3 : option Py.json) (cat : Py.json) :
  (let t1 := default (Py.JStr "Unknown") c1 in
   let t2 := if TpaArticles.is_str "Unknown" t1 && Py.truthy cat then cat else t1 in
   if TpaArticles.is_str "Unknown" t2 then default t2 c3 else t2)
  = Claims.first_known [c1; Claims.breadcrumb_type cat; c3].
Proof.
  unfold Claims.breadcrumb_type.
  destruct c1 as [v1|], c3 as [v3|]; simpl;
    repeat match goal with
      | |- context [TpaArticles.is_str "Unknown" ?v] =>
          is_var v;
          let H := fresh "Hs" in
          destruct (TpaArticles.is_str "Unknown" v) eqn:H;
          [apply is_str_true in H; subst v|]; simpl
      | |- context [Py.truthy ?v] => is_var v; destruct (Py.truthy v); simpl
      end; done.
Qed.

Lemma page_article_type_chain (html : string) (breadcrumb_category : Py.json) :
  TpaArticles.page_article_type html breadcrumb_category
  = Claims.first_known (Claims.strategies html breadcrumb_category).
Proof.
  unfold Claims.strategies. rewrite <- first_known_values.
  unfold TpaArticles.page_article_type, Claims.type_marker, Claims.category_marker.
  destruct (Py.search TpaArticles.container_re html) as [cm|]; [|done].
  cbn [mbind option_bind].
  destruct (Py.search TpaArticles.filter_types_re (Py.group1 cm)) as [tm|];
    destruct (Py.search TpaArticles.category_re (Py.group1 cm)) as [m|]; done.
Qed.

Lemma first_known_first_of (candidates : list (option Py.json)) :
  (∀ c, c ∈ candidates → c ≠ Some (Py.JStr "Unknown")) →
  Claims.first_known candidates = Claims.first_of candidates.
Proof.
  induction candidates as [|[v|] more IH]; intros Hall; simpl; [done| |].
  - destruct (TpaArticles.is_str "Unknown" v) eqn:Hs; [|done].
    apply is_str_true in Hs as ->. by destruct (Hall (Some (Py.JStr "Unknown"))); [left|].
  - apply IH. intros c Hc. apply Hall. by right.
Qed.

(** C6, as the program has it: the type of a row is given by the first of
    the three strategies, in the order [filter_types-*] marker, breadcrumb
    category, [category-*] marker, that yields something other than the
    label [Unknown], and is [Unknown] when none does; when no strategy
    yields the label [Unknown], this is the first strategy that yields
    something. *)
Theorem C6_article_type_chain (u html : string) (r : TpaArticles.row) :
  page_row u html = Py.Ok r →
  ∃ data breadcrumb_category,
    extract_jsonld html = Py.Ok (data, breadcrumb_category)
    ∧ TpaArticles.article_type r
      = Claims.first_known (Claims.strategies html breadcrumb_category)
    ∧ ((∀ c, c ∈ Claims.strategies html breadcrumb_category →
             c ≠ Some (Py.JStr "Unknown")) →
       TpaArticles.article_type r
       = Claims.first_of (Claims.strategies html breadcrumb_category)).
Proof.
  intros Hrow.
  apply page_row_Ok in Hrow as (data & cat & pub_date & Hx & _ & _ & _ & _ & Ht).
  exists data, cat. rewrite Ht, page_article_type_chain.
  split_and!; [done..|]. apply first_known_first_of.
Qed.

(** *** More on the sitemap fetch *)

(** X1: with at least one attempt allowed and a [backoff] that is not
    negative, [fetch_xml] stops at the first request that is answered, or
    at the last allowed one: it makes [k + 1] requests, all but the last of
    which failed, sleeps [backoff * 1], ..., [backoff * k] between them, and
    returns the document of the last request or, when that one fails too,
    raises its error, which only happens at the last allowed attempt.  With
    a negative [backoff] and more than one attempt allowed, a first request
    that fails is followed by the [ValueError] of [time.sleep]. *)
Theorem X1_fetch_xml_outcome (u : string) (retries : nat) (backoff : Z)
    (w : TpaArticles.world) :
  (0 < retries)%nat →
  (0 ≤ backoff →
   ∃ k, (k < retries)%nat
     ∧ (∀ i, (i < k)%nat →
             ∃ e, urlopen (TpaArticles.requests w + i)%nat u = Py.Raise e)
     ∧ TpaArticles.requests (fetch_xml u retries backoff w).2
       = (TpaArticles.requests w + S k)%nat
     ∧ TpaArticles.slept (fetch_xml u retries backoff w).2
       = TpaArticles.slept w
           ++ map (λ attempt, backoff * (Z.of_nat attempt + 1)) (seq 0 k)
     ∧ match urlopen (TpaArticles.requests w + k)%nat u with
       | Py.Ok root => (fetch_xml u retries backoff w).1 = Py.Ok (Some root)
       | Py.Raise e =>
           k = (retries - 1)%nat ∧ (fetch_xml u retries backoff w).1 = Py.Raise e
       end)
  ∧ (backoff < 0 → (1 < retries)%nat →
     ∀ e, urlopen (TpaArticles.requests w) u = Py.Raise e →
          fetch_xml u retries backoff w
          = (Py.Raise Py.ValueError, TpaArticles.request w)).
Proof.
  intros Hpos. split; [|intros Hneg Hr e; by apply fetch_xml_negative].
  intros Hb.
  pose proof (fetch_xml_loop_spec u retries backoff 0 retries w Hb eq_refl) as Hs.
  unfold TpaArticles.fetch_xml.
  destruct (fetch_xml_loop u retries backoff (seq 0 retries) w) as [[[root|]|e] w'].
  - destruct Hs as (k & Hk & Hfail & Hok & Hreq & Hslept).
    exists k. simpl. rewrite Hok. done.
  - lia.
  - destruct Hs as (_ & Hfail & Hlast & Hreq & Hslept).
    exists (retries - 1)%nat. simpl. rewrite Hlast.
    split_and!; [lia| |lia|done|done|done].
    intros i Hi. apply Hfail. lia.
Qed.

(** *** More on the retry loop *)

(** Every allowed attempt fails *)
Lemma scrape_loop_exhausts u retries a n :
  (a + n = retries)%nat → (0 < n)%nat →
  (∀ i, (a ≤ i < a + n)%nat → fails_transiently u i) →
  scrape_loop u retries (seq a n)
  = (None,
     flat_map (λ i, [TpaArticles.Get u; TpaArticles.Sleep (2 ^ Z.of_nat i)])
       (seq a (n - 1))
       ++ [TpaArticles.Get u]).
Proof.
  revert a. induction n as [|n IH]; intros a Hn Hpos Hfail; [lia|]. simpl.
  destruct (attempt_body_fails u a) as (e & He & ->); [apply Hfail; lia|].
  rewrite He. rewrite Nat.sub_0_r.
  destruct (Z.ltb_spec (Z.of_nat a) (Z.of_nat retries - 1)) as [Hlt|Hge].
  - rewrite (IH (S a)); [|lia|lia|].
    + destruct n as [|n]; [lia|]. simpl. by rewrite Nat.sub_0_r.
    + intros i Hi. apply Hfail. lia.
  - assert (n = O) as -> by lia. done.
Qed.

(** X2: an answer with a status other than 200, and an exception that is
    neither a timeout nor a disconnection, are not retried: when they come
    after [k] timeouts or disconnections, with [k < retries], the scrape gives
    up at once, after [k + 1] requests. *)
Theorem X2_no_retry_for_other_failures (u : string) (retries k : nat) :
  (k < retries)%nat →
  (∀ i, (i < k)%nat → fails_transiently u i) →
  ((∃ resp, session_get u k = Py.Ok resp ∧ TpaArticles.resp_status resp ≠ 200)
   ∨ (∃ e, TpaArticles.transient e = false
           ∧ (session_get u k = Py.Raise e
              ∨ ∃ resp, session_get u k = Py.Ok resp
                        ∧ TpaArticles.resp_status resp = 200
                        ∧ TpaArticles.resp_text resp = Py.Raise e))) →
  scrape_article u retries = None
  ∧ TpaArticles.gets (scrape_article_log u retries).2 = S k
  ∧ TpaArticles.sleeps (scrape_article_log u retries).2
    = map (λ i, 2 ^ Z.of_nat i) (seq 0 k).
Proof.
  intros Hk Hfail Hstop.
  assert (attempt_body u k = Py.Ok None
          ∨ ∃ e, TpaArticles.transient e = false ∧ attempt_body u k = Py.Raise e)
    as Hbody.
  { unfold TpaArticles.attempt_body.
    destruct Hstop as [(resp & -> & Hs)|(e & He & [->|(resp & -> & Hs & Ht)])].
    - left. simpl. by destruct (Z.eqb_spec (TpaArticles.resp_status resp) 200).
    - right. by exists e.
    - right. exists e. simpl. by rewrite Hs, Ht. }
  unfold TpaArticles.scrape_article, TpaArticles.scrape_article_log.
  rewrite (scrape_loop_stops u retries 0 retries k); [|done|done| |].
  - simpl. rewrite gets_retry_log, sleeps_retry_log, length_seq.
    split_and!; [|done|done].
    by destruct Hbody as [->|(e & _ & ->)].
  - intros i Hi. apply Hfail. lia.
  - simpl. intros e He. destruct Hbody as [Hb|(e' & He' & Hb)]; congruence.
Qed.

(** X3: when each of the [retries] requests of a URL times out or is
    disconnected, the scrape gives up with [None] after exactly [retries]
    requests, having slept 1, 2, ..., [2 ^ (retries - 2)] seconds: there is no
    sleep after the last request. *)
Theorem X3_retries_exhausted (u : string) (retries : nat) :
  (0 < retries)%nat →
  (∀ i, (i < retries)%nat → fails_transiently u i) →
  scrape_article u retries = None
  ∧ TpaArticles.gets (scrape_article_log u retries).2 = retries
  ∧ TpaArticles.sleeps (scrape_article_log u retries).2
    = map (λ i, 2 ^ Z.of_nat i) (seq 0 (retries - 1)).
Proof.
  intros Hpos Hfail.
  unfold TpaArticles.scrape_article, TpaArticles.scrape_article_log.
  rewrite (scrape_loop_exhausts u retries 0 retries); [|done|done|].
  - simpl. rewrite gets_retry_log, sleeps_retry_log, length_seq.
    split_and!; [done|lia|done].
  - intros i Hi. apply Hfail. lia.
Qed.

Lemma scrape_loop_sleeps u retries a n :
  (a + n = retries)%nat →
  (length (TpaArticles.sleeps (scrape_loop u retries (seq a n)).2) + 1
   = Nat.max 1 (TpaArticles.gets (scrape_loop u retries (seq a n)).2))%nat
  ∧ (Py.sum (TpaArticles.sleeps (scrape_loop u retries (seq a n)).2) + 2 ^ Z.of_nat a
     ≤ 2 ^ Z.of_nat (a + (n - 1)))%Z
  ∧ ((0 < n)%nat → (1 ≤ TpaArticles.gets (scrape_loop u retries (seq a n)).2)%nat).
Proof.
  revert a. induction n as [|n IH]; intros a Hn.
  - simpl. rewrite Nat.add_0_r. split_and!; [done|lia|lia].
  - simpl. rewrite Nat.sub_0_r.
    assert (2 ^ Z.of_nat a ≤ 2 ^ Z.of_nat (a + n)) as Hmono
      by (apply Z.pow_le_mono_r; lia).
    destruct (attempt_body u a) as [result|e]; simpl; [split_and!; [done|lia|lia]|].
    destruct (TpaArticles.transient e); simpl; [|split_and!; [done|lia|lia]].
    destruct (Z.ltb_spec (Z.of_nat a) (Z.of_nat retries - 1)) as [Hlt|Hge];
      simpl; [|split_and!; [done|lia|lia]].
    destruct (IH (S a) ltac:(lia)) as (IHlen & IHsum & IHpos).
    specialize (IHpos ltac:(lia)).
    destruct (scrape_loop u retries (seq (S a) n)) as [result log].
    cbn [snd TpaArticles.sleeps TpaArticles.gets length Py.sum foldr] in *.
    split_and!; [lia| |lia].
    replace (S a + (n - 1))%nat with (a + n)%nat in IHsum by lia.
    rewrite Nat2Z.inj_succ, Z.pow_succ_r in IHsum by lia.
    unfold Py.sum in *. lia.
Qed.

(** X4: whatever the session answers, a sleep of a scrape only happens
    between two of its requests, and the seconds it sleeps in all are below
    [2 ^ (retries - 1)]: at most 3 for the 3 attempts of [main]. *)
Theorem X4_backoff_is_bounded (u : string) (retries : nat) :
  (length (TpaArticles.sleeps (scrape_article_log u retries).2) + 1
   = Nat.max 1 (TpaArticles.gets (scrape_article_log u retries).2))%nat
  ∧ (Py.sum (TpaArticles.sleeps (scrape_article_log u retries).2) + 1
     ≤ 2 ^ Z.of_nat (retries - 1))%Z.
Proof.
  unfold TpaArticles.scrape_article_log.
  destruct (scrape_loop_sleeps u retries 0 retries eq_refl) as (Hlen & Hsum & _).
  split; [done|]. simpl in Hsum. lia.
Qed.


(** *** More on the extraction *)

Lemma first_where_Some f (l : list Py.json) (d : Py.json) :
  Py.first_where f l = Py.Ok (Some d) → f d = Py.Ok true ∧ d ∈ l.
Proof.
  induction l as [|x l IH]; simpl; [done|].
  destruct (f x) as [[|]|e] eqn:Hx; [|intros [? ?]%IH; split; [done|by right]|done].
  intros [= <-]. split; [done|by left].
Qed.

Lemma jsonld_block_Some text data category :
  jsonld_block text = Py.Ok (Some (data, category)) →
  Py.has "datePublished" data = Py.Ok true.
Proof.
  unfold TpaArticles.jsonld_block.
  destruct (json_loads text) as [parsed|err]; [|done].
  match goal with |- context [match ?g with Some _ => _ | None => Py.Ok None end] =>
    destruct g as [graph|] end; [|done].
  intros H.
  apply bind_Ok in H as (items & _ & H).
  apply bind_Ok in H as (article & Harticle & H).
  apply bind_Ok in H as (breadcrumb & _ & H).
  apply bind_Ok in H as (cat & _ & H).
  destruct article as [a|]; [|done]. destruct (Py.truthy a); [|done].
  injection H as <- <-. by apply first_where_Some in Harticle as [? _].
Qed.

Lemma extract_blocks_outcome (blocks : list string) :
  match extract_blocks blocks with
  | Py.Ok (data, category) =>
      (data = Py.JObj [] ∧ category = Py.JNull)
      ∨ (Py.has "datePublished" data = Py.Ok true
         ∧ ∃ text, text ∈ blocks ∧ jsonld_block text = Py.Ok (Some (data, category)))
  | Py.Raise e =>
      e = Py.TypeError ∨ e = Py.KeyError
      ∨ ∃ text err,
          text ∈ blocks ∧ json_loads text = inr err
          ∧ err ≠ TpaArticles.Malformed ∧ e = TpaArticles.json_exn err
  end.
Proof.
  induction blocks as [|text more IH]; simpl; [by left|].
  destruct (jsonld_block text) as [[[data category]|]|e] eqn:Hb.
  - right. split; [by eapply jsonld_block_Some|]. exists text. split; [by left|done].
  - destruct (extract_blocks more) as [[data category]|e].
    + destruct IH as [?|(? & text' & ? & ?)]; [by left|right].
      split; [done|]. exists text'. split; [by right|done].
    + destruct IH as [?|[?|(text' & err & ? & ?)]]; [by left|by right; left|].
      right. right. exists text', err. split; [by right|done].
  - destruct (TpaArticles.skipped e) eqn:Hs.
    + destruct (extract_blocks more) as [[data category]|e'].
      * destruct IH as [?|(? & text' & ? & ?)]; [by left|right].
        split; [done|]. exists text'. split; [by right|done].
      * destruct IH as [?|[?|(text' & err & ? & ?)]]; [by left|by right; left|].
        right. right. exists text', err. split; [by right|done].
    + apply jsonld_block_raises in Hb as [(err & Hload & ->)|[->|[->| ->]]];
        simpl in Hs; try done; [|by left|by right; left].
      right. right. exists text, err. split_and!; [by left|done| |done].
      by intros ->.
Qed.

(** X5: [extract_jsonld] returns either the empty dict with no category, or
    a value in which [datePublished] is found, with the category computed
    from the same JSON-LD block: a breadcrumb category is never returned
    without an article.  It lets no [JSONDecodeError] and no [AttributeError]
    out: what it raises is the [TypeError] or the [KeyError] of a block of
    another shape than expected, or what [json.loads] raised on a block that
    is not a [JSONDecodeError] (a [ValueError] on an integer of too many
    digits, a [RecursionError] on a text nested too deep). *)
Theorem X5_extract_jsonld_outcome (html : string) :
  match extract_jsonld html with
  | Py.Ok (data, category) =>
      (data = Py.JObj [] ∧ category = Py.JNull)
      ∨ (Py.has "datePublished" data = Py.Ok true
         ∧ ∃ text, text ∈ Py.finditer TpaArticles.jsonld_re html
                   ∧ jsonld_block text = Py.Ok (Some (data, category)))
  | Py.Raise e =>
      e = Py.TypeError ∨ e = Py.KeyError
      ∨ ∃ text err,
          text ∈ Py.finditer TpaArticles.jsonld_re html
          ∧ json_loads text = inr err
          ∧ err ≠ TpaArticles.Malformed ∧ e = TpaArticles.json_exn err
  end.
Proof. apply extract_blocks_outcome. Qed.

(** *** More on the rows *)

Lemma lstrip_with_length p (s : string) :
  (String.length (Py.lstrip_with p s) ≤ String.length s)%nat.
Proof.
  induction s as [|c s IH]; simpl; [done|]. destruct (p c); simpl; lia.
Qed.

Lemma lstrip_with_idem p (s : string) :
  Py.lstrip_with p (Py.lstrip_with p s) = Py.lstrip_with p s.
Proof.
  induction s as [|c s IH]; simpl; [done|].
  destruct (p c) eqn:Hc; [done|]. simpl. by rewrite Hc.
Qed.

Lemma lstrip_with_fixed p (c : ascii) (s : string) :
  Py.lstrip_with p (String c s) = String c s → p c = false.
Proof.
  simpl. destruct (p c); [|done]. intros Heq.
  pose proof (lstrip_with_length p s) as Hlen. rewrite Heq in Hlen. simpl in Hlen. lia.
Qed.

Lemma rstrip_with_idem p (s : string) :
  Py.rstrip_with p (Py.rstrip_with p s) = Py.rstrip_with p s.
Proof.
  induction s as [|c s IH]; simpl; [done|].
  destruct (Py.rstrip_with p s) as [|c' r] eqn:Hr.
  - destruct (p c) eqn:Hc; simpl; [done|]. by rewrite Hc.
  - simpl in *. by rewrite IH.
Qed.

Lemma rstrip_keeps_lstrip p (s : string) :
  Py.lstrip_with p s = s →
  Py.lstrip_with p (Py.rstrip_with p s) = Py.rstrip_with p s.
Proof.
  destruct s as [|c s]; [done|]. intros Hc%lstrip_with_fixed. simpl.
  destruct (Py.rstrip_with p s); rewrite ?Hc; simpl; by rewrite Hc.
Qed.

Lemma strip_fixed (s : string) :
  Py.lstrip_with Py.is_space (Py.strip s) = Py.strip s
  ∧ Py.rstrip_with Py.is_space (Py.strip s) = Py.strip s.
Proof.
  unfold Py.strip. split.
  - apply rstrip_keeps_lstrip, lstrip_with_idem.
  - apply rstrip_with_idem.
Qed.

Lemma page_row_title u html r :
  page_row u html = Py.Ok r →
  ∃ data, TpaArticles.page_title data html = Py.Ok (TpaArticles.title r).
Proof.
  intros [H _]%page_row_built. unfold TpaArticles.build_row in H.
  apply bind_Ok in H as ([data cat] & _ & H).
  apply bind_Ok in H as (title & Ht & H).
  apply bind_Ok in H as (pub_date & _ & H).
  apply bind_Ok in H as (author & _ & H).
  exists data. destruct (page_status pub_date) as [status reason].
  injection H as <-. done.
Qed.

Lemma page_title_stripped data html t :
  TpaArticles.page_title data html = Py.Ok t →
  Py.lstrip_with Py.is_space t = t ∧ Py.rstrip_with Py.is_space t = t.
Proof.
  unfold TpaArticles.page_title. intros H.
  apply bind_Ok in H as (headline & _ & H).
  destruct (if Py.truthy headline then _ else _); try done.
  injection H as <-. apply strip_fixed.
Qed.

Lemma scrape_loop_row u retries attempts r :
  (scrape_loop u retries attempts).1 = Some r → ∃ html, page_row u html = Py.Ok r.
Proof.
  induction attempts as [|attempt more IH]; simpl; [done|].
  destruct (attempt_body u attempt) as [result|e] eqn:Hb; simpl.
  - intros ->. unfold TpaArticles.attempt_body in Hb.
    apply bind_Ok in Hb as (resp & _ & Hb).
    destruct (negb _); [done|].
    apply bind_Ok in Hb as (html & _ & Hb).
    apply bind_Ok in Hb as (result & Hrow & [= <-]). by exists html.
  - destruct (TpaArticles.transient e); [|done].
    destruct (Z.of_nat attempt <? Z.of_nat retries - 1); [|done].
    by destruct (scrape_loop u retries more).
Qed.

Lemma string_app_length (a b : string) :
  String.length (a +:+ b) = (String.length a + String.length b)%nat.
Proof.
  induction a as [|c a IH]; [done|]. rewrite string_app_cons. simpl. by rewrite IH.
Qed.

(** A date is written with one to four digits for the year and six more
    characters. *)
Lemma strftime_Y_m_d_length (d : TpaArticles.datetime) :
  (7 ≤ String.length (TpaArticles.strftime_Y_m_d d) ≤ 10)%nat
  ∧ (1000 ≤ TpaArticles.year d →
     String.length (TpaArticles.strftime_Y_m_d d) = 10%nat).
Proof.
  unfold TpaArticles.strftime_Y_m_d. rewrite !string_app_length.
  change (String.length (TpaArticles.pad2 ?n)) with 2%nat.
  change (String.length "-") with 1%nat.
  split.
  - unfold TpaArticles.strftime_Y. repeat case_match; simpl; lia.
  - intros Hy. by rewrite strftime_Y_four.
Qed.

Lemma page_row_fields u html r :
  page_row u html = Py.Ok r →
  TpaArticles.url r = u
  ∧ (TpaArticles.status r = "DELETE_CANDIDATE" ∨ TpaArticles.status r = "KEEP"
     ∨ TpaArticles.status r = "REVIEW")
  ∧ (TpaArticles.status r = "REVIEW" ↔ TpaArticles.published_date r = "Unknown")
  ∧ (TpaArticles.published_date r = "Unknown"
     ∨ (7 ≤ String.length (TpaArticles.published_date r) ≤ 10)%nat)
  ∧ Py.lstrip_with Py.is_space (TpaArticles.title r) = TpaArticles.title r
  ∧ Py.rstrip_with Py.is_space (TpaArticles.title r) = TpaArticles.title r.
Proof.
  intros Hrow.
  destruct (page_row_title _ _ _ Hrow) as [data' Htitle%page_title_stripped].
  apply page_row_Ok in Hrow as (data & cat & pub_date & _ & _ & Hu & Hd & Hs & _).
  destruct Htitle as [Hl Hr]. split_and!; [done| | | |done|done].
  - destruct pub_date as [d|]; simpl in Hs; injection Hs as -> _; [|by auto].
    destruct (TpaArticles.year d <? _); auto.
  - destruct pub_date as [d|]; simpl in Hs; injection Hs as Hst _; rewrite Hst, Hd.
    + pose proof (date_lt_Unknown d) as Hlt.
      split.
      * by destruct (TpaArticles.year d <? _).
      * intros Heq. rewrite Heq, str_lt_irrefl in Hlt. done.
    + done.
  - destruct pub_date as [d|]; rewrite Hd; [right|by left].
    apply strftime_Y_m_d_length.
Qed.

Lemma build_row_date u html r :
  build_row u html = Py.Ok r →
  TpaArticles.published_date r = "Unknown"
  ∨ ∃ s d, fromisoformat s = Some d
           ∧ TpaArticles.published_date r = TpaArticles.strftime_Y_m_d d.
Proof.
  intros (data & cat & pub_date & _ & Hdate & _ & Hd & _)%build_row_Ok.
  destruct pub_date as [d|]; [right|by left].
  unfold TpaArticles.page_pub_date in Hdate.
  apply bind_Ok in Hdate as (date_str & _ & Hdate).
  destruct (Py.truthy date_str); [|done]. destruct date_str; try done.
  destruct (fromisoformat s) as [d'|] eqn:Hiso; [|done].
  injection Hdate as ->. by exists s, d.
Qed.

(** X6: every row that [scrape_article] returns has the URL that was asked
    for, a status among [DELETE_CANDIDATE], [KEEP] and [REVIEW], the status
    [REVIEW] exactly when its date is [Unknown], and a title without white
    space at either end.  Its date is [Unknown] or a date that
    [fromisoformat] gave, written with the year, two digits for the month
    and two for the day: seven to ten characters, and ten when the year is
    1000 or later. *)
Theorem X6_row_invariants (u : string) (retries : nat) (r : TpaArticles.row) :
  scrape_article u retries = Some r →
  TpaArticles.url r = u
  ∧ (TpaArticles.status r = "DELETE_CANDIDATE" ∨ TpaArticles.status r = "KEEP"
     ∨ TpaArticles.status r = "REVIEW")
  ∧ (TpaArticles.status r = "REVIEW" ↔ TpaArticles.published_date r = "Unknown")
  ∧ (TpaArticles.published_date r = "Unknown"
     ∨ ∃ s d,
         fromisoformat s = Some d
         ∧ TpaArticles.published_date r = TpaArticles.strftime_Y_m_d d
         ∧ (7 ≤ String.length (TpaArticles.published_date r) ≤ 10)%nat
         ∧ (1000 ≤ TpaArticles.year d →
            String.length (TpaArticles.published_date r) = 10%nat))
  ∧ Py.lstrip_with Py.is_space (TpaArticles.title r) = TpaArticles.title r
  ∧ Py.rstrip_with Py.is_space (TpaArticles.title r) = TpaArticles.title r.
Proof.
  intros [html Hrow]%scrape_loop_row.
  destruct (page_row_fields _ _ _ Hrow) as (Hu & Hst & Hrev & _ & Hl & Hr).
  split_and!; [done|done|done| |done|done].
  apply page_row_built in Hrow as [Hrow _].
  destruct (build_row_date _ _ _ Hrow) as [?|(s & d & Hiso & Hd)]; [by left|right].
  exists s, d. rewrite Hd. split_and!; [done|done|apply strftime_Y_m_d_length..].
Qed.


(** *** More on the sitemaps *)

Lemma add_articles_elem (locs : list (option string)) (article_urls : gset string)
    (u : string) :
  u ∈ TpaArticles.add_articles locs article_urls
  ↔ u ∈ article_urls
    ∨ ∃ loc, loc ∈ locs
             ∧ u = Py.rstrip_char "/" (TpaArticles.text_or_empty loc)
             ∧ Py.contains "/article/" u = true.
Proof.
  unfold TpaArticles.add_articles. revert article_urls.
  induction locs as [|loc locs IH]; intros article_urls; simpl.
  - split; [by left|]. intros [?|(loc & []%elem_of_nil & _)]. done.
  - rewrite IH. clear IH.
    destruct (Py.contains "/article/" (Py.rstrip_char "/" (TpaArticles.text_or_empty loc)))
      eqn:Hc.
    + rewrite elem_of_union, elem_of_singleton. split.
      * intros [[->|?]|(loc' & ? & ? & ?)]; [right|by left|right].
        -- exists loc. split; [by left|done].
        -- exists loc'. split; [by right|done].
      * intros [?|(loc' & [->|?]%elem_of_cons & -> & ?)]; [by left; right| |].
        -- by left; left.
        -- right. by exists loc'.
    + split.
      * intros [?|(loc' & ? & ? & ?)]; [by left|right].
        exists loc'. split; [by right|done].
      * intros [?|(loc' & [->|?]%elem_of_cons & -> & ?)]; [by left|congruence|].
        right. by exists loc'.
Qed.

Lemma fetch_xml_Ok u (retries : nat) backoff w locs w' :
  0 ≤ backoff →
  fetch_xml u retries backoff w = (Py.Ok (Some locs), w') →
  ∃ n, urlopen n u = Py.Ok locs.
Proof.
  intros Hb H.
  pose proof (fetch_xml_loop_spec u retries backoff 0 retries w Hb eq_refl) as Hs.
  unfold TpaArticles.fetch_xml in H. rewrite H in Hs.
  destruct Hs as (k & _ & _ & Hok & _). eauto.
Qed.

(** Where a URL of the result comes from *)
Lemma fetch_post_sitemaps_elem (post_sitemaps : list string) (article_urls : gset string)
    (w : TpaArticles.world) (found : gset string) (w' : TpaArticles.world) (u : string) :
  (∀ sitemap_url, sitemap_url ∈ post_sitemaps →
                  Py.contains "post-sitemap" sitemap_url = true) →
  fetch_post_sitemaps post_sitemaps article_urls w = (Py.Ok found, w') →
  u ∈ found →
  u ∈ article_urls
  ∨ ∃ n sitemap_url locs loc,
      Py.contains "post-sitemap" sitemap_url = true
      ∧ urlopen n sitemap_url = Py.Ok locs
      ∧ loc ∈ locs
      ∧ u = Py.rstrip_char "/" (TpaArticles.text_or_empty loc)
      ∧ Py.contains "/article/" u = true.
Proof.
  revert article_urls w. induction post_sitemaps as [|sitemap_url more IH];
    intros article_urls w Hpost; simpl.
  - intros [= <- <-]. by left.
  - destruct (fetch_xml sitemap_url 3 5 w) as [[sm|e] w1] eqn:Hf; [|done].
    destruct sm as [locs|]; simpl; [|done].
    intros Hrest Hu.
    apply (IH _ _ (λ s Hs, Hpost s (list_elem_of_further _ _ _ Hs)) Hrest) in Hu
      as [Hu|Hu]; [|by right].
    apply add_articles_elem in Hu as [?|(loc & Hloc & -> & Hc)]; [by left|right].
    apply fetch_xml_Ok in Hf as [n Hn]; [|lia].
    exists n, sitemap_url, locs, loc. split_and!; try done. apply Hpost. by left.
Qed.

(** X7: the article URLs that [get_article_urls_from_sitemap] returns are
    pairwise distinct; each of them holds [/article/], has no [/] left to
    strip at its end, and is, up to such slashes, the text of a [loc] element
    of a document that was fetched from a URL holding [post-sitemap]. *)
Theorem X7_article_urls (w : TpaArticles.world) (article_list : list string)
    (w' : TpaArticles.world) :
  get_article_urls_from_sitemap w = (Py.Ok article_list, w') →
  NoDup article_list
  ∧ ∀ u, u ∈ article_list →
         Py.contains "/article/" u = true
         ∧ Py.rstrip_char "/" u = u
         ∧ ∃ n sitemap_url locs loc,
             Py.contains "post-sitemap" sitemap_url = true
             ∧ urlopen n sitemap_url = Py.Ok locs
             ∧ loc ∈ locs
             ∧ u = Py.rstrip_char "/" (TpaArticles.text_or_empty loc).
Proof.
  intros Hget. split; [by eapply get_article_urls_NoDup|].
  unfold TpaArticles.get_article_urls_from_sitemap in Hget.
  destruct (fetch_xml _ 3 5 w) as [[root|e1] w1]; [|done].
  destruct (TpaArticles.findall_loc root) as [locs0|]; [|done].
  destruct (fetch_post_sitemaps _ _ _) as [[found|e2] w2] eqn:Hp; [|done].
  injection Hget as <- <-. intros u Hu%elem_of_listed.
  eapply fetch_post_sitemaps_elem in Hu as [[]%elem_of_empty|Hu]; [| |exact Hp].
  - destruct Hu as (n & sitemap_url & locs & loc & ? & ? & ? & Heq & ?).
    split_and!; [done| |by exists n, sitemap_url, locs, loc].
    rewrite Heq. apply rstrip_with_idem.
  - intros sitemap_url (loc & Hloc & Heq)%list_elem_of_omap.
    destruct (Py.contains "post-sitemap" (TpaArticles.text_or_empty loc)) eqn:Hc;
      [|done].
    by subst loc.
Qed.

(** *** The summary *)

Lemma Counter_from (keys : list string) (counts : gmap string nat) (k : string) :
  Py.count_of
    (foldl (λ counts k, <[k := S (default O (counts !! k))]> counts) counts keys) k
  = (Py.count_of counts k + length (filter (λ x, x = k) keys))%nat.
Proof.
  unfold Py.count_of. revert counts.
  induction keys as [|x keys IH]; intros counts; simpl; [lia|].
  rewrite IH, filter_cons. destruct (decide (x = k)) as [->|Hne].
  - rewrite lookup_insert_eq. simpl. lia.
  - by rewrite lookup_insert_ne.
Qed.

(** What [Counter] counts *)
Lemma Counter_count (keys : list string) (k : string) :
  Py.count_of (Py.Counter keys) k = length (filter (λ x, x = k) keys).
Proof. unfold Py.Counter. by rewrite Counter_from. Qed.

Lemma filter_keys_length {A} (f : A → string) (k : string) (l : list A) :
  length (filter (λ x, x = k) (map f l)) = length (filter (λ r, f r = k) l).
Proof.
  induction l as [|r l IH]; [done|].
  simpl. rewrite !filter_cons. case_decide; simpl; by rewrite IH.
Qed.

Lemma counts_of_three (a b c : string) (keys : list string) :
  a ≠ b → a ≠ c → b ≠ c →
  (∀ x, x ∈ keys → x = a ∨ x = b ∨ x = c) →
  length keys
  = (length (filter (λ x, x = a) keys) + length (filter (λ x, x = b) keys)
     + length (filter (λ x, x = c) keys))%nat.
Proof.
  intros Hab Hac Hbc. induction keys as [|x keys IH]; intros Hall; [done|].
  rewrite !filter_cons. simpl. rewrite IH by (intros y Hy; apply Hall; by right).
  destruct (Hall x ltac:(by left)) as [->|[->| ->]];
    repeat (case_decide; try congruence); simpl; lia.
Qed.

Lemma scrape_all_elem (article_list : list string) (r : TpaArticles.row) :
  r ∈ scrape_all article_list →
  ∃ u, u ∈ article_list ∧ scrape_article u 3 = Some r.
Proof.
  induction article_list as [|x l IH]; [by intros ?%elem_of_nil|].
  rewrite scrape_all_cons. destruct (scrape_article x 3) as [r'|] eqn:Hx.
  - intros [->|Hin]%elem_of_cons.
    + exists x. split; [by left|done].
    + destruct (IH Hin) as (u & ? & ?). exists u. split; [by right|done].
  - intros Hin. destruct (IH Hin) as (u & ? & ?). exists u. split; [by right|done].
Qed.

(** X8: in the summary that [main] prints, the counts of [DELETE_CANDIDATE],
    [REVIEW] and [KEEP] add up to the number of articles saved, and each of
    them is the number of rows of the report with that status. *)
Theorem X8_summary_adds_up (w : TpaArticles.world) (rows : list TpaArticles.row)
    (w' : TpaArticles.world) :
  all_results w = (Py.Ok rows, w') →
  TpaArticles.summary rows
  = (length rows,
     length (filter (λ r, TpaArticles.status r = "DELETE_CANDIDATE") rows),
     length (filter (λ r, TpaArticles.status r = "REVIEW") rows),
     length (filter (λ r, TpaArticles.status r = "KEEP") rows))
  ∧ length rows
    = (length (filter (λ r, TpaArticles.status r = "DELETE_CANDIDATE") rows)
       + length (filter (λ r, TpaArticles.status r = "REVIEW") rows)
       + length (filter (λ r, TpaArticles.status r = "KEEP") rows))%nat.
Proof.
  intros Hmain.
  pose proof (λ k, filter_keys_length TpaArticles.status k rows) as Hmap.
  split.
  - unfold TpaArticles.summary. by rewrite !Counter_count, !Hmap.
  - rewrite <- !Hmap, <- (length_fmap TpaArticles.status rows).
    apply counts_of_three; [done..|].
    intros x (r & -> & Hr)%list_elem_of_fmap.
    unfold TpaArticles.all_results in Hmain.
    destruct (get_article_urls_from_sitemap w) as [[l|e] w1]; [|done].
    injection Hmain as <- <-.
    rewrite <- (sort_by_Permutation Py.str_lt TpaArticles.published_date) in Hr.
    apply scrape_all_elem in Hr as (u & _ & [html Hrow]%scrape_loop_row).
    apply page_row_fields in Hrow as (_ & Hst & _). tauto.
Qed.


(** *** Why a page that was read gives no row *)

(** X20: processing a page that was read fails in these ways only.  The
    JSON-LD extraction raises: a [TypeError] or a [KeyError], or what
    [json.loads] raised on a block that is not a [JSONDecodeError].  Or the
    article entry found is not an object, or its headline is a value other
    than text that counts as true ([AttributeError]).  Or its
    [datePublished] is such a value ([TypeError]) or a text that
    [fromisoformat] rejects ([ValueError]).  Or the row is made and its
    line cannot be printed ([UnicodeEncodeError]). *)
Theorem X20_page_row_failures (u html : string) (e : Py.exn) :
  page_row u html = Py.Raise e →
  (extract_jsonld html = Py.Raise e
   ∧ (e = Py.TypeError ∨ e = Py.KeyError
      ∨ ∃ text err,
          text ∈ Py.finditer TpaArticles.jsonld_re html
          ∧ json_loads text = inr err
          ∧ err ≠ TpaArticles.Malformed ∧ e = TpaArticles.json_exn err))
  ∨ (∃ result,
       build_row u html = Py.Ok result ∧ can_print result = false
       ∧ e = Py.Other "UnicodeEncodeError")
  ∨ ∃ data category,
      extract_jsonld html = Py.Ok (data, category)
      ∧ ((e = Py.AttributeError ∧ ∀ members, data ≠ Py.JObj members)
         ∨ ∃ members,
             data = Py.JObj members
             ∧ ((∃ headline,
                   Py.assoc "headline" members = Some headline
                   ∧ Py.truthy headline = true
                   ∧ (∀ t, headline ≠ Py.JStr t)
                   ∧ e = Py.AttributeError)
                ∨ (∃ date_str,
                     Py.assoc "datePublished" members = Some date_str
                     ∧ Py.truthy date_str = true
                     ∧ (((∀ s, date_str ≠ Py.JStr s) ∧ e = Py.TypeError)
                        ∨ (∃ s, date_str = Py.JStr s ∧ fromisoformat s = None
                                ∧ e = Py.ValueError))))).
Proof.
  unfold TpaArticles.page_row. intros H.
  apply bind_Raise in H as [H|(result & Hrow & H)].
  2: { right. left. exists result. destruct (can_print result); [done|].
       by injection H as <-. }
  unfold TpaArticles.build_row in H.
  apply bind_Raise in H as [H|([data category] & Hx & H)].
  { left. split; [done|].
    pose proof (extract_blocks_outcome (Py.finditer TpaArticles.jsonld_re html)) as Hout.
    unfold TpaArticles.extract_jsonld in H. by rewrite H in Hout. }
  right. right. exists data, category. split; [done|].
  destruct data as [| | | | |members];
    try (left; split; [by injection H as <-|done]).
  right. exists members. split; [done|].
  apply bind_Raise in H as [H|(title & _ & H)].
  { left. unfold TpaArticles.page_title in H. simpl in H.
    destruct (Py.assoc "headline" members) as [headline|]; [|done].
    exists headline. split; [done|].
    destruct (Py.truthy headline) eqn:Htrue; [|done].
    split; [done|]. destruct headline; try done; injection H as <-; done. }
  apply bind_Raise in H as [H|(pub_date & _ & H)].
  { right. unfold TpaArticles.page_pub_date in H. simpl in H.
    destruct (Py.assoc "datePublished" members) as [date_str|]; [|done].
    exists date_str. split; [done|].
    destruct (Py.truthy date_str) eqn:Htrue; [|done].
    split; [done|].
    destruct date_str as [| | |s| |]; try (left; split; [done|by injection H as <-]).
    right. exists s. destruct (fromisoformat s); [done|]. by injection H as <-. }
  apply bind_Raise in H as [H|(author & _ & H)]; [done|].
  by destruct (page_status pub_date).
Qed.

(** *** No article of the sitemaps is left out *)

Lemma fetch_xml_Ok_at u (retries : nat) backoff w locs w' :
  0 ≤ backoff →
  fetch_xml u retries backoff w = (Py.Ok (Some locs), w') →
  ∃ n, (TpaArticles.requests w ≤ n < TpaArticles.requests w')%nat
       ∧ urlopen n u = Py.Ok locs.
Proof.
  intros Hb H.
  pose proof (fetch_xml_loop_spec u retries backoff 0 retries w Hb eq_refl) as Hs.
  unfold TpaArticles.fetch_xml in H. rewrite H in Hs.
  destruct Hs as (k & _ & _ & Hok & Hreqs & _).
  exists (TpaArticles.requests w + k)%nat. split; [lia|done].
Qed.

Lemma fetch_post_sitemaps_all (post_sitemaps : list string) (article_urls : gset string)
    (w : TpaArticles.world) (found : gset string) (w' : TpaArticles.world) :
  fetch_post_sitemaps post_sitemaps article_urls w = (Py.Ok found, w') →
  (TpaArticles.requests w ≤ TpaArticles.requests w')%nat
  ∧ (∀ u, u ∈ article_urls → u ∈ found)
  ∧ ∀ sitemap_url, sitemap_url ∈ post_sitemaps →
      ∃ n locs,
        (TpaArticles.requests w ≤ n < TpaArticles.requests w')%nat
        ∧ urlopen n sitemap_url = Py.Ok locs
        ∧ ∀ loc, loc ∈ locs →
                 Py.contains "/article/"
                   (Py.rstrip_char "/" (TpaArticles.text_or_empty loc)) = true →
                 Py.rstrip_char "/" (TpaArticles.text_or_empty loc) ∈ found.
Proof.
  revert article_urls w. induction post_sitemaps as [|sitemap_url more IH];
    intros article_urls w; simpl.
  - intros [= <- <-]. split_and!; [done|done|]. by intros s ?%elem_of_nil.
  - destruct (fetch_xml sitemap_url 3 5 w) as [[sm|e] w1] eqn:Hf; [|done].
    destruct sm as [locs|]; simpl; [|done].
    intros (Hreqs & Hkept & Hlater)%IH.
    apply fetch_xml_Ok_at in Hf as (n & Hn & Hlocs); [|lia].
    split_and!; [lia| |].
    + intros u Hu. apply Hkept, add_articles_elem. by left.
    + intros s [->|Hs]%elem_of_cons.
      * exists n, locs. split; [lia|]. split; [done|].
        intros loc Hloc Harticle. apply Hkept, add_articles_elem. right.
        by exists loc.
      * destruct (Hlater s Hs) as (n' & locs' & ? & ? & ?).
        exists n', locs'. split; [lia|]. by split.
Qed.

(** X21: when the sitemap phase succeeds, the sitemap index was fetched,
    and after it every document that the index names with [post-sitemap]
    in its URL; and every [loc] of such a document whose text, without the
    slashes at its end, holds [/article/] is in the article list: no
    article of the post sitemaps is left out. *)
Theorem X21_no_article_left_out (w : TpaArticles.world) (article_list : list string)
    (w' : TpaArticles.world) :
  get_article_urls_from_sitemap w = (Py.Ok article_list, w') →
  ∃ n0 index,
    (TpaArticles.requests w ≤ n0)%nat
    ∧ urlopen n0 (TpaArticles.BASE_URL +:+ "/sitemap.xml") = Py.Ok index
    ∧ ∀ sitemap_url,
        Some sitemap_url ∈ index →
        Py.contains "post-sitemap" sitemap_url = true →
        ∃ n locs,
          (n0 < n < TpaArticles.requests w')%nat
          ∧ urlopen n sitemap_url = Py.Ok locs
          ∧ ∀ loc, loc ∈ locs →
                   Py.contains "/article/"
                     (Py.rstrip_char "/" (TpaArticles.text_or_empty loc)) = true →
                   Py.rstrip_char "/" (TpaArticles.text_or_empty loc) ∈ article_list.
Proof.
  unfold TpaArticles.get_article_urls_from_sitemap.
  destruct (fetch_xml _ 3 5 w) as [[root|e] w1] eqn:Hindex; [|done].
  destruct root as [index|]; simpl; [|done].
  destruct (fetch_post_sitemaps _ ∅ w1) as [[found|e] w2] eqn:Hposts; [|done].
  intros [= <- <-].
  apply fetch_xml_Ok_at in Hindex as (n0 & Hn0 & Hroot); [|lia].
  apply fetch_post_sitemaps_all in Hposts as (_ & _ & Hall).
  exists n0, index. split_and!; [lia|done|].
  intros sitemap_url Hin Hpost.
  destruct (Hall sitemap_url) as (n & locs & Hn & Hlocs & Harticles).
  { apply list_elem_of_omap. exists (Some sitemap_url). split; [done|].
    simpl. by rewrite Hpost. }
  exists n, locs. split; [lia|]. split; [done|].
  intros loc Hloc Harticle. apply elem_of_listed. by apply Harticles.
Qed.

End ArticleFacts.

(** ** [tpa_crawl.py]: the path rules, the crawl, the report *)
(** *** What the patterns match *)

Lemma append_nil_l (s : string) : EmptyString +:+ s = s.
Proof. reflexivity. Qed.

Lemma search_from_found (r : Py.regex) (prev : option ascii) (s : string)
    (m : Py.found) :
  Py.search_from r prev s = Some m →
  ∃ pre post,
    s = pre +:+ post
    ∧ Py.match_at r (Py.last_char pre prev) post post EmptyString = Some m.
Proof.
  revert prev. induction s as [|c s IH]; intros prev; simpl.
  - destruct (Py.match_at r prev "" "" "") eqn:Hm; [|done].
    intros [= <-]. by exists EmptyString, EmptyString.
  - destruct (Py.match_at r prev (String c s) (String c s) "") eqn:Hm.
    + intros [= <-]. by exists EmptyString, (String c s).
    + intros (pre & post & -> & Hpost)%IH. by exists (String c pre), post.
Qed.

Lemma search_from_none (r : Py.regex) (prev : option ascii) (s : string) :
  Py.search_from r prev s = None →
  ∀ pre post,
    s = pre +:+ post →
    Py.match_at r (Py.last_char pre prev) post post EmptyString = None.
Proof.
  revert prev. induction s as [|c s IH]; intros prev; simpl.
  - destruct (Py.match_at r prev "" "" "") eqn:Hm; [done|].
    intros _ [|a pre] post Heq; [|done].
    rewrite append_nil_l in Heq. by subst post.
  - destruct (Py.match_at r prev (String c s) (String c s) "") eqn:Hm; [done|].
    intros Hnone [|a pre] post Heq.
    + rewrite append_nil_l in Heq. by subst post.
    + rewrite string_app_cons in Heq. injection Heq as <- ->.
      by apply (IH _ Hnone).
Qed.

(** A search succeeds when the pattern matches at some position. *)
Lemma search_is_Some (r : Py.regex) (s : string) :
  is_Some (Py.search r s) ↔
  ∃ pre post,
    s = pre +:+ post
    ∧ is_Some (Py.match_at r (Py.last_char pre None) post post EmptyString).
Proof.
  unfold Py.search. split.
  - intros [m (pre & post & ? & Hm)%search_from_found].
    exists pre, post. by rewrite Hm.
  - intros (pre & post & Heq & Hm).
    destruct (Py.search_from r None s) eqn:Hs; [done|].
    rewrite (search_from_none _ _ _ Hs _ _ Heq) in Hm. by destruct Hm.
Qed.

Lemma contains_split (l s : string) :
  Py.contains l s = true ↔
  ∃ pre post, s = pre +:+ post ∧ Py.startswith l post = true.
Proof.
  induction s as [|c s IH]; simpl.
  - rewrite orb_false_r. split.
    + intros Hl. by exists EmptyString, EmptyString.
    + intros ([|a pre] & post & Heq & Hl); [|done].
      rewrite append_nil_l in Heq. by subst post.
  - rewrite orb_true_iff, IH. split.
    + intros [Hl|(pre & post & -> & Hl)].
      * by exists EmptyString, (String c s).
      * by exists (String c pre), post.
    + intros ([|a pre] & post & Heq & Hl).
      * rewrite append_nil_l in Heq. subst post. by left.
      * rewrite string_app_cons in Heq. injection Heq as <- ->.
        right. by exists pre, post.
Qed.

Lemma search_literal (l s : string) :
  is_Some (Py.search [Py.Lit l] s) ↔ Py.contains l s = true.
Proof.
  rewrite search_is_Some, contains_split.
  split; intros (pre & post & Heq & Hl); exists pre, post; (split; [done|]).
  - simpl in Hl. destruct (Py.startswith l post); [done|by destruct Hl].
  - simpl. by rewrite Hl.
Qed.

(** One step of the matcher on a class and on a hyphen *)
Lemma match_at_class (p : ascii → bool) (r : Py.regex) prev c s gopen grp :
  Py.match_at (Py.Set1 p :: r) prev (String c s) gopen grp
  = if p c then Py.match_at r (Some c) s gopen grp else None.
Proof. reflexivity. Qed.

Lemma match_at_hyphen (r : Py.regex) prev c s gopen grp :
  Py.match_at (Py.Lit "-" :: r) prev (String c s) gopen grp
  = if Ascii.eqb "-" c then Py.match_at r (Some "-"%char) s gopen grp else None.
Proof.
  change (Py.match_at (Py.Lit "-" :: r) prev (String c s) gopen grp)
    with (if Ascii.eqb "-" c && true
          then Py.match_at r (Some "-"%char) s gopen grp else None).
  by rewrite andb_true_r.
Qed.

Lemma digits_cons (n : nat) (c : ascii) (s : string) :
  Shapes.digits (S n) (String c s) = Py.is_digit c && Shapes.digits n s.
Proof. reflexivity. Qed.

Lemma digits_inv (n : nat) (s : string) :
  Shapes.digits n s = true →
  match n with
  | O => s = EmptyString
  | S n' => ∃ c s', s = String c s' ∧ Py.is_digit c = true
                    ∧ Shapes.digits n' s' = true
  end.
Proof.
  destruct n as [|n], s as [|c s]; simpl; try done.
  intros [? ?]%andb_true_iff. by exists c, s.
Qed.

Ltac no_match := by intros []%is_Some_None.
Ltac take_class s c H :=
  destruct s as [|c s]; [no_match|];
  rewrite match_at_class; destruct (Py.is_digit c) eqn:H; [|no_match].
Ltac take_hyphen s c :=
  destruct s as [|c s]; [no_match|];
  rewrite match_at_hyphen; destruct (Ascii.eqb_spec "-" c) as [<-|]; [|no_match].
Ltac split_digits H :=
  repeat match type of H with
         | Shapes.digits (S _) _ = true =>
             let c := fresh "c" in
             let Hc := fresh "Hc" in
             apply digits_inv in H as (c & ? & -> & Hc & H)
         | Shapes.digits O _ = true => apply digits_inv in H as ->
         end.

Local Abbreviation month_re :=
  (Py.times 4 Py.is_digit ++ [Py.Lit "-"] ++ Py.times 2 Py.is_digit ++ [Py.Eos]).
Local Abbreviation date_re :=
  (Py.times 4 Py.is_digit ++ [Py.Lit "-"] ++ Py.times 2 Py.is_digit
     ++ [Py.Lit "-"] ++ Py.times 2 Py.is_digit).

Lemma match_date prev s gopen grp :
  is_Some (Py.match_at date_re prev s gopen grp) ↔
  ∃ d post, s = d +:+ post ∧ Shapes.year_month_day d.
Proof.
  unfold Py.times. cbn [repeat app]. split.
  - take_class s c1 H1. take_class s c2 H2. take_class s c3 H3. take_class s c4 H4.
    take_hyphen s c5.
    take_class s c6 H6. take_class s c7 H7.
    take_hyphen s c8.
    take_class s c9 H9. take_class s c10 H10.
    intros _.
    exists (String c1 (String c2 (String c3 (String c4 (String "-" (String c6
             (String c7 (String "-" (String c9 (String c10 "")))))))))), s.
    split; [done|].
    exists (String c1 (String c2 (String c3 (String c4 "")))),
      (String c6 (String c7 "")), (String c9 (String c10 "")).
    rewrite !digits_cons, H1, H2, H3, H4, H6, H7, H9, H10. done.
  - intros (d & post & -> & y & m & day & -> & Hy & Hm & Hday).
    split_digits Hy. split_digits Hm. split_digits Hday.
    change (is_Some (Py.match_at
      [Py.Set1 Py.is_digit; Py.Set1 Py.is_digit; Py.Set1 Py.is_digit;
       Py.Set1 Py.is_digit; Py.Lit "-"; Py.Set1 Py.is_digit; Py.Set1 Py.is_digit;
       Py.Lit "-"; Py.Set1 Py.is_digit; Py.Set1 Py.is_digit] prev
      (String c (String c0 (String c1 (String c2 (String "-" (String c3
         (String c4 (String "-" (String c5 (String c6 post))))))))))
      gopen grp)).
    repeat first [ rewrite match_at_class | rewrite match_at_hyphen
                 | match goal with H : Py.is_digit _ = true |- _ => rewrite H end ].
    done.
Qed.

Lemma match_month prev s gopen grp :
  is_Some (Py.match_at month_re prev s gopen grp) ↔
  ∃ d, Shapes.year_month d ∧ (s = d ∨ s = d +:+ Shapes.newline).
Proof.
  unfold Py.times. cbn [repeat app]. split.
  - take_class s c1 H1. take_class s c2 H2. take_class s c3 H3. take_class s c4 H4.
    take_hyphen s c5.
    take_class s c6 H6. take_class s c7 H7.
    intros Hend.
    exists (String c1 (String c2 (String c3 (String c4 (String "-" (String c6
             (String c7 ""))))))).
    split.
    + exists (String c1 (String c2 (String c3 (String c4 "")))),
        (String c6 (String c7 "")).
      rewrite !digits_cons, H1, H2, H3, H4, H6, H7. done.
    + destruct s as [|c8 s]; [by left|]. right.
      destruct s as [|c9 s]; [|by destruct Hend].
      simpl in Hend. destruct (Ascii.eqb_spec c8 "010") as [->|]; [done|].
      by destruct Hend.
  - intros (d & (y & m & -> & Hy & Hm) & Hs).
    split_digits Hy. split_digits Hm.
    assert (∀ tail, tail = EmptyString ∨ tail = Shapes.newline →
              is_Some (Py.match_at
                [Py.Set1 Py.is_digit; Py.Set1 Py.is_digit; Py.Set1 Py.is_digit;
                 Py.Set1 Py.is_digit; Py.Lit "-"; Py.Set1 Py.is_digit;
                 Py.Set1 Py.is_digit; Py.Eos] prev
                (String c (String c0 (String c1 (String c2 (String "-" (String c3
                   (String c4 tail)))))))
                gopen grp)) as Hmatch.
    { intros tail Htail.
      repeat first [ rewrite match_at_class | rewrite match_at_hyphen
                   | match goal with H : Py.is_digit _ = true |- _ => rewrite H end ].
      by destruct Htail as [-> | ->]. }
    destruct Hs as [-> | ->]; apply Hmatch; [by left|by right].
Qed.

Lemma search_month (u : string) :
  is_Some (Py.search month_re u) ↔
  ∃ pre d, Shapes.year_month d ∧ (u = pre +:+ d ∨ u = pre +:+ d +:+ Shapes.newline).
Proof.
  rewrite search_is_Some. split.
  - intros (pre & post & -> & (d & Hd & Hpost)%match_month).
    exists pre, d. split; [done|]. destruct Hpost as [-> | ->]; [by left|by right].
  - intros (pre & d & Hd & [-> | ->]).
    + exists pre, d. split; [done|]. apply match_month. exists d. by split; [|left].
    + exists pre, (d +:+ Shapes.newline). split; [done|].
      apply match_month. exists d. by split; [|right].
Qed.

Lemma search_date (u : string) :
  is_Some (Py.search date_re u) ↔
  ∃ pre d post, u = pre +:+ d +:+ post ∧ Shapes.year_month_day d.
Proof.
  rewrite search_is_Some. split.
  - intros (pre & rest & -> & (d & post & -> & Hd)%match_date).
    by exists pre, d, post.
  - intros (pre & d & post & -> & Hd).
    exists pre, (d +:+ post). split; [done|]. apply match_date. by exists d, post.
Qed.

(** X15: a URL is excluded by [should_skip] exactly when it contains one of
    the texts [/events/tag/], [/events/category/], [/day/], [/page/],
    [/feed/], [/author/] or a question mark, or contains a date written
    [YYYY-MM-DD], or ends with a month written [YYYY-MM] (a line feed may
    follow it). *)
Theorem X15_should_skip (u : string) :
  TpaCrawl.should_skip u = true ↔
    (∃ marker, marker ∈ Shapes.skip_markers ∧ Py.contains marker u = true)
    ∨ (∃ pre d post, u = pre +:+ d +:+ post ∧ Shapes.year_month_day d)
    ∨ (∃ pre d, Shapes.year_month d
                ∧ (u = pre +:+ d ∨ u = pre +:+ d +:+ Shapes.newline)).
Proof.
  rewrite <- search_date, <- search_month.
  unfold TpaCrawl.should_skip, TpaCrawl.SKIP_PATTERNS. cbn [existsb].
  rewrite !orb_true_iff, !bool_decide_eq_true, !search_literal.
  split.
  - intros [?|[?|[?|[?|[?|[?|[?|[?|[?|?]]]]]]]]]; try done; try (by right; eauto);
      left; eexists; (split; [|done]); apply list_elem_of_In; simpl; tauto.
  - intros [(marker & Hin & Hm)|[?|?]]; [|tauto..].
    apply list_elem_of_In in Hin. simpl in Hin.
    destruct Hin as [<-|[<-|[<-|[<-|[<-|[<-|[<-|[]]]]]]]]; tauto.
Qed.

(** The first run of four digits *)
Lemma match_year prev s m :
  Py.match_at TpaCrawl.year_re prev s s EmptyString = Some m →
  ∃ post, s = Py.group1 m +:+ post ∧ Shapes.digits 4 (Py.group1 m) = true.
Proof.
  unfold TpaCrawl.year_re, Py.times. cbn [repeat app].
  change (Py.match_at (Py.Open :: ?r) prev s s EmptyString)
    with (Py.match_at r prev s s EmptyString).
  destruct s as [|c1 s]; [done|].
  rewrite match_at_class. destruct (Py.is_digit c1) eqn:H1; [|done].
  destruct s as [|c2 s]; [done|].
  rewrite match_at_class. destruct (Py.is_digit c2) eqn:H2; [|done].
  destruct s as [|c3 s]; [done|].
  rewrite match_at_class. destruct (Py.is_digit c3) eqn:H3; [|done].
  destruct s as [|c4 s]; [done|].
  rewrite match_at_class. destruct (Py.is_digit c4) eqn:H4; [|done].
  cbn [Py.match_at String.length].
  replace (S (S (S (S (String.length s)))) - String.length s)%nat with 4%nat by lia.
  intros [= <-]. cbn [Py.group1 Py.take]. exists s. split; [done|].
  rewrite !digits_cons, H1, H2, H3, H4. done.
Qed.

Lemma search_year (p : string) (m : Py.found) :
  Py.search TpaCrawl.year_re p = Some m →
  ∃ pre post,
    p = pre +:+ Py.group1 m +:+ post ∧ Shapes.digits 4 (Py.group1 m) = true.
Proof.
  intros (pre & rest & -> & (post & -> & Hy)%match_year)%search_from_found.
  by exists pre, post.
Qed.

(** The year pattern matches where four digits begin, and captures them. *)
Lemma match_year_first prev s :
  option_map Py.group1 (Py.match_at TpaCrawl.year_re prev s s EmptyString)
  = if Claims.begins_with_year s then Some (Py.take 4 s) else None.
Proof.
  unfold TpaCrawl.year_re, Py.times. cbn [repeat app].
  change (Py.match_at (Py.Open :: ?r) prev s s EmptyString)
    with (Py.match_at r prev s s EmptyString).
  destruct s as [|c1 s]; [done|].
  rewrite match_at_class.
  destruct s as [|c2 s]; [by destruct (Py.is_digit c1)|].
  destruct s as [|c3 s];
    [destruct (Py.is_digit c1); [|done]; rewrite match_at_class;
     by destruct (Py.is_digit c2)|].
  destruct s as [|c4 s];
    [destruct (Py.is_digit c1); [|done]; rewrite match_at_class;
     destruct (Py.is_digit c2); [|done]; rewrite match_at_class;
     by destruct (Py.is_digit c3)|].
  cbn [Claims.begins_with_year].
  destruct (Py.is_digit c1); [|done]. rewrite match_at_class.
  destruct (Py.is_digit c2); [|done]. rewrite match_at_class.
  destruct (Py.is_digit c3); [|done]. rewrite match_at_class.
  destruct (Py.is_digit c4); [|done].
  cbn [Py.match_at String.length].
  by replace (S (S (S (S (String.length s)))) - String.length s)%nat with 4%nat by lia.
Qed.

(** What [categorise] reads for the year is the first four consecutive
    digits of the path. *)
Lemma search_year_first prev (p : string) :
  option_map Py.group1 (Py.search_from TpaCrawl.year_re prev p)
  = Claims.first_four_digits p.
Proof.
  revert prev. induction p as [|c p IH]; intros prev.
  - pose proof (match_year_first prev EmptyString) as Hhere.
    cbn [Py.search_from Claims.first_four_digits].
    destruct (Py.match_at TpaCrawl.year_re prev "" "" ""); cbn [option_map] in *;
      by destruct (Claims.begins_with_year "").
  - pose proof (match_year_first prev (String c p)) as Hhere.
    cbn [Py.search_from Claims.first_four_digits].
    destruct (Py.match_at TpaCrawl.year_re prev (String c p) (String c p) "")
      as [m|]; cbn [option_map] in *.
    + by destruct (Claims.begins_with_year (String c p)).
    + destruct (Claims.begins_with_year (String c p)); [done|]. apply IH.
Qed.

Lemma old_year_leading (now_year : Z) (p : string) :
  TpaCrawl.old_year now_year p = Claims.leading_old_year now_year p.
Proof.
  unfold TpaCrawl.old_year, Claims.leading_old_year, TpaCrawl.CUTOFF_YEAR, Py.search.
  rewrite <- (search_year_first None p).
  by destruct (Py.search_from TpaCrawl.year_re None p).
Qed.

Section CrawlFacts.
Variable now_year : Z.
Variable urlparse : string → option TpaCrawl.ParseResult.
Variable browse : string → option (list string).

Local Abbreviation categorise_path := (TpaCrawl.categorise_path now_year).
Local Abbreviation categorise := (TpaCrawl.categorise now_year urlparse).
Local Abbreviation collect_links := (TpaCrawl.collect_links urlparse).
Local Abbreviation crawl_url := (TpaCrawl.crawl_url urlparse browse).
Local Abbreviation crawl_round := (TpaCrawl.crawl_round urlparse browse).
Local Abbreviation crawl := (TpaCrawl.crawl urlparse browse).
Local Abbreviation reachable := (TpaCrawl.reachable urlparse browse).
Local Abbreviation report := (TpaCrawl.report now_year urlparse).

(** *** The path rules *)

Lemma categorise_path_first_match (pairs : list (string * string)) (p : string) :
  categorise_path pairs p
  = Claims.first_match (Claims.rules_as_tested now_year pairs) p.
Proof.
  unfold TpaCrawl.categorise_path, Claims.rules_as_tested. simpl.
  unfold Claims.duplicate_rule, Claims.gallery_rule, Claims.event_rule,
    Claims.directory_rule, Claims.generated_rule, Claims.webinar_rule,
    Claims.content_rule, Claims.dated_rule, Claims.marker_rule. simpl.
  rewrite <- !old_year_leading.
  destruct (TpaCrawl.find_duplicate pairs p); [done|].
  repeat (match goal with
          | |- context [Py.contains ?m p] => destruct (Py.contains m p); simpl
          end; try done).
Qed.

Lemma find_duplicate_first (pairs : list (string * string)) (a b : string) :
  (a, b) ∈ pairs →
  ∃ b', TpaCrawl.find_duplicate pairs a
        = Some ("DUPLICATE", "Possible duplicate of " +:+ TpaCrawl.BASE_URL +:+ b').
Proof.
  induction pairs as [|[a' b'] more IH]; intros Hin; [by apply elem_of_nil in Hin|].
  simpl. destruct (String.eqb_spec a a') as [->|Hne]; [eauto|].
  apply IH. apply elem_of_cons in Hin as [[=]|]; done.
Qed.

(** C3, as the program has it: [categorise] gives the verdict of the first
    rule that matches the lower-cased path, the rules being tested in the
    order duplicate pair, [/gallery/], [/event/], [/directory/],
    [/filter_categories/] or [/directory_cat/], [/webinar/], [/article/] or
    [/whitepaper/], and a path that matches none is a core site page.  A
    page of [/gallery/], [/event/] or [/webinar/] is old when the first
    four consecutive digits of its path, wherever they stand and whatever
    follows them, make a number below the cutoff.  A path that is the first
    member of a pair of the table is a [DUPLICATE] whatever else it holds,
    and [/event/fintech-2023], with the cutoff year 2022, is for
    [REVIEW]. *)
Theorem C3_categorise_rules (u : string) (parsed : TpaCrawl.ParseResult) :
  urlparse u = Some parsed →
  categorise u
  = Py.Ok (Claims.first_match
             (Claims.rules_as_tested now_year TpaCrawl.duplicate_pairs)
             (Py.lower (TpaCrawl.path parsed)))
  ∧ (∀ pairs a b, (a, b) ∈ pairs → (categorise_path pairs a).1 = "DUPLICATE")
  ∧ TpaCrawl.CUTOFF_YEAR 2025 = 2022
  ∧ TpaCrawl.categorise_path 2025 TpaCrawl.duplicate_pairs "/event/fintech-2023"
    = ("REVIEW", "Past or upcoming event — check if still relevant").
Proof.
  intros Hparse. split_and!; [| |done|done].
  - unfold TpaCrawl.categorise, TpaCrawl.parse. rewrite Hparse. simpl.
    by rewrite categorise_path_first_match.
  - intros pairs a b Hin. unfold TpaCrawl.categorise_path.
    by destruct (find_duplicate_first pairs a b Hin) as [b' ->].
Qed.

(** *** The crawl *)

(** What the inner loop keeps: the pages opened so far together with the
    batch are pairwise distinct, and they are the visited URLs. *)
Lemma fill_batch_inv (before stack : list string) (seen : gset string)
    (batch stack' : list string) (seen' : gset string) (batch' : list string) :
  TpaCrawl.fill_batch stack seen batch = (stack', seen', batch') →
  NoDup (before ++ batch) → (∀ u, u ∈ before ++ batch ↔ u ∈ seen) →
  NoDup (before ++ batch') ∧ (∀ u, u ∈ before ++ batch' ↔ u ∈ seen').
Proof.
  revert seen batch. induction stack as [|u stack IH]; intros seen batch; simpl.
  - intros [= <- <- <-]. done.
  - case_bool_decide; [|by intros [= <- <- <-]].
    destruct (bool_decide (u ∉ seen) && negb (TpaCrawl.should_skip u)) eqn:Hnew.
    + apply andb_true_iff in Hnew as [Hfresh%bool_decide_eq_true _].
      intros Hf Hnd Hiff. apply (IH _ _ Hf).
      * rewrite app_assoc. apply NoDup_app. split_and!; [done| |apply NoDup_singleton].
        intros x Hx ->%list_elem_of_singleton. by apply Hfresh, Hiff.
      * intros x.
        rewrite app_assoc, elem_of_app, Hiff, list_elem_of_singleton,
          elem_of_union, elem_of_singleton.
        tauto.
    + intros Hf. by apply (IH _ _ Hf).
Qed.

Lemma fill_batch_stack (stack : list string) (seen : gset string)
    (batch stack' : list string) (seen' : gset string) (batch' : list string) :
  TpaCrawl.fill_batch stack seen batch = (stack', seen', batch') →
  ∀ u, u ∈ stack' → u ∈ stack.
Proof.
  revert seen batch. induction stack as [|x stack IH]; intros seen batch; simpl.
  - by intros [= <- <- <-].
  - case_bool_decide; [|by intros [= <- <- <-]].
    destruct (bool_decide (x ∉ seen) && negb (TpaCrawl.should_skip x));
      intros Hf u Hu; right; by eapply IH.
Qed.

(** A link is collected only if it is not visited. *)
Lemma collect_links_fresh (links : list string) (seen : gset string)
    (new_links : list string) (u : string) :
  u ∈ collect_links links seen new_links → u ∈ new_links ∨ u ∉ seen.
Proof.
  revert new_links. induction links as [|link more IH]; intros new_links; simpl;
    [by left|].
  destruct (TpaCrawl.parse urlparse link) as [parsed|]; [|by left].
  destruct (String.eqb _ _); [|apply IH].
  destruct (negb _); [|apply IH].
  destruct (TpaCrawl.is_top_level urlparse _) as [[|]|]; [|apply IH|by left].
  case_bool_decide; [|apply IH].
  intros [Hin|?]%IH; [|by right].
  apply elem_of_app in Hin as [?|Hin]; [by left|].
  apply list_elem_of_singleton in Hin as ->. by right.
Qed.

Lemma crawl_url_fresh (page : string) (seen : gset string) (u : string) :
  u ∈ crawl_url page seen → u ∉ seen.
Proof.
  unfold TpaCrawl.crawl_url. destruct (browse page) as [links|].
  - intros [Hin|?]%collect_links_fresh; [|done]. by apply elem_of_nil in Hin.
  - by intros ?%elem_of_nil.
Qed.

Lemma crawl_round_inv (st st' : TpaCrawl.state) :
  crawl_round st = Some st' →
  NoDup (TpaCrawl.opened st) →
  (∀ u, u ∈ TpaCrawl.opened st ↔ u ∈ TpaCrawl.visited st) →
  NoDup (TpaCrawl.opened st')
  ∧ (∀ u, u ∈ TpaCrawl.opened st' ↔ u ∈ TpaCrawl.visited st').
Proof.
  unfold TpaCrawl.crawl_round. intros Hround Hnd Hiff.
  destruct (TpaCrawl.to_visit st) as [|first rest]; [done|].
  destruct (TpaCrawl.fill_batch _ _ _) as [[stack seen] batch] eqn:Hf.
  destruct batch as [|b batch]; [done|]. injection Hround as <-. simpl.
  eapply fill_batch_inv; [exact Hf|by rewrite app_nil_r|].
  intros u. by rewrite app_nil_r.
Qed.

Lemma crawl_round_to_visit (st st' : TpaCrawl.state) (u : string) :
  crawl_round st = Some st' → u ∈ TpaCrawl.to_visit st' →
  u ∈ TpaCrawl.to_visit st ∨ u ∉ TpaCrawl.visited st'.
Proof.
  unfold TpaCrawl.crawl_round. intros Hround.
  destruct (TpaCrawl.to_visit st) as [|first rest] eqn:Hq; [done|].
  destruct (TpaCrawl.fill_batch _ _ _) as [[stack seen] batch] eqn:Hf.
  destruct batch as [|b batch]; [done|]. injection Hround as <-.
  cbn [TpaCrawl.to_visit TpaCrawl.visited].
  intros [Hin|Hin]%elem_of_app.
  - left. apply list_elem_of_In, in_rev, list_elem_of_In in Hin.
    apply (fill_batch_stack _ _ _ _ _ _ Hf) in Hin.
    by apply list_elem_of_In, in_rev, list_elem_of_In in Hin.
  - right. apply list_elem_of_In in Hin.
    change (In u (concat (map (λ page, crawl_url page seen) (b :: batch)))) in Hin.
    apply in_concat in Hin as (links & Hlinks & Hu).
    apply in_map_iff in Hlinks as (page & <- & _).
    by eapply crawl_url_fresh, list_elem_of_In.
Qed.

Lemma reachable_inv (st : TpaCrawl.state) :
  reachable st →
  NoDup (TpaCrawl.opened st)
  ∧ (∀ u, u ∈ TpaCrawl.opened st ↔ u ∈ TpaCrawl.visited st).
Proof.
  induction 1 as [|st st' _ [Hnd Hiff] Hround].
  - split; [constructor|]. intros u. simpl.
    rewrite elem_of_nil, elem_of_empty. tauto.
  - by eapply crawl_round_inv.
Qed.

Lemma crawl_reachable (fuel : nat) (st st' : TpaCrawl.state) :
  reachable st → crawl fuel st = Some st' → reachable st'.
Proof.
  revert st. induction fuel as [|fuel IH]; intros st Hst; simpl; [done|].
  destruct (crawl_round st) as [st1|] eqn:Hround.
  - apply IH. by econstructor.
  - by intros [= <-].
Qed.

(** C8, as the program has it: in every state of the crawl the pages opened
    so far are pairwise distinct and are the visited URLs, so that no URL
    is opened twice, up to the end of the crawl; a URL that a turn of the
    loop adds to [to_visit] is not a visited one.  (The list [to_visit]
    itself may hold a URL several times.) *)
Theorem C8_each_url_opened_once (st : TpaCrawl.state) :
  reachable st →
  NoDup (TpaCrawl.opened st)
  ∧ (∀ u, u ∈ TpaCrawl.opened st ↔ u ∈ TpaCrawl.visited st)
  ∧ (∀ st' u, crawl_round st = Some st' → u ∈ TpaCrawl.to_visit st' →
              u ∈ TpaCrawl.to_visit st ∨ u ∉ TpaCrawl.visited st')
  ∧ (∀ fuel st', crawl fuel st = Some st' →
                 NoDup (TpaCrawl.opened st')
                 ∧ (∀ u, u ∈ TpaCrawl.opened st' ↔ u ∈ TpaCrawl.visited st')).
Proof.
  intros Hst. destruct (reachable_inv st Hst) as [Hnd Hiff].
  split_and!; [done|done| |].
  - intros st' u. apply crawl_round_to_visit.
  - intros fuel st' Hcrawl. by eapply reachable_inv, crawl_reachable.
Qed.

(** *** More on the links and the batches *)

Local Abbreviation is_top_level := (TpaCrawl.is_top_level urlparse).
Local Abbreviation on_site := (TpaCrawl.on_site urlparse).

Lemma collect_links_kept (links : list string) (seen : gset string)
    (new_links : list string) (u : string) :
  u ∈ collect_links links seen new_links →
  u ∈ new_links
  ∨ ((u ∉ seen)
     ∧ TpaCrawl.should_skip u = false
     ∧ is_top_level u = Py.Ok true
     ∧ ∃ link parsed,
         link ∈ links
         ∧ urlparse link = Some parsed
         ∧ TpaCrawl.netloc parsed = "thepaymentsassociation.org"
         ∧ u = TpaCrawl.clean_url parsed).
Proof.
  revert new_links. induction links as [|link more IH]; intros new_links; simpl;
    [by left|].
  assert (∀ acc, u ∈ collect_links more seen acc →
                 u ∈ acc
                 ∨ ((u ∉ seen)
                    ∧ TpaCrawl.should_skip u = false
                    ∧ is_top_level u = Py.Ok true
                    ∧ ∃ link' parsed,
                        link' ∈ link :: more
                        ∧ urlparse link' = Some parsed
                        ∧ TpaCrawl.netloc parsed = "thepaymentsassociation.org"
                        ∧ u = TpaCrawl.clean_url parsed)) as IH'.
  { intros acc [?|(? & ? & ? & link' & parsed & ? & ?)]%IH; [by left|right].
    split_and!; try done. exists link', parsed. split; [by right|done]. }
  unfold TpaCrawl.parse. destruct (urlparse link) as [parsed|] eqn:Hparse; [|by left].
  destruct (String.eqb_spec (TpaCrawl.netloc parsed) "thepaymentsassociation.org")
    as [Hnet|]; [|apply IH'].
  fold (TpaCrawl.clean_url parsed).
  destruct (TpaCrawl.should_skip (TpaCrawl.clean_url parsed)) eqn:Hskip; simpl;
    [apply IH'|].
  destruct (is_top_level (TpaCrawl.clean_url parsed)) as [[|]|] eqn:Htop;
    [|apply IH'|by left].
  case_bool_decide as Hfresh; [|apply IH'].
  intros [Hin|?]%IH'; [|by right].
  apply elem_of_app in Hin as [?|Hin]; [by left|].
  apply list_elem_of_singleton in Hin as ->. right.
  split_and!; try done. exists link, parsed. split; [by left|done].
Qed.

(** X9: every link that [crawl_url] returns for a page is a link of that
    page on the host [thepaymentsassociation.org], rebuilt from its scheme,
    host and path without the slashes at the end of the path; it is not
    visited, not excluded by [should_skip] and has at most two path
    segments.  A page that cannot be opened gives no link. *)
Theorem X9_crawl_url_links (page : string) (seen : gset string) :
  (∀ u, u ∈ crawl_url page seen →
        (u ∉ seen)
        ∧ TpaCrawl.should_skip u = false
        ∧ is_top_level u = Py.Ok true
        ∧ ∃ links link parsed,
            browse page = Some links
            ∧ link ∈ links
            ∧ urlparse link = Some parsed
            ∧ TpaCrawl.netloc parsed = "thepaymentsassociation.org"
            ∧ u = TpaCrawl.scheme parsed +:+ "://" +:+ TpaCrawl.netloc parsed
                    +:+ Py.rstrip_char "/" (TpaCrawl.path parsed))
  ∧ (browse page = None → crawl_url page seen = []).
Proof.
  unfold TpaCrawl.crawl_url. split; [|by intros ->].
  destruct (browse page) as [links|]; [|by intros u ?%elem_of_nil].
  intros u [[]%elem_of_nil|(? & ? & ? & link & parsed & ? & ? & ? & ?)]%collect_links_kept.
  split_and!; try done. by exists links, link, parsed.
Qed.

Lemma crawl_url_on_site (page : string) (seen : gset string) (u : string) :
  u ∈ crawl_url page seen → on_site u.
Proof.
  unfold TpaCrawl.crawl_url. destruct (browse page) as [links|];
    [|by intros ?%elem_of_nil].
  intros [[]%elem_of_nil|(? & ? & ? & link & parsed & ? & ? & ? & ?)]%collect_links_kept.
  split_and!; try done. by exists link, parsed.
Qed.

(** What the inner loop puts in the batch *)
Lemma fill_batch_batch (stack : list string) (seen : gset string)
    (batch stack' : list string) (seen' : gset string) (batch' : list string) :
  TpaCrawl.fill_batch stack seen batch = (stack', seen', batch') →
  (∃ added, batch' = batch ++ added
            ∧ ∀ u, u ∈ added →
                   u ∈ stack ∧ (u ∉ seen) ∧ TpaCrawl.should_skip u = false)
  ∧ (length batch' ≤ Nat.max (length batch) 10)%nat.
Proof.
  revert seen batch. induction stack as [|x stack IH]; intros seen batch; simpl.
  - intros [= <- <- <-]. split; [|lia].
    exists []. rewrite app_nil_r. split; [done|]. by intros u ?%elem_of_nil.
  - case_bool_decide as Hroom.
    + destruct (bool_decide (x ∉ seen) && negb (TpaCrawl.should_skip x)) eqn:Hnew.
      * apply andb_true_iff in Hnew as [Hfresh%bool_decide_eq_true Hskip%negb_true_iff].
        intros Hf. destruct (IH _ _ Hf) as ((added & -> & Hadded) & Hlen).
        split; [|rewrite !length_app in *; simpl in *; lia].
        exists (x :: added). rewrite <- app_assoc. split; [done|].
        intros u [->|Hu]%elem_of_cons.
        -- split_and!; [by left|done|done].
        -- destruct (Hadded u Hu) as (? & Hnot & ?).
           split_and!; [by right| |done].
           intros ?. apply Hnot. apply elem_of_union. by right.
      * intros Hf. destruct (IH _ _ Hf) as ((added & -> & Hadded) & Hlen).
        split; [|done].
        exists added. split; [done|]. intros u Hu.
        destruct (Hadded u Hu) as (? & ? & ?). split_and!; [by right|done|done].
    + intros [= <- <- <-]. split; [|lia].
      exists []. rewrite app_nil_r. split; [done|]. by intros u ?%elem_of_nil.
Qed.

(** One turn of the outer loop *)
Lemma crawl_round_batch (st st' : TpaCrawl.state) :
  crawl_round st = Some st' →
  ∃ batch,
    TpaCrawl.opened st' = TpaCrawl.opened st ++ batch
    ∧ (1 ≤ length batch ≤ 10)%nat
    ∧ (∀ u, u ∈ batch →
            u ∈ TpaCrawl.to_visit st ∧ (u ∉ TpaCrawl.visited st)
            ∧ TpaCrawl.should_skip u = false)
    ∧ (∀ u, u ∈ TpaCrawl.to_visit st' →
            u ∈ TpaCrawl.to_visit st ∨ on_site u).
Proof.
  unfold TpaCrawl.crawl_round. intros Hround.
  destruct (TpaCrawl.to_visit st) as [|first rest] eqn:Hq; [done|].
  destruct (TpaCrawl.fill_batch _ _ _) as [[stack seen] pages] eqn:Hf.
  destruct pages as [|b batch]; [done|]. injection Hround as <-.
  cbn [TpaCrawl.opened TpaCrawl.to_visit TpaCrawl.visited].
  destruct (fill_batch_batch _ _ _ _ _ _ Hf) as ((added & Hadded & Hin) & Hlen).
  simpl in Hadded, Hlen. subst added.
  exists (b :: batch). split_and!; [done|simpl; lia|simpl in *; lia| |].
  - intros u Hu. destruct (Hin u Hu) as (Hstack & ? & ?).
    split_and!; [|done|done].
    by apply list_elem_of_In, in_rev, list_elem_of_In in Hstack.
  - intros u [Hu|Hu]%elem_of_app.
    + left. apply list_elem_of_In, in_rev, list_elem_of_In in Hu.
      apply (fill_batch_stack _ _ _ _ _ _ Hf) in Hu.
      by apply list_elem_of_In, in_rev, list_elem_of_In in Hu.
    + right. apply list_elem_of_In in Hu.
      change (In u (concat (map (λ page, crawl_url page seen) (b :: batch)))) in Hu.
      apply in_concat in Hu as (links & Hlinks & Hu).
      apply in_map_iff in Hlinks as (page & <- & _).
      by eapply crawl_url_on_site, list_elem_of_In.
Qed.

(** X10: each turn of the crawl opens a batch of at least one and at most
    ten pages; they are taken from [to_visit], were not visited before and
    are not excluded by [should_skip]; and what the turn adds to [to_visit]
    are on-site links as [crawl_url] keeps them. *)
Theorem X10_batches (st st' : TpaCrawl.state) :
  crawl_round st = Some st' →
  ∃ batch,
    TpaCrawl.opened st' = TpaCrawl.opened st ++ batch
    ∧ (1 ≤ length batch ≤ 10)%nat
    ∧ (∀ u, u ∈ batch →
            u ∈ TpaCrawl.to_visit st ∧ (u ∉ TpaCrawl.visited st)
            ∧ TpaCrawl.should_skip u = false)
    ∧ (∀ u, u ∈ TpaCrawl.to_visit st' →
            u ∈ TpaCrawl.to_visit st ∨ on_site u).
Proof. apply crawl_round_batch. Qed.

Lemma reachable_on_site (st : TpaCrawl.state) :
  reachable st →
  (∀ u, u ∈ TpaCrawl.to_visit st → u = TpaCrawl.BASE_URL ∨ on_site u)
  ∧ (∀ u, u ∈ TpaCrawl.opened st →
          TpaCrawl.should_skip u = false ∧ (u = TpaCrawl.BASE_URL ∨ on_site u)).
Proof.
  induction 1 as [|st st' _ [IHq IHo] Hround].
  - split; simpl.
    + intros u ->%list_elem_of_singleton. by left.
    + by intros u ?%elem_of_nil.
  - destruct (crawl_round_batch _ _ Hround) as (batch & Ho & _ & Hbatch & Hq).
    split.
    + intros u [?|?]%Hq; [by apply IHq|by right].
    + rewrite Ho. intros u [?|Hu]%elem_of_app; [by apply IHo|].
      destruct (Hbatch u Hu) as (? & _ & ?). split; [done|by apply IHq].
Qed.

(** X11: the crawl stays on the site: every page it opens is the home page
    or an on-site link as [crawl_url] keeps it (host
    [thepaymentsassociation.org], at most two path segments, no slash at the
    end of the path), and no page excluded by [should_skip] is opened; the
    same holds of what is in [to_visit]. *)
Theorem X11_crawl_stays_on_site (st : TpaCrawl.state) :
  reachable st →
  (∀ u, u ∈ TpaCrawl.opened st →
        TpaCrawl.should_skip u = false ∧ (u = TpaCrawl.BASE_URL ∨ on_site u))
  ∧ (∀ u, u ∈ TpaCrawl.to_visit st → u = TpaCrawl.BASE_URL ∨ on_site u)
  ∧ (∀ u, u ∈ TpaCrawl.visited st →
          TpaCrawl.should_skip u = false ∧ (u = TpaCrawl.BASE_URL ∨ on_site u)).
Proof.
  intros Hst. destruct (reachable_on_site st Hst) as [Hq Ho].
  destruct (reachable_inv st Hst) as [_ Hiff].
  split_and!; [done|done|]. intros u Hu. by apply Ho, Hiff.
Qed.

(** *** The end of the crawl *)

Lemma elem_of_rev {A} (x : A) (l : list A) : x ∈ rev l ↔ x ∈ l.
Proof. rewrite !list_elem_of_In. symmetry. apply in_rev. Qed.

Lemma crawl_round_shape (st st' : TpaCrawl.state) :
  crawl_round st = Some st' →
  ∃ stack batch,
    TpaCrawl.fill_batch (rev (TpaCrawl.to_visit st)) (TpaCrawl.visited st) []
    = (stack, TpaCrawl.visited st', batch)
    ∧ batch ≠ []
    ∧ TpaCrawl.opened st' = TpaCrawl.opened st ++ batch
    ∧ TpaCrawl.to_visit st'
      = rev stack ++ concat (map (λ u, crawl_url u (TpaCrawl.visited st')) batch).
Proof.
  unfold TpaCrawl.crawl_round. intros Hround.
  destruct (TpaCrawl.to_visit st) as [|first rest] eqn:Hq; [done|].
  destruct (TpaCrawl.fill_batch _ _ _) as [[stack seen] pages] eqn:Hf.
  destruct pages as [|b batch]; [done|]. injection Hround as <-.
  by exists stack, (b :: batch).
Qed.

(** What becomes of the URLs that the inner loop pops *)
Lemma fill_batch_popped (stack : list string) (seen : gset string)
    (batch stack' : list string) (seen' : gset string) (batch' : list string) :
  TpaCrawl.fill_batch stack seen batch = (stack', seen', batch') →
  (∀ u, u ∈ seen → u ∈ seen')
  ∧ (∀ u, u ∈ stack → u ∈ stack' ∨ u ∈ seen' ∨ TpaCrawl.should_skip u = true)
  ∧ ((length batch' < 10)%nat → stack' = []).
Proof.
  revert seen batch. induction stack as [|x stack IH]; intros seen batch; simpl.
  - intros [= <- <- <-]. split_and!; [done| |done]. by intros u ?%elem_of_nil.
  - case_bool_decide as Hroom.
    + destruct (bool_decide (x ∉ seen) && negb (TpaCrawl.should_skip x)) eqn:Hnew.
      * intros Hf. destruct (IH _ _ Hf) as (Hseen & Hpop & Hend).
        split_and!; [| |done].
        -- intros u Hu. apply Hseen, elem_of_union. by right.
        -- intros u [->|?]%elem_of_cons; [|destruct (Hpop u) as [?|?]; by eauto].
           right. left. apply Hseen, elem_of_union. left. by apply elem_of_singleton.
      * intros Hf. destruct (IH _ _ Hf) as (Hseen & Hpop & Hend).
        split_and!; [done| |done].
        intros u [->|?]%elem_of_cons; [|destruct (Hpop u) as [?|?]; by eauto].
        apply andb_false_iff in Hnew as [Hold%bool_decide_eq_false|Hskip%negb_false_iff].
        -- right. left. apply Hseen. by apply dec_stable.
        -- by right; right.
    + intros [= <- <- <-]. split_and!; [done|by left|lia].
Qed.

(** The loop is left when nothing is left to open. *)
Lemma crawl_round_None (st : TpaCrawl.state) (u : string) :
  crawl_round st = None → u ∈ TpaCrawl.to_visit st →
  u ∈ TpaCrawl.visited st ∨ TpaCrawl.should_skip u = true.
Proof.
  unfold TpaCrawl.crawl_round. intros Hround Hu.
  destruct (TpaCrawl.to_visit st) as [|first rest] eqn:Hq;
    [by apply elem_of_nil in Hu|].
  destruct (TpaCrawl.fill_batch _ _ _) as [[stack seen] pages] eqn:Hf.
  destruct pages as [|b batch]; [|done].
  destruct (fill_batch_popped _ _ _ _ _ _ Hf) as (_ & Hpop & Hend).
  rewrite Hend in Hpop by (simpl; lia).
  destruct (fill_batch_inv (elements (TpaCrawl.visited st)) _ _ _ _ _ _ Hf)
    as [_ Hsame].
  { rewrite app_nil_r. apply NoDup_elements. }
  { intros x. by rewrite app_nil_r, elem_of_elements. }
  destruct (Hpop u) as [[]%elem_of_nil|[Hin|?]]; [|left|by right].
  - by apply elem_of_rev.
  - apply Hsame in Hin. rewrite app_nil_r in Hin. by apply elem_of_elements in Hin.
Qed.

Lemma crawl_last_round (fuel : nat) (st st' : TpaCrawl.state) :
  crawl fuel st = Some st' → crawl_round st' = None.
Proof.
  revert st. induction fuel as [|fuel IH]; intros st; simpl; [done|].
  destruct (crawl_round st) as [st1|] eqn:Hround; [apply IH|].
  by intros [= <-].
Qed.

Lemma crawl_more_fuel (fuel fuel' : nat) (st st' : TpaCrawl.state) :
  crawl fuel st = Some st' → (fuel ≤ fuel')%nat → crawl fuel' st = Some st'.
Proof.
  revert fuel' st. induction fuel as [|fuel IH]; intros fuel' st; simpl; [done|].
  intros Hcrawl Hle. destruct fuel' as [|fuel']; [lia|]. simpl.
  destruct (crawl_round st) as [st1|]; [|done]. apply (IH _ _ Hcrawl). lia.
Qed.

(** The links that [crawl_url] keeps when some URLs are visited are those
    that it keeps when none is, apart from the visited ones. *)
Lemma collect_links_unvisited (links : list string) (seen : gset string)
    (acc acc' : list string) (u : string) :
  (∀ x, x ∈ acc → x ∈ seen ∨ x ∈ acc') →
  u ∈ collect_links links ∅ acc → u ∈ seen ∨ u ∈ collect_links links seen acc'.
Proof.
  revert acc acc'. induction links as [|link more IH]; intros acc acc' Hacc; simpl;
    [apply Hacc|].
  destruct (TpaCrawl.parse urlparse link) as [parsed|]; [|apply Hacc].
  destruct (String.eqb _ _); [|by apply IH].
  fold (TpaCrawl.clean_url parsed).
  destruct (negb _); [|by apply IH].
  destruct (TpaCrawl.is_top_level urlparse _) as [[|]|]; [|by apply IH|apply Hacc].
  rewrite (bool_decide_eq_true_2 (TpaCrawl.clean_url parsed ∉ ∅))
    by apply not_elem_of_empty.
  case_bool_decide as Hfresh; apply IH; intros x [Hx|Hx]%elem_of_app.
  - destruct (Hacc x Hx); [by left|right]. apply elem_of_app. by left.
  - right. apply elem_of_app. by right.
  - by apply Hacc.
  - apply list_elem_of_singleton in Hx as ->. by left.
Qed.

Lemma crawl_url_unvisited (page : string) (seen : gset string) (u : string) :
  u ∈ crawl_url page ∅ → u ∈ seen ∨ u ∈ crawl_url page seen.
Proof.
  unfold TpaCrawl.crawl_url. destruct (browse page) as [links|]; [|by right].
  apply collect_links_unvisited. by intros x ?%elem_of_nil.
Qed.

Lemma should_skip_home : TpaCrawl.should_skip TpaCrawl.BASE_URL = false.
Proof. by vm_compute. Qed.

(** Nothing that is due is lost: the home page and every link kept from an
    opened page is visited or still to visit. *)
Lemma reachable_pending (st : TpaCrawl.state) :
  reachable st →
  ∀ u, u = TpaCrawl.BASE_URL
       ∨ (∃ page, page ∈ TpaCrawl.opened st ∧ u ∈ crawl_url page ∅) →
       u ∈ TpaCrawl.visited st ∨ u ∈ TpaCrawl.to_visit st.
Proof.
  induction 1 as [|st st' _ IH Hround].
  - intros u [->|(page & []%elem_of_nil & _)]. right. by apply list_elem_of_singleton.
  - destruct (crawl_round_shape _ _ Hround) as (stack & batch & Hf & _ & Ho & Hq).
    destruct (fill_batch_popped _ _ _ _ _ _ Hf) as (Hseen & Hpop & _).
    assert (∀ u, TpaCrawl.should_skip u = false →
                 u ∈ TpaCrawl.visited st ∨ u ∈ TpaCrawl.to_visit st →
                 u ∈ TpaCrawl.visited st' ∨ u ∈ TpaCrawl.to_visit st') as Hkeep.
    { intros u Hskip [?|Hu]; [left; by apply Hseen|].
      destruct (Hpop u) as [Hin|[?|?]]; [| |by left|congruence].
      - by apply elem_of_rev.
      - right. rewrite Hq. apply elem_of_app. left. by apply elem_of_rev. }
    intros u [->|(page & Hpage & Hu)].
    + apply Hkeep; [apply should_skip_home|]. apply IH. by left.
    + rewrite Ho in Hpage. apply elem_of_app in Hpage as [Hpage|Hpage].
      * apply Hkeep; [by apply (crawl_url_on_site _ _ _ Hu)|].
        apply IH. right. by exists page.
      * destruct (crawl_url_unvisited page (TpaCrawl.visited st') u Hu) as [?|Hin];
          [by left|right].
        rewrite Hq. apply elem_of_app. right.
        apply list_elem_of_In, in_concat. exists (crawl_url page (TpaCrawl.visited st')).
        split; [|by apply list_elem_of_In].
        apply in_map_iff. exists page. split; [done|by apply list_elem_of_In].
Qed.

(** X12: when the crawl ends, the home page has been visited, and every
    link that [crawl_url] keeps from a visited page (whatever was visited
    when the page was opened) has been visited too: the crawl leaves out no
    page that it can reach through the links it keeps. *)
Theorem X12_crawl_is_complete (fuel : nat) (st : TpaCrawl.state) :
  crawl fuel TpaCrawl.initial = Some st →
  TpaCrawl.BASE_URL ∈ TpaCrawl.visited st
  ∧ ∀ page u, page ∈ TpaCrawl.visited st → u ∈ crawl_url page ∅ →
              u ∈ TpaCrawl.visited st.
Proof.
  intros Hcrawl.
  assert (reachable st) as Hst by (eapply crawl_reachable; [constructor|done]).
  pose proof (crawl_last_round _ _ _ Hcrawl) as Hend.
  pose proof (reachable_pending st Hst) as Hdue.
  destruct (reachable_inv st Hst) as [_ Hiff].
  split.
  - destruct (Hdue TpaCrawl.BASE_URL) as [?|Hq]; [by left|done|].
    destruct (crawl_round_None _ _ Hend Hq) as [?|Hskip]; [done|].
    by rewrite should_skip_home in Hskip.
  - intros page u Hpage%Hiff Hu.
    destruct (Hdue u) as [?|Hq]; [right; by exists page|done|].
    destruct (crawl_round_None _ _ Hend Hq) as [?|Hskip]; [done|].
    destruct (crawl_url_on_site _ _ _ Hu) as (Hnot & _). congruence.
Qed.

(** Every link of a page that passes the tests of [crawl_url] is kept,
    when no URL of the page makes [urlparse] raise. *)
Lemma collect_links_keeps (links : list string) (seen : gset string)
    (acc : list string) (u : string) :
  (∀ link, link ∈ links →
           ∃ parsed, urlparse link = Some parsed
                     ∧ is_Some (urlparse (TpaCrawl.clean_url parsed))) →
  u ∈ acc
  ∨ (∃ link parsed,
       link ∈ links
       ∧ urlparse link = Some parsed
       ∧ TpaCrawl.netloc parsed = "thepaymentsassociation.org"
       ∧ u = TpaCrawl.clean_url parsed
       ∧ TpaCrawl.should_skip u = false
       ∧ is_top_level u = Py.Ok true
       ∧ (u ∉ seen)) →
  u ∈ collect_links links seen acc.
Proof.
  revert acc. induction links as [|link more IH]; intros acc Hparse; simpl.
  - intros [?|(link & ? & []%elem_of_nil & _)]. done.
  - assert (∀ link', link' ∈ more →
                     ∃ parsed, urlparse link' = Some parsed
                               ∧ is_Some (urlparse (TpaCrawl.clean_url parsed)))
      as Hmore by (intros link' ?; apply Hparse; by right).
    destruct (Hparse link) as (parsed & Hlink & [cleaned Hclean]); [by left|].
    assert (∀ acc', (u ∈ acc → u ∈ acc') →
              u ∈ acc
              ∨ (∃ link' parsed',
                   link' ∈ more
                   ∧ urlparse link' = Some parsed'
                   ∧ TpaCrawl.netloc parsed' = "thepaymentsassociation.org"
                   ∧ u = TpaCrawl.clean_url parsed'
                   ∧ TpaCrawl.should_skip u = false
                   ∧ is_top_level u = Py.Ok true
                   ∧ (u ∉ seen)) →
              u ∈ collect_links more seen acc') as IH'.
    { intros acc' Hacc [?|?]; apply (IH _ Hmore); [left; by apply Hacc|by right]. }
    unfold TpaCrawl.parse. rewrite Hlink.
    fold (TpaCrawl.clean_url parsed).
    intros [Hu|(link' & parsed' & [->|Hin]%elem_of_cons & Hlink' & Hnet & -> & Hskip & Htop & Hfresh)].
    + destruct (String.eqb _ _); [|by apply IH'; [|left]].
      destruct (negb _); [|by apply IH'; [|left]].
      unfold TpaCrawl.is_top_level, TpaCrawl.parse. rewrite Hclean. simpl.
      case_bool_decide; [|by apply IH'; [|left]].
      case_bool_decide; [|by apply IH'; [|left]].
      apply IH'; [|by left]. intros ?. apply elem_of_app. by left.
    + rewrite Hlink in Hlink'. injection Hlink' as <-.
      rewrite Hnet, Hskip. simpl. rewrite Htop.
      rewrite bool_decide_eq_true_2 by done.
      apply (IH _ Hmore). left. apply elem_of_app. right.
      by apply list_elem_of_singleton.
    + destruct (String.eqb _ _); [|apply IH'; [done|right; by eauto 10]].
      destruct (negb _); [|apply IH'; [done|right; by eauto 10]].
      unfold TpaCrawl.is_top_level, TpaCrawl.parse. rewrite Hclean. simpl.
      case_bool_decide; [|apply IH'; [done|right; by eauto 10]].
      case_bool_decide; [|apply IH'; [done|right; by eauto 10]].
      apply IH'; [|right; by eauto 10]. intros ?. apply elem_of_app. by left.
Qed.

(** X13: [crawl_url] keeps every link of the page that is on the host
    [thepaymentsassociation.org], is not excluded by [should_skip], has at
    most two path segments and is not visited, provided that [urlparse]
    raises on no link of the page; with X9, these are exactly the links it
    returns. *)
Theorem X13_crawl_url_keeps (page : string) (seen : gset string)
    (links : list string) (link : string) (parsed : TpaCrawl.ParseResult) :
  browse page = Some links →
  (∀ l, l ∈ links →
        ∃ p, urlparse l = Some p ∧ is_Some (urlparse (TpaCrawl.clean_url p))) →
  link ∈ links →
  urlparse link = Some parsed →
  TpaCrawl.netloc parsed = "thepaymentsassociation.org" →
  TpaCrawl.should_skip (TpaCrawl.clean_url parsed) = false →
  is_top_level (TpaCrawl.clean_url parsed) = Py.Ok true →
  TpaCrawl.clean_url parsed ∉ seen →
  TpaCrawl.clean_url parsed ∈ crawl_url page seen.
Proof.
  intros Hpage Hparse Hin Hlink Hnet Hskip Htop Hfresh.
  unfold TpaCrawl.crawl_url. rewrite Hpage.
  apply collect_links_keeps; [done|]. right. by exists link, parsed.
Qed.

(** *** A finite site *)

Section FiniteSite.
(** The clean URLs of the on-site links of all pages *)
Variable site : list string.
Hypothesis site_links :
  ∀ page links link parsed,
    browse page = Some links → link ∈ links → urlparse link = Some parsed →
    TpaCrawl.netloc parsed = "thepaymentsassociation.org" →
    TpaCrawl.clean_url parsed ∈ site.

Lemma crawl_url_site (page : string) (seen : gset string) (u : string) :
  u ∈ crawl_url page seen → u ∈ site.
Proof.
  unfold TpaCrawl.crawl_url. destruct (browse page) as [links|] eqn:Hpage;
    [|by intros ?%elem_of_nil].
  intros [[]%elem_of_nil|(? & ? & ? & link & parsed & ? & ? & ? & ->)]%collect_links_kept.
  by eapply site_links.
Qed.

Lemma reachable_site (st : TpaCrawl.state) :
  reachable st →
  (∀ u, u ∈ TpaCrawl.to_visit st → u ∈ TpaCrawl.BASE_URL :: site)
  ∧ (∀ u, u ∈ TpaCrawl.opened st → u ∈ TpaCrawl.BASE_URL :: site).
Proof.
  induction 1 as [|st st' _ [IHq IHo] Hround].
  - split; simpl.
    + intros u ->%list_elem_of_singleton. by left.
    + by intros u ?%elem_of_nil.
  - destruct (crawl_round_shape _ _ Hround) as (stack & batch & Hf & _ & Ho & Hq).
    destruct (fill_batch_batch _ _ _ _ _ _ Hf) as ((added & Hadded & Hin) & _).
    simpl in Hadded. subst added.
    split.
    + rewrite Hq. intros u [Hu|Hu]%elem_of_app.
      * apply IHq. apply list_elem_of_In, in_rev, list_elem_of_In in Hu.
        apply (fill_batch_stack _ _ _ _ _ _ Hf) in Hu.
        by apply list_elem_of_In, in_rev, list_elem_of_In in Hu.
      * right. apply list_elem_of_In, in_concat in Hu as (found & Hfound & Hu).
        apply in_map_iff in Hfound as (page & <- & _).
        by eapply crawl_url_site, list_elem_of_In.
    + rewrite Ho. intros u [?|Hu]%elem_of_app; [by apply IHo|].
      apply IHq. destruct (Hin u Hu) as (Hstack & _).
      by apply list_elem_of_In, in_rev, list_elem_of_In in Hstack.
Qed.

Lemma opened_bound (st : TpaCrawl.state) :
  reachable st → (length (TpaCrawl.opened st) ≤ S (length site))%nat.
Proof.
  intros Hst. destruct (reachable_inv st Hst) as [Hnd _].
  destruct (reachable_site st Hst) as [_ Ho].
  change (S (length site)) with (length (TpaCrawl.BASE_URL :: site)).
  by apply submseteq_length, NoDup_submseteq.
Qed.

Lemma crawl_enough (fuel : nat) (st : TpaCrawl.state) :
  reachable st →
  (S (length site) < fuel + length (TpaCrawl.opened st))%nat →
  ∃ st', crawl fuel st = Some st'.
Proof.
  revert st. induction fuel as [|fuel IH]; intros st Hst Hfuel.
  - pose proof (opened_bound st Hst). lia.
  - simpl. destruct (crawl_round st) as [st1|] eqn:Hround; [|by exists st].
    apply IH; [by econstructor|].
    destruct (crawl_round_batch _ _ Hround) as (batch & -> & Hlen & _).
    rewrite length_app. lia.
Qed.

Lemma crawl_ends_on_site :
  ∃ st,
    (∀ fuel, (S (length site) < fuel)%nat →
             crawl fuel TpaCrawl.initial = Some st)
    ∧ (length (TpaCrawl.opened st) ≤ S (length site))%nat
    ∧ ∀ u, u ∈ TpaCrawl.opened st → u = TpaCrawl.BASE_URL ∨ u ∈ site.
Proof.
  destruct (crawl_enough (S (S (length site))) TpaCrawl.initial) as [st Hcrawl];
    [constructor|simpl; lia|].
  assert (reachable st) as Hst by (eapply crawl_reachable; [constructor|done]).
  exists st. split_and!.
  - intros fuel Hfuel. apply (crawl_more_fuel _ _ _ _ Hcrawl). lia.
  - by apply opened_bound.
  - intros u Hu. destruct (reachable_site st Hst) as [_ Ho].
    by apply elem_of_cons, Ho.
Qed.

End FiniteSite.

(** X14: on a site with finitely many on-site links the crawl ends: when
    [site] lists the clean URLs of the links to the host
    [thepaymentsassociation.org] of all pages, the outer loop is left after
    at most [length site + 1] turns that open pages; every page opened is
    the home page or in [site], and at most [length site + 1] pages are
    opened. *)
Theorem X14_crawl_ends (site : list string) :
  (∀ page links link parsed,
     browse page = Some links → link ∈ links → urlparse link = Some parsed →
     TpaCrawl.netloc parsed = "thepaymentsassociation.org" →
     TpaCrawl.clean_url parsed ∈ site) →
  ∃ st,
    (∀ fuel, (S (length site) < fuel)%nat →
             crawl fuel TpaCrawl.initial = Some st)
    ∧ (length (TpaCrawl.opened st) ≤ S (length site))%nat
    ∧ ∀ u, u ∈ TpaCrawl.opened st → u = TpaCrawl.BASE_URL ∨ u ∈ site.
Proof. apply crawl_ends_on_site. Qed.

(** *** The verdicts and the report *)

Lemma find_duplicate_spec (pairs : list (string * string)) (p : string) :
  match TpaCrawl.find_duplicate pairs p with
  | Some found => found.1 = "DUPLICATE" ∧ p ∈ map fst pairs
  | None => p ∉ map fst pairs
  end.
Proof.
  induction pairs as [|[a b] more IH]; simpl; [by intros ?%elem_of_nil|].
  destruct (String.eqb_spec p a) as [->|Hne]; simpl; [split; [done|by left]|].
  destruct (TpaCrawl.find_duplicate more p).
  - split; [apply IH|right; apply IH].
  - by intros [?|?]%elem_of_cons.
Qed.

Lemma old_year_spec (p y : string) :
  TpaCrawl.old_year now_year p = Some y →
  ∃ pre post,
    p = pre +:+ y +:+ post
    ∧ Shapes.digits 4 y = true
    ∧ Py.int_of_digits y < TpaCrawl.CUTOFF_YEAR now_year.
Proof.
  unfold TpaCrawl.old_year.
  destruct (Py.search TpaCrawl.year_re p) as [m|] eqn:Hm; [|done].
  destruct (Z.ltb_spec (Py.int_of_digits (Py.group1 m)) (TpaCrawl.CUTOFF_YEAR now_year));
    [|done].
  intros [= <-]. destruct (search_year p m Hm) as (pre & post & ? & ?).
  by exists pre, post.
Qed.

Lemma categorise_path_verdict (p status reason : string) :
  categorise_path TpaCrawl.duplicate_pairs p = (status, reason) →
  status ∈ ["DELETE_CANDIDATE"; "DUPLICATE"; "REVIEW"; "KEEP"]
  ∧ (status = "DUPLICATE" ↔ p ∈ map fst TpaCrawl.duplicate_pairs)
  ∧ (status = "DELETE_CANDIDATE" →
     (Py.contains "/gallery/" p = true ∨ Py.contains "/event/" p = true
      ∨ Py.contains "/webinar/" p = true)
     ∧ ∃ pre y post,
         p = pre +:+ y +:+ post
         ∧ Shapes.digits 4 y = true
         ∧ Py.int_of_digits y < TpaCrawl.CUTOFF_YEAR now_year).
Proof.
  unfold TpaCrawl.categorise_path.
  pose proof (find_duplicate_spec TpaCrawl.duplicate_pairs p) as Hdup.
  destruct (TpaCrawl.find_duplicate TpaCrawl.duplicate_pairs p) as [found|].
  { destruct Hdup as [Hst Hin]. intros ->. simpl in Hst. subst status.
    split_and!; [|done|done]. apply list_elem_of_In. simpl. auto 10. }
  pose proof (old_year_spec p) as Hold.
  assert (∀ other : string,
            Py.contains "/gallery/" p = true ∨ Py.contains "/event/" p = true
            ∨ Py.contains "/webinar/" p = true →
            other ∈ ["REVIEW"; "KEEP"] →
            (match TpaCrawl.old_year now_year p with
             | Some y => "DELETE_CANDIDATE"
             | None => other
             end) = status →
            status ∈ ["DELETE_CANDIDATE"; "DUPLICATE"; "REVIEW"; "KEEP"]
            ∧ (status = "DUPLICATE" ↔ p ∈ map fst TpaCrawl.duplicate_pairs)
            ∧ (status = "DELETE_CANDIDATE" →
               (Py.contains "/gallery/" p = true ∨ Py.contains "/event/" p = true
                ∨ Py.contains "/webinar/" p = true)
               ∧ ∃ pre y post,
                   p = pre +:+ y +:+ post
                   ∧ Shapes.digits 4 y = true
                   ∧ Py.int_of_digits y < TpaCrawl.CUTOFF_YEAR now_year)) as Hdated.
  { intros other Hmark Hother.
    destruct (TpaCrawl.old_year now_year p) as [y|]; intros <-.
    - split_and!; [apply list_elem_of_In; simpl; auto 10|by split| ].
      intros _. split; [done|]. destruct (Hold y eq_refl) as (pre & post & ?).
      by exists pre, y, post.
    - apply list_elem_of_In in Hother. simpl in Hother.
      destruct Hother as [<-|[<-|[]]];
        (split_and!; [apply list_elem_of_In; simpl; auto 10|by split|done]). }
  assert (∀ other : string,
            other ∈ ["REVIEW"; "KEEP"] → other = status →
            status ∈ ["DELETE_CANDIDATE"; "DUPLICATE"; "REVIEW"; "KEEP"]
            ∧ (status = "DUPLICATE" ↔ p ∈ map fst TpaCrawl.duplicate_pairs)
            ∧ (status = "DELETE_CANDIDATE" →
               (Py.contains "/gallery/" p = true ∨ Py.contains "/event/" p = true
                ∨ Py.contains "/webinar/" p = true)
               ∧ ∃ pre y post,
                   p = pre +:+ y +:+ post
                   ∧ Shapes.digits 4 y = true
                   ∧ Py.int_of_digits y < TpaCrawl.CUTOFF_YEAR now_year)) as Hplain.
  { intros other Hother <-. apply list_elem_of_In in Hother. simpl in Hother.
    destruct Hother as [<-|[<-|[]]];
      (split_and!; [apply list_elem_of_In; simpl; auto 10|by split|done]). }
  destruct (Py.contains "/gallery/" p) eqn:Hgallery.
  { intros Hv. apply (Hdated "KEEP"); [auto 10|apply list_elem_of_In; simpl; auto 10|].
    by destruct (TpaCrawl.old_year now_year p); injection Hv as <- _. }
  destruct (Py.contains "/event/" p) eqn:Hevent.
  { intros Hv. apply (Hdated "REVIEW"); [auto 10|apply list_elem_of_In; simpl; auto 10|].
    by destruct (TpaCrawl.old_year now_year p); injection Hv as <- _. }
  destruct (Py.contains "/directory/" p).
  { intros [= <- _]. apply (Hplain "REVIEW"); [apply list_elem_of_In; simpl; auto 10|done]. }
  destruct (Py.contains "/filter_categories/" p || Py.contains "/directory_cat/" p).
  { intros [= <- _]. apply (Hplain "REVIEW"); [apply list_elem_of_In; simpl; auto 10|done]. }
  destruct (Py.contains "/webinar/" p) eqn:Hwebinar.
  { intros Hv. apply (Hdated "KEEP"); [auto 10|apply list_elem_of_In; simpl; auto 10|].
    by destruct (TpaCrawl.old_year now_year p); injection Hv as <- _. }
  destruct (Py.contains "/article/" p || Py.contains "/whitepaper/" p);
    intros [= <- _]; (apply (Hplain "KEEP"); [apply list_elem_of_In; simpl; auto 10|done]).
Qed.

(** X16: every verdict of [categorise] carries one of the four statuses
    that [status_order] ranks, so that the rank 99 for another status is
    never used; it is [DUPLICATE] exactly when the lower-cased path is the
    first member of a duplicate pair; and it is [DELETE_CANDIDATE] only
    when the path contains [/gallery/], [/event/] or [/webinar/] and a run
    of four digits that reads as a year before the cutoff year. *)
Theorem X16_categorise_verdicts (u : string) (parsed : TpaCrawl.ParseResult)
    (status reason : string) :
  urlparse u = Some parsed →
  categorise u = Py.Ok (status, reason) →
  let p := Py.lower (TpaCrawl.path parsed) in
  status ∈ ["DELETE_CANDIDATE"; "DUPLICATE"; "REVIEW"; "KEEP"]
  ∧ 0 ≤ TpaCrawl.status_key
          {| TpaCrawl.url := u; TpaCrawl.status := status; TpaCrawl.reason := reason |}
      ≤ 3
  ∧ (status = "DUPLICATE" ↔ p ∈ map fst TpaCrawl.duplicate_pairs)
  ∧ (status = "DELETE_CANDIDATE" →
     (Py.contains "/gallery/" p = true ∨ Py.contains "/event/" p = true
      ∨ Py.contains "/webinar/" p = true)
     ∧ ∃ pre y post,
         p = pre +:+ y +:+ post
         ∧ Shapes.digits 4 y = true
         ∧ Py.int_of_digits y < TpaCrawl.CUTOFF_YEAR now_year).
Proof.
  intros Hparse Hcat p. unfold TpaCrawl.categorise, TpaCrawl.parse in Hcat.
  rewrite Hparse in Hcat. simpl in Hcat. injection Hcat as Hverdict.
  destruct (categorise_path_verdict _ _ _ Hverdict) as (Hst & Hdup & Hold).
  split; [done|]. split; [|done].
  unfold TpaCrawl.status_key. simpl.
  apply list_elem_of_In in Hst. simpl in Hst.
  destruct Hst as [<-|[<-|[<-|[<-|[]]]]]; by vm_compute.
Qed.

Lemma categorise_all_spec (urls : list string) :
  match TpaCrawl.categorise_all now_year urlparse urls with
  | Py.Ok rows =>
      map TpaCrawl.url rows = urls
      ∧ ∀ r, r ∈ rows →
             categorise (TpaCrawl.url r) = Py.Ok (TpaCrawl.status r, TpaCrawl.reason r)
  | Py.Raise e => e = Py.ValueError ∧ ∃ u, u ∈ urls ∧ urlparse u = None
  end.
Proof.
  induction urls as [|u more IH]; simpl.
  - split; [done|]. by intros r ?%elem_of_nil.
  - destruct (categorise u) as [[status reason]|e] eqn:Hu; simpl.
    + destruct (TpaCrawl.categorise_all now_year urlparse more) as [rows|e]; simpl.
      * destruct IH as [Hurls Hrows]. split; [by rewrite Hurls|].
        intros r [->|?]%elem_of_cons; [done|by apply Hrows].
      * destruct IH as [-> (x & ? & ?)]. split; [done|]. exists x. by split; [right|].
    + unfold TpaCrawl.categorise, TpaCrawl.parse in Hu.
      destruct (urlparse u) eqn:Hparse; [done|]. simpl in Hu. injection Hu as <-.
      split; [done|]. exists u. by split; [left|].
Qed.

Lemma report_spec (seen : gset string) :
  match report seen with
  | Py.Ok rows =>
      map TpaCrawl.url rows ≡ₚ elements seen
      ∧ ∀ r, r ∈ rows →
             categorise (TpaCrawl.url r) = Py.Ok (TpaCrawl.status r, TpaCrawl.reason r)
  | Py.Raise e => e = Py.ValueError ∧ ∃ u, u ∈ seen ∧ urlparse u = None
  end.
Proof.
  unfold TpaCrawl.report.
  pose proof (categorise_all_spec (Py.sort_by Py.str_lt id (elements seen))) as Hall.
  destruct (TpaCrawl.categorise_all _ _ _) as [rows|e]; simpl.
  - destruct Hall as [Hurls Hrows]. split.
    + unfold TpaCrawl.sort_rows.
      rewrite <- (sort_by_Permutation Z.ltb TpaCrawl.status_key rows), Hurls.
      symmetry. apply sort_by_Permutation.
    + intros r Hr. apply Hrows. unfold TpaCrawl.sort_rows in Hr.
      by rewrite <- (sort_by_Permutation Z.ltb TpaCrawl.status_key rows) in Hr.
  - destruct Hall as [-> (u & Hu & ?)]. split; [done|]. exists u. split; [|done].
    rewrite <- (sort_by_Permutation Py.str_lt id (elements seen)) in Hu.
    by apply elem_of_elements in Hu.
Qed.

(** X17: the report of the crawl has one row for each visited URL and no
    other row, and the status and the reason of a row are the verdict of
    [categorise] on its URL; the report fails only with the [ValueError] of
    [urlparse] on a visited URL. *)
Theorem X17_report_rows (seen : gset string) :
  match report seen with
  | Py.Ok rows =>
      map TpaCrawl.url rows ≡ₚ elements seen
      ∧ NoDup (map TpaCrawl.url rows)
      ∧ length rows = size seen
      ∧ ∀ r, r ∈ rows →
             categorise (TpaCrawl.url r) = Py.Ok (TpaCrawl.status r, TpaCrawl.reason r)
  | Py.Raise e => e = Py.ValueError ∧ ∃ u, u ∈ seen ∧ urlparse u = None
  end.
Proof.
  pose proof (report_spec seen) as Hreport.
  destruct (report seen) as [rows|e]; [|done].
  destruct Hreport as [Hurls Hrows]. split_and!; [done| | |done].
  - rewrite Hurls. apply NoDup_elements.
  - by rewrite <- (length_fmap TpaCrawl.url rows), Hurls.
Qed.

Lemma counts_of_four (a b c d : string) (keys : list string) :
  a ≠ b → a ≠ c → a ≠ d → b ≠ c → b ≠ d → c ≠ d →
  (∀ x, x ∈ keys → x ∈ [a; b; c; d]) →
  length keys
  = (length (filter (λ x, x = a) keys) + length (filter (λ x, x = b) keys)
     + length (filter (λ x, x = c) keys) + length (filter (λ x, x = d) keys))%nat.
Proof.
  intros Hab Hac Had Hbc Hbd Hcd.
  induction keys as [|x keys IH]; intros Hall; [done|].
  rewrite !filter_cons. simpl. rewrite IH by (intros y Hy; apply Hall; by right).
  pose proof (Hall x ltac:(by left)) as Hx.
  apply list_elem_of_In in Hx. simpl in Hx.
  destruct Hx as [<-|[<-|[<-|[<-|[]]]]];
    repeat (case_decide; try congruence); simpl; lia.
Qed.

(** X18: in the summary that [main] prints after the crawl, the number of
    URLs found is the number of visited URLs; the counts of
    [DELETE_CANDIDATE], [DUPLICATE], [REVIEW] and [KEEP] are the numbers of
    rows of the report with that status, and they add up to it. *)
Theorem X18_crawl_summary_adds_up (seen : gset string) (rows : list TpaCrawl.row) :
  report seen = Py.Ok rows →
  TpaCrawl.summary rows
  = (size seen,
     length (filter (λ r, TpaCrawl.status r = "DELETE_CANDIDATE") rows),
     length (filter (λ r, TpaCrawl.status r = "DUPLICATE") rows),
     length (filter (λ r, TpaCrawl.status r = "REVIEW") rows),
     length (filter (λ r, TpaCrawl.status r = "KEEP") rows))
  ∧ size seen
    = (length (filter (λ r, TpaCrawl.status r = "DELETE_CANDIDATE") rows)
       + length (filter (λ r, TpaCrawl.status r = "DUPLICATE") rows)
       + length (filter (λ r, TpaCrawl.status r = "REVIEW") rows)
       + length (filter (λ r, TpaCrawl.status r = "KEEP") rows))%nat.
Proof.
  intros Hreport. pose proof (report_spec seen) as Hspec.
  rewrite Hreport in Hspec. destruct Hspec as [Hurls Hrows].
  assert (length rows = size seen) as Hlen
    by (by rewrite <- (length_fmap TpaCrawl.url rows), Hurls).
  pose proof (λ k, filter_keys_length TpaCrawl.status k rows) as Hmap.
  split.
  - unfold TpaCrawl.summary. by rewrite !Counter_count, !Hmap, Hlen.
  - rewrite <- Hlen, <- !Hmap, <- (length_fmap TpaCrawl.status rows).
    apply counts_of_four; [done..|].
    intros x (r & -> & Hr)%list_elem_of_fmap.
    specialize (Hrows r Hr). unfold TpaCrawl.categorise in Hrows.
    destruct (TpaCrawl.parse urlparse (TpaCrawl.url r)) as [parsed|]; [|done].
    simpl in Hrows. injection Hrows as Hverdict.
    by destruct (categorise_path_verdict _ _ _ Hverdict) as (? & _).
Qed.

End CrawlFacts.

(** ** The order of the two reports *)
Section ReportOrder.
Variable now_year : Z.
Variable json_loads : string → Py.json + TpaArticles.json_error.
Variable fromisoformat : string → option TpaArticles.datetime.
Variable urlopen : nat → string → Py.result TpaArticles.Element.
Variable session_get : string → nat → Py.result TpaArticles.response.
Variable hash_lt : string → string → bool.
Variable can_print : TpaArticles.row → bool.
Variable write_csv : list TpaArticles.row → Py.result unit.
Variable urlparse : string → option TpaCrawl.ParseResult.

Local Abbreviation scrape_all :=
  (TpaArticles.scrape_all now_year json_loads fromisoformat session_get can_print).
Local Abbreviation get_article_urls_from_sitemap :=
  (TpaArticles.get_article_urls_from_sitemap urlopen hash_lt).
Local Abbreviation all_results :=
  (TpaArticles.all_results now_year json_loads fromisoformat urlopen session_get
     hash_lt can_print).
Local Abbreviation articles_main :=
  (TpaArticles.main now_year json_loads fromisoformat urlopen session_get
     hash_lt can_print write_csv).
Local Abbreviation categorise_all := (TpaCrawl.categorise_all now_year urlparse).
Local Abbreviation report := (TpaCrawl.report now_year urlparse).

Lemma ascending_str_leb {A} (key : A → string) (x y : A) :
  Py.ascending Py.str_lt key x y → String.leb (key x) (key y) = true.
Proof.
  unfold Py.ascending, Py.str_lt, String.ltb, String.leb.
  rewrite (String.compare_antisym (key x) (key y)).
  by destruct (String.compare (key y) (key x)).
Qed.

Lemma ascending_Z_le {A} (key : A → Z) (x y : A) :
  Py.ascending Z.ltb key x y → key x ≤ key y.
Proof. unfold Py.ascending. lia. Qed.

Lemma StronglySorted_weaken {A} (R S : A → A → Prop) (l : list A) :
  (∀ x y, R x y → S x y) → StronglySorted R l → StronglySorted S l.
Proof.
  intros HRS. induction 1 as [|x l Hl IH Hx]; constructor; [done|].
  eapply Forall_impl; [exact Hx|]. intros y. apply HRS.
Qed.

Lemma sort_dates_spec (all_results : list TpaArticles.row) :
  let rows := Py.sort_by Py.str_lt TpaArticles.published_date all_results in
  rows ≡ₚ all_results
  ∧ StronglySorted
      (λ x y, String.leb (TpaArticles.published_date x)
                (TpaArticles.published_date y) = true) rows
  ∧ ∀ k, filter (λ r, TpaArticles.published_date r = k) rows
         = filter (λ r, TpaArticles.published_date r = k) all_results.
Proof.
  split_and!.
  - symmetry. apply sort_by_Permutation.
  - eapply StronglySorted_weaken; [apply ascending_str_leb|].
    apply sort_by_sorted; [apply str_lt_asym|apply str_le_trans].
  - intros k. apply sort_by_stable, str_lt_irrefl.
Qed.

Lemma sort_rows_spec (found : list TpaCrawl.row) :
  let rows := TpaCrawl.sort_rows found in
  rows ≡ₚ found
  ∧ StronglySorted (λ x y, TpaCrawl.status_key x ≤ TpaCrawl.status_key y) rows
  ∧ ∀ k, filter (λ r, TpaCrawl.status_key r = k) rows
         = filter (λ r, TpaCrawl.status_key r = k) found.
Proof.
  split_and!.
  - symmetry. apply sort_by_Permutation.
  - eapply StronglySorted_weaken; [apply ascending_Z_le|].
    apply sort_by_sorted; intros; lia.
  - intros k. apply sort_by_stable. intros a. lia.
Qed.

Lemma categorise_all_urls (urls : list string) (found : list TpaCrawl.row) :
  categorise_all urls = Py.Ok found → map TpaCrawl.url found = urls.
Proof.
  intros Hfound. pose proof (categorise_all_spec now_year urlparse urls) as Hspec.
  rewrite Hfound in Hspec. apply Hspec.
Qed.

Lemma main_csv (w : TpaArticles.world) (rows written : list TpaArticles.row)
    (w' : TpaArticles.world) :
  all_results w = (Py.Ok rows, w') →
  TpaArticles.csv (articles_main w).1 = Some written → written = rows.
Proof.
  unfold TpaArticles.main. intros ->.
  destruct (write_csv rows) as [[]|e]; [|done].
  by destruct (forallb _ rows); intros [= <-].
Qed.

(** C7: when the sitemap gives the list [article_list], the rows that the
    article audit writes are the stable sort, by [published_date] compared
    as strings, of the rows scraped in the order of that list: a
    permutation of them, in ascending order, rows of equal date in the
    order that the list gives them, which is the order of [list(set)] and
    not a property of the rows.  Between days of the years 1000 to 9999
    the order of these strings is the order of the days.  The rows that
    the crawl writes are the stable sort, by the rank of their status, of
    the rows of the visited URLs in ascending order of the URLs:
    [DELETE_CANDIDATE] 0, [DUPLICATE] 1, [REVIEW] 2, [KEEP] 3; four rows
    with the statuses [KEEP], [DELETE_CANDIDATE], [REVIEW], [DUPLICATE]
    come out as the second, the fourth, the third and the first. *)
Theorem C7_report_order :
  (∀ w article_list w',
     get_article_urls_from_sitemap w = (Py.Ok article_list, w') →
     let rows := Py.sort_by Py.str_lt TpaArticles.published_date
                   (scrape_all article_list) in
     all_results w = (Py.Ok rows, w')
     ∧ (∀ written, TpaArticles.csv (articles_main w).1 = Some written →
                   written = rows)
     ∧ rows ≡ₚ scrape_all article_list
     ∧ StronglySorted
         (λ x y, String.leb (TpaArticles.published_date x)
                   (TpaArticles.published_date y) = true) rows
     ∧ ∀ k, filter (λ r, TpaArticles.published_date r = k) rows
            = filter (λ r, TpaArticles.published_date r = k)
                (scrape_all article_list))
  ∧ (∀ seen rows,
       report seen = Py.Ok rows →
       ∃ found,
         categorise_all (Py.sort_by Py.str_lt id (elements seen)) = Py.Ok found
         ∧ map TpaCrawl.url found = Py.sort_by Py.str_lt id (elements seen)
         ∧ rows = TpaCrawl.sort_rows found
         ∧ rows ≡ₚ found
         ∧ StronglySorted
             (λ x y, TpaCrawl.status_key x ≤ TpaCrawl.status_key y) rows
         ∧ ∀ k, filter (λ r, TpaCrawl.status_key r = k) rows
                = filter (λ r, TpaCrawl.status_key r = k) found)
  ∧ (∀ r, TpaCrawl.status_key r
          = if String.eqb (TpaCrawl.status r) "DELETE_CANDIDATE" then 0
            else if String.eqb (TpaCrawl.status r) "DUPLICATE" then 1
            else if String.eqb (TpaCrawl.status r) "REVIEW" then 2
            else if String.eqb (TpaCrawl.status r) "KEEP" then 3
            else 99)
  ∧ (∀ r1 r2 r3 r4,
       TpaCrawl.status r1 = "KEEP" → TpaCrawl.status r2 = "DELETE_CANDIDATE" →
       TpaCrawl.status r3 = "REVIEW" → TpaCrawl.status r4 = "DUPLICATE" →
       TpaCrawl.sort_rows [r1; r2; r3; r4] = [r2; r4; r3; r1])
  ∧ (∀ d1 d2,
       TpaArticles.in_range d1 → TpaArticles.in_range d2 →
       1000 ≤ TpaArticles.year d1 → 1000 ≤ TpaArticles.year d2 →
       Py.str_lt (TpaArticles.strftime_Y_m_d d1) (TpaArticles.strftime_Y_m_d d2) = true
       ↔ TpaArticles.earlier d1 d2).
Proof.
  split_and!; [| | | |apply date_strings_order].
  - intros w article_list w' Hlist rows.
    assert (all_results w = (Py.Ok rows, w')) as Hall.
    { unfold TpaArticles.all_results. by rewrite Hlist. }
    split; [done|]. split; [intros written; by apply (main_csv w rows written w')|].
    apply sort_dates_spec.
  - intros seen rows. unfold TpaCrawl.report. intros Hr.
    apply bind_Ok in Hr as (found & Hfound & [= <-]).
    exists found. split; [done|]. split; [by eapply categorise_all_urls|].
    split; [done|]. apply sort_rows_spec.
  - intros r. unfold TpaCrawl.status_key, TpaCrawl.status_order.
    destruct (String.eqb_spec (TpaCrawl.status r) "DELETE_CANDIDATE") as [->|H1]; [done|].
    destruct (String.eqb_spec (TpaCrawl.status r) "DUPLICATE") as [->|H2]; [done|].
    destruct (String.eqb_spec (TpaCrawl.status r) "REVIEW") as [->|H3]; [done|].
    destruct (String.eqb_spec (TpaCrawl.status r) "KEEP") as [->|H4]; [done|].
    rewrite !lookup_insert_ne by done. by rewrite lookup_singleton_ne.
  - intros [u1 s1 m1] [u2 s2 m2] [u3 s3 m3] [u4 s4 m4]; simpl.
    by intros -> -> -> ->.
Qed.

End ReportOrder.

(** ** Examples: the properties on the sample surroundings *)
Section Examples.
Local Abbreviation page_row :=
  (TpaArticles.page_row 2025 Sample.json_loads Sample.fromisoformat Sample.can_print).
Local Abbreviation scrape_article :=
  (TpaArticles.scrape_article 2025 Sample.json_loads Sample.fromisoformat
     Sample.session_get Sample.can_print).
Local Abbreviation scrape_article_log :=
  (TpaArticles.scrape_article_log 2025 Sample.json_loads Sample.fromisoformat
     Sample.session_get Sample.can_print).
Local Abbreviation scrape_all :=
  (TpaArticles.scrape_all 2025 Sample.json_loads Sample.fromisoformat
     Sample.session_get Sample.can_print).
Local Abbreviation all_results :=
  (TpaArticles.all_results 2025 Sample.json_loads Sample.fromisoformat Sample.urlopen
     Sample.session_get Sample.hash_lt Sample.can_print).
Local Abbreviation main :=
  (TpaArticles.main 2025 Sample.json_loads Sample.fromisoformat Sample.urlopen
     Sample.session_get Sample.hash_lt Sample.can_print Sample.write_csv).
Local Abbreviation old := "https://thepaymentsassociation.org/article/old".
Local Abbreviation gone := "https://thepaymentsassociation.org/article/gone".
Local Abbreviation undatable := "https://thepaymentsassociation.org/article/undatable".
Local Abbreviation reset := "https://thepaymentsassociation.org/article/reset".
Local Abbreviation listy := "https://thepaymentsassociation.org/article/listy".
Local Abbreviation undated := "https://thepaymentsassociation.org/article/undated".
Local Abbreviation untitled := "https://thepaymentsassociation.org/article/untitled".

Lemma sample_main : all_results Sample.w0 = (Py.Ok Sample.rows, Sample.w1).
Proof. vm_compute. reflexivity. Qed.

Lemma sample_article_list :
  TpaArticles.get_article_urls_from_sitemap Sample.urlopen Sample.hash_lt Sample.w0
  = (Py.Ok Sample.article_list, Sample.w1).
Proof. vm_compute. reflexivity. Qed.

(** The sample run writes its three rows and prints their counts. *)
Lemma sample_run :
  main Sample.w0
  = ({| TpaArticles.csv := Some Sample.rows; TpaArticles.ended := Py.Ok (3, 1, 1, 1)%nat |},
     Sample.w1).
Proof. vm_compute. reflexivity. Qed.

(** *** C1 *)

(** The article that is answered with 404 is in the sitemap and has no row
    in the report. *)
Lemma C1_failed_fetch_is_dropped :
  TpaArticles.get_article_urls_from_sitemap Sample.urlopen Sample.hash_lt Sample.w0
  = (Py.Ok Sample.article_list, Sample.w1)
  ∧ all_results Sample.w0 = (Py.Ok Sample.rows, Sample.w1)
  ∧ gone ∈ Sample.article_list
  ∧ TpaArticles.rows_of gone Sample.rows = []
  ∧ ¬ Claims.every_item_reported Sample.article_list Sample.rows.
Proof.
  assert (gone ∈ Sample.article_list) as Hin by (right; left).
  assert (TpaArticles.rows_of gone Sample.rows = []) as Hnone by (vm_compute; reflexivity).
  split_and!; [apply sample_article_list|apply sample_main|done|done|].
  intros Hall. destruct (Hall gone Hin) as [r Hr]. congruence.
Qed.

Lemma C1_rows_of_main_witness :
  ∃ article_list,
    TpaArticles.get_article_urls_from_sitemap Sample.urlopen Sample.hash_lt Sample.w0
    = (Py.Ok article_list, Sample.w1)
    ∧ NoDup article_list
    ∧ (∀ u, TpaArticles.rows_of u Sample.rows
            = if decide (u ∈ article_list)
              then option_list (scrape_article u 3) else [])
    ∧ (∀ u resp, Sample.session_get u 0 = Py.Ok resp →
                 TpaArticles.resp_status resp ≠ 200 → scrape_article u 3 = None)
    ∧ (∀ u e, Sample.session_get u 0 = Py.Raise e →
              TpaArticles.transient e = false → scrape_article u 3 = None)
    ∧ (∀ u, (∀ i, (i < 3)%nat → TpaArticles.fails_transiently Sample.session_get u i) →
            scrape_article u 3 = None)
    ∧ (∀ u html e, TpaArticles.succeeds_with Sample.session_get u 0 html →
                   page_row u html = Py.Raise e → scrape_article u 3 = None).
Proof.
  apply (C1_rows_of_main 2025 Sample.json_loads Sample.fromisoformat Sample.urlopen
           Sample.session_get Sample.hash_lt Sample.can_print
           Sample.w0 Sample.rows Sample.w1).
  vm_compute. reflexivity.
Defined.

(** *** C2 *)



(** *** C4 *)

(** The connection to an article is reset at its first request, which
    reaches the program as a [ClientOSError]: the article is given up at
    once, although its second request would have been answered. *)
Lemma C4_connection_reset_not_retried :
  Sample.session_get reset 0 = Py.Raise (Py.Other "ClientOSError")
  ∧ TpaArticles.transient (Py.Other "ClientOSError") = false
  ∧ TpaArticles.succeeds_with Sample.session_get reset 1 (Sample.page "2024-02-01")
  ∧ (∃ r, page_row reset (Sample.page "2024-02-01") = Py.Ok r)
  ∧ scrape_article reset 3 = None
  ∧ TpaArticles.gets (scrape_article_log reset 3).2 = 1%nat.
Proof.
  split_and!; [reflexivity|reflexivity| | |vm_compute; reflexivity|vm_compute; reflexivity].
  - eexists. split_and!; reflexivity.
  - eexists. vm_compute. reflexivity.
Qed.

Lemma C4_retry_recovers_witness :
  (∀ html,
     TpaArticles.succeeds_with Sample.session_get old 2 html →
     (∀ r, page_row old html = Py.Ok r → scrape_article old 3 = Some r)
     ∧ (∀ e, page_row old html = Py.Raise e → scrape_article old 3 = None)
     ∧ TpaArticles.gets (scrape_article_log old 3).2 = 3%nat
     ∧ (TpaArticles.gets (scrape_article_log old 3).2 ≤ 3)%nat
     ∧ TpaArticles.sleeps (scrape_article_log old 3).2
       = map (λ i, 2 ^ Z.of_nat i) (seq 0 2))
  ∧ (∀ e,
       TpaArticles.transient e = false →
       (Sample.session_get old 2 = Py.Raise e
        ∨ ∃ resp, Sample.session_get old 2 = Py.Ok resp
                  ∧ TpaArticles.resp_status resp = 200
                  ∧ TpaArticles.resp_text resp = Py.Raise e) →
       scrape_article old 3 = None
       ∧ TpaArticles.gets (scrape_article_log old 3).2 = 3%nat
       ∧ TpaArticles.sleeps (scrape_article_log old 3).2
         = map (λ i, 2 ^ Z.of_nat i) (seq 0 2)).
Proof.
  apply (C4_retry_recovers 2025 Sample.json_loads Sample.fromisoformat
           Sample.session_get Sample.can_print old 3 2).
  - lia.
  - intros [|[|i]] Hi; [| |lia].
    + exists Py.TimeoutError. split; [reflexivity|]. left. reflexivity.
    + exists Py.ServerDisconnectedError. split; [reflexivity|]. right.
      eexists. split_and!; reflexivity.
Defined.

(** *** C5 *)

(** A page without JSON-LD has the title of its [title] tag. *)
Lemma C5_title_is_not_unknown :
  Py.finditer TpaArticles.jsonld_re Sample.undated_page = []
  ∧ (∃ r, page_row old Sample.undated_page = Py.Ok r
          ∧ TpaArticles.title r = "Undated"
          ∧ ¬ Claims.all_unknown r).
Proof.
  split; [vm_compute; reflexivity|].
  eexists. split; [vm_compute; reflexivity|]. split; [reflexivity|].
  intros [Htitle _]. discriminate Htitle.
Qed.

Lemma C5_no_structured_data_witness :
  Py.finditer TpaArticles.jsonld_re Sample.broken_page = ["{"]
  ∧ Sample.json_loads "{" = inr TpaArticles.Malformed
  ∧ let result :=
      {| TpaArticles.url := old;
         TpaArticles.title :=
           Py.strip
             (Py.replace " | The Payments Association" ""
                (match Py.search TpaArticles.title_re Sample.broken_page with
                 | Some m => Py.group1 m
                 | None => "Unknown"
                 end));
         TpaArticles.author := Py.JStr "Unknown";
         TpaArticles.published_date := "Unknown";
         TpaArticles.article_type :=
           TpaArticles.page_article_type Sample.broken_page Py.JNull;
         TpaArticles.status := "REVIEW";
         TpaArticles.reason := "Could not determine publish date" |} in
    TpaArticles.extract_jsonld Sample.json_loads Sample.broken_page
    = Py.Ok (Py.JObj [], Py.JNull)
    ∧ TpaArticles.build_row 2025 Sample.json_loads Sample.fromisoformat
        old Sample.broken_page
      = Py.Ok result
    ∧ page_row old Sample.broken_page
      = (if Sample.can_print result then Py.Ok result
         else Py.Raise (Py.Other "UnicodeEncodeError"))
    ∧ (Py.search TpaArticles.title_re Sample.broken_page = None →
       TpaArticles.page_title (Py.JObj []) Sample.broken_page = Py.Ok "Unknown")
    ∧ (Py.search TpaArticles.container_re Sample.broken_page = None →
       TpaArticles.page_article_type Sample.broken_page Py.JNull = Py.JStr "Unknown")
    ∧ (∀ text more, Sample.json_loads text = inr TpaArticles.Malformed →
                    TpaArticles.extract_blocks Sample.json_loads (text :: more)
                    = TpaArticles.extract_blocks Sample.json_loads more).
Proof.
  assert (Py.finditer TpaArticles.jsonld_re Sample.broken_page = ["{"]) as Hblocks
    by (vm_compute; reflexivity).
  split; [exact Hblocks|]. split; [reflexivity|].
  apply (C5_no_structured_data 2025 Sample.json_loads Sample.fromisoformat
           Sample.can_print old Sample.broken_page).
  intros text. rewrite Hblocks. intros ->%list_elem_of_singleton. reflexivity.
Defined.

(** *** C6 *)

(** The marker [filter_types-unknown] yields the label [Unknown], and the
    type is then taken from the [category-news] marker. *)
Lemma C6_unknown_label_falls_through :
  Claims.type_marker Sample.marked_page = Some (Py.JStr "Unknown")
  ∧ Claims.first_of (Claims.strategies Sample.marked_page Py.JNull) = Py.JStr "Unknown"
  ∧ TpaArticles.page_article_type Sample.marked_page Py.JNull = Py.JStr "News"
  ∧ TpaArticles.page_article_type Sample.marked_page Py.JNull
    ≠ Claims.first_of (Claims.strategies Sample.marked_page Py.JNull).
Proof.
  assert (Claims.first_of (Claims.strategies Sample.marked_page Py.JNull)
          = Py.JStr "Unknown") as Hclaim by (vm_compute; reflexivity).
  assert (TpaArticles.page_article_type Sample.marked_page Py.JNull = Py.JStr "News")
    as Hcode by (vm_compute; reflexivity).
  split_and!; [vm_compute; reflexivity|done|done|].
  rewrite Hclaim, Hcode. discriminate.
Qed.

Lemma C6_article_type_chain_witness :
  page_row old (Sample.page "2021-05-12") = Py.Ok Sample.old_row
  ∧ ∃ data breadcrumb_category,
      TpaArticles.extract_jsonld Sample.json_loads (Sample.page "2021-05-12")
      = Py.Ok (data, breadcrumb_category)
      ∧ TpaArticles.article_type Sample.old_row
        = Claims.first_known
            (Claims.strategies (Sample.page "2021-05-12") breadcrumb_category)
      ∧ ((∀ c, c ∈ Claims.strategies (Sample.page "2021-05-12") breadcrumb_category →
               c ≠ Some (Py.JStr "Unknown")) →
         TpaArticles.article_type Sample.old_row
         = Claims.first_of
             (Claims.strategies (Sample.page "2021-05-12") breadcrumb_category)).
Proof.
  assert (page_row old (Sample.page "2021-05-12") = Py.Ok Sample.old_row) as Hrow
    by (vm_compute; reflexivity).
  split; [exact Hrow|].
  exact (C6_article_type_chain 2025 Sample.json_loads Sample.fromisoformat
           Sample.can_print old (Sample.page "2021-05-12") Sample.old_row Hrow).
Defined.

(** *** C9 *)



(** *** C10 *)

Lemma C10_unknown_dates_last_witness :
  all_results Sample.w0 = (Py.Ok Sample.rows, Sample.w1)
  ∧ Sample.rows !! 0%nat = Some Sample.old_row
  ∧ TpaArticles.published_date Sample.old_row
    = TpaArticles.strftime_Y_m_d
        {| TpaArticles.year := 2021; TpaArticles.month := TpaArticles.May;
           TpaArticles.day := 12 |}
  ∧ (∃ r2, Sample.rows !! 2%nat = Some r2 ∧ TpaArticles.published_date r2 = "Unknown")
  ∧ (0 < 2)%nat.
Proof.
  assert (all_results Sample.w0 = (Py.Ok Sample.rows, Sample.w1)) as Hmain
    by (vm_compute; reflexivity).
  split_and!; [exact Hmain|reflexivity|reflexivity|eexists; split; reflexivity|].
  refine (proj2 (proj2 (proj2
            (C10_unknown_dates_last 2025 Sample.json_loads Sample.fromisoformat
               Sample.urlopen Sample.session_get Sample.hash_lt Sample.can_print
               Sample.w0 Sample.rows Sample.w1 Hmain)))
            0%nat 2%nat Sample.old_row _
            {| TpaArticles.year := 2021; TpaArticles.month := TpaArticles.May;
               TpaArticles.day := 12 |} _ _ _ _); reflexivity.
Defined.

(** *** C3 *)

(** Two pages that a crawl reaches.  The gallery of the 2024 awards is
    kept although the year 2019, before the cutoff, is embedded in its
    path; the webinar on ISO 20022 is a candidate for deletion, as of
    2002, although no 4-digit year is embedded in its path.  And in a
    path with [/event/] and [/webinar/] the event rule is tested before the
    webinar rule. *)
Lemma C3_year_is_first_four_digits :
  (TpaCrawl.should_skip "https://thepaymentsassociation.org/gallery/2024-awards-2019" = false
   ∧ TpaCrawl.is_top_level Sample.urlparse
       "https://thepaymentsassociation.org/gallery/2024-awards-2019" = Py.Ok true
   ∧ Claims.embedded_years "/gallery/2024-awards-2019" = ["2024"; "2019"]
   ∧ TpaCrawl.categorise 2025 Sample.urlparse
       "https://thepaymentsassociation.org/gallery/2024-awards-2019"
     = Py.Ok ("KEEP", "Recent gallery page")
   ∧ Claims.first_match (Claims.rules_as_listed 2025 TpaCrawl.duplicate_pairs)
       "/gallery/2024-awards-2019"
     = ("DELETE_CANDIDATE", "Old gallery page from 2019"))
  ∧ (TpaCrawl.should_skip "https://thepaymentsassociation.org/webinar/iso20022-migration" = false
     ∧ TpaCrawl.is_top_level Sample.urlparse
         "https://thepaymentsassociation.org/webinar/iso20022-migration" = Py.Ok true
     ∧ Claims.embedded_years "/webinar/iso20022-migration" = []
     ∧ TpaCrawl.categorise 2025 Sample.urlparse
         "https://thepaymentsassociation.org/webinar/iso20022-migration"
       = Py.Ok ("DELETE_CANDIDATE", "Old webinar from 2002")
     ∧ Claims.first_match (Claims.rules_as_listed 2025 TpaCrawl.duplicate_pairs)
         "/webinar/iso20022-migration"
       = ("KEEP", "Webinar page"))
  ∧ (TpaCrawl.categorise 2025 Sample.urlparse
       "https://thepaymentsassociation.org/event/webinar/open-banking"
     = Py.Ok ("REVIEW", "Past or upcoming event — check if still relevant")
     ∧ Claims.first_match (Claims.rules_as_listed 2025 TpaCrawl.duplicate_pairs)
         "/event/webinar/open-banking"
       = ("KEEP", "Webinar page")).
Proof. split_and!; vm_compute; reflexivity. Qed.

Lemma C3_categorise_rules_witness :
  Sample.urlparse "https://thepaymentsassociation.org/event/fintech-2023"
  = Some {| TpaCrawl.scheme := "https";
            TpaCrawl.netloc := "thepaymentsassociation.org";
            TpaCrawl.path := "/event/fintech-2023" |}
  ∧ TpaCrawl.categorise 2025 Sample.urlparse
      "https://thepaymentsassociation.org/event/fintech-2023"
    = Py.Ok (Claims.first_match
               (Claims.rules_as_tested 2025 TpaCrawl.duplicate_pairs)
               (Py.lower "/event/fintech-2023"))
  ∧ (∀ pairs a b, (a, b) ∈ pairs →
                  (TpaCrawl.categorise_path 2025 pairs a).1 = "DUPLICATE")
  ∧ TpaCrawl.CUTOFF_YEAR 2025 = 2022
  ∧ TpaCrawl.categorise_path 2025 TpaCrawl.duplicate_pairs "/event/fintech-2023"
    = ("REVIEW", "Past or upcoming event — check if still relevant").
Proof.
  split; [reflexivity|].
  apply (C3_categorise_rules 2025 Sample.urlparse
           "https://thepaymentsassociation.org/event/fintech-2023"
           {| TpaCrawl.scheme := "https";
              TpaCrawl.netloc := "thepaymentsassociation.org";
              TpaCrawl.path := "/event/fintech-2023" |}).
  reflexivity.
Defined.

(** *** C7 *)

(** Two runs on the same site, whose two articles have no date: the
    order of their rows is the order that the set of the URLs is listed
    in, which changes with the hash seed.  And the first day of the year
    999 is written after the first day of the year 1000. *)
Lemma C7_order_depends_on_hash_seed :
  (∃ r1 r2 w',
     TpaArticles.url r1 = untitled ∧ TpaArticles.url r2 = undated
     ∧ TpaArticles.published_date r1 = TpaArticles.published_date r2
     ∧ TpaArticles.all_results 2025 Sample.json_loads Sample.fromisoformat
         Sample.urlopen_ties Sample.session_get Sample.hash_lt Sample.can_print Sample.w0
       = (Py.Ok [r1; r2], w')
     ∧ TpaArticles.all_results 2025 Sample.json_loads Sample.fromisoformat
         Sample.urlopen_ties Sample.session_get Sample.hash_gt Sample.can_print Sample.w0
       = (Py.Ok [r2; r1], w'))
  ∧ (let d1 := {| TpaArticles.year := 999; TpaArticles.month := TpaArticles.Jan;
                  TpaArticles.day := 1 |} in
     let d2 := {| TpaArticles.year := 1000; TpaArticles.month := TpaArticles.Jan;
                  TpaArticles.day := 1 |} in
     TpaArticles.in_range d1 ∧ TpaArticles.in_range d2
     ∧ TpaArticles.earlier d1 d2
     ∧ TpaArticles.strftime_Y_m_d d1 = "999-01-01"
     ∧ TpaArticles.strftime_Y_m_d d2 = "1000-01-01"
     ∧ Py.str_lt (TpaArticles.strftime_Y_m_d d2) (TpaArticles.strftime_Y_m_d d1) = true).
Proof.
  split.
  - eexists _, _, _. split_and!; [| | |vm_compute; reflexivity|vm_compute; reflexivity];
      reflexivity.
  - unfold TpaArticles.in_range, TpaArticles.earlier. simpl.
    split_and!; try lia; vm_compute; reflexivity.
Qed.

Lemma C7_report_order_witness :
  TpaArticles.get_article_urls_from_sitemap Sample.urlopen Sample.hash_lt Sample.w0
  = (Py.Ok Sample.article_list, Sample.w1)
  ∧ let rows := Py.sort_by Py.str_lt TpaArticles.published_date
                  (scrape_all Sample.article_list) in
    all_results Sample.w0 = (Py.Ok rows, Sample.w1)
    ∧ (∀ written, TpaArticles.csv (main Sample.w0).1 = Some written → written = rows)
    ∧ rows ≡ₚ scrape_all Sample.article_list
    ∧ StronglySorted
        (λ x y, String.leb (TpaArticles.published_date x)
                  (TpaArticles.published_date y) = true) rows
    ∧ ∀ k, filter (λ r, TpaArticles.published_date r = k) rows
           = filter (λ r, TpaArticles.published_date r = k)
               (scrape_all Sample.article_list).
Proof.
  assert (TpaArticles.get_article_urls_from_sitemap Sample.urlopen Sample.hash_lt
            Sample.w0
          = (Py.Ok Sample.article_list, Sample.w1)) as Hlist
    by (vm_compute; reflexivity).
  split; [exact Hlist|].
  exact (proj1 (C7_report_order 2025 Sample.json_loads Sample.fromisoformat
                  Sample.urlopen Sample.session_get Sample.hash_lt Sample.can_print
                  Sample.write_csv Sample.urlparse)
           Sample.w0 Sample.article_list Sample.w1 Hlist).
Defined.

(** *** C8 *)

Lemma sample_after_home :
  TpaCrawl.reachable Sample.urlparse Sample.browse Sample.after_home.
Proof.
  apply (TpaCrawl.reachable_round Sample.urlparse Sample.browse TpaCrawl.initial).
  - apply TpaCrawl.reachable_initial.
  - vm_compute. reflexivity.
Defined.

(** The home page links twice to [/about], which is then twice in
    [to_visit]. *)
Lemma C8_same_url_queued_twice :
  TpaCrawl.reachable Sample.urlparse Sample.browse Sample.after_home
  ∧ TpaCrawl.to_visit Sample.after_home
    = [ "https://thepaymentsassociation.org/about";
        "https://thepaymentsassociation.org/about";
        "https://thepaymentsassociation.org/event/fintech-2023" ]
  ∧ ¬ Claims.queued_once Sample.after_home.
Proof.
  split_and!; [apply sample_after_home|reflexivity|].
  unfold Claims.queued_once. simpl. intros Hnd.
  apply NoDup_cons in Hnd as [Hnotin _]. apply Hnotin. left.
Qed.

Lemma C8_each_url_opened_once_witness :
  TpaCrawl.reachable Sample.urlparse Sample.browse Sample.after_home
  ∧ NoDup (TpaCrawl.opened Sample.after_home)
  ∧ (∀ u, u ∈ TpaCrawl.opened Sample.after_home ↔ u ∈ TpaCrawl.visited Sample.after_home)
  ∧ (∀ st' u,
       TpaCrawl.crawl_round Sample.urlparse Sample.browse Sample.after_home = Some st' →
       u ∈ TpaCrawl.to_visit st' →
       u ∈ TpaCrawl.to_visit Sample.after_home ∨ u ∉ TpaCrawl.visited st')
  ∧ (∀ fuel st',
       TpaCrawl.crawl Sample.urlparse Sample.browse fuel Sample.after_home = Some st' →
       NoDup (TpaCrawl.opened st')
       ∧ (∀ u, u ∈ TpaCrawl.opened st' ↔ u ∈ TpaCrawl.visited st')).
Proof.
  split; [apply sample_after_home|].
  apply (C8_each_url_opened_once Sample.urlparse Sample.browse Sample.after_home).
  apply sample_after_home.
Defined.

(** *** Further examples *)

Local Abbreviation sitemap := "https://thepaymentsassociation.org/sitemap.xml".
Local Abbreviation home := "https://thepaymentsassociation.org".
Local Abbreviation about := "https://thepaymentsassociation.org/about".
Local Abbreviation event := "https://thepaymentsassociation.org/event/fintech-2023".
Local Abbreviation crawl_url := (TpaCrawl.crawl_url Sample.urlparse Sample.browse).
Local Abbreviation on_site := (TpaCrawl.on_site Sample.urlparse).

Lemma sample_final :
  TpaCrawl.crawl Sample.urlparse Sample.browse 3 TpaCrawl.initial = Some Sample.final.
Proof. vm_compute. reflexivity. Qed.

Lemma sample_report :
  TpaCrawl.report 2025 Sample.urlparse (TpaCrawl.visited Sample.final)
  = Py.Ok Sample.crawl_rows.
Proof. vm_compute. reflexivity. Qed.

(** The first request of the sitemap fails, the second is answered. *)
Lemma X1_fetch_xml_outcome_witness :
  (0 ≤ 5 →
   ∃ k, (k < 3)%nat
     ∧ (∀ i, (i < k)%nat →
             ∃ e, Sample.urlopen (TpaArticles.requests Sample.w0 + i)%nat sitemap
                  = Py.Raise e)
     ∧ TpaArticles.requests (TpaArticles.fetch_xml Sample.urlopen sitemap 3 5 Sample.w0).2
       = (TpaArticles.requests Sample.w0 + S k)%nat
     ∧ TpaArticles.slept (TpaArticles.fetch_xml Sample.urlopen sitemap 3 5 Sample.w0).2
       = TpaArticles.slept Sample.w0
           ++ map (λ attempt, 5 * (Z.of_nat attempt + 1)) (seq 0 k)
     ∧ match Sample.urlopen (TpaArticles.requests Sample.w0 + k)%nat sitemap with
       | Py.Ok root =>
           (TpaArticles.fetch_xml Sample.urlopen sitemap 3 5 Sample.w0).1
           = Py.Ok (Some root)
       | Py.Raise e =>
           k = (3 - 1)%nat
           ∧ (TpaArticles.fetch_xml Sample.urlopen sitemap 3 5 Sample.w0).1 = Py.Raise e
       end)
  ∧ (5 < 0 → (1 < 3)%nat →
     ∀ e, Sample.urlopen (TpaArticles.requests Sample.w0) sitemap = Py.Raise e →
          TpaArticles.fetch_xml Sample.urlopen sitemap 3 5 Sample.w0
          = (Py.Raise Py.ValueError, TpaArticles.request Sample.w0)).
Proof. apply (X1_fetch_xml_outcome Sample.urlopen sitemap 3 5 Sample.w0). lia. Defined.

(** The article answered with 404 is given up at once. *)
Lemma X2_no_retry_for_other_failures_witness :
  scrape_article gone 3 = None
  ∧ TpaArticles.gets (scrape_article_log gone 3).2 = 1%nat
  ∧ TpaArticles.sleeps (scrape_article_log gone 3).2
    = map (λ i, 2 ^ Z.of_nat i) (seq 0 0).
Proof.
  apply (X2_no_retry_for_other_failures 2025 Sample.json_loads Sample.fromisoformat
           Sample.session_get Sample.can_print gone 3 0).
  - lia.
  - intros i Hi. lia.
  - left. eexists. split; [reflexivity|]. simpl. lia.
Defined.

(** With two attempts only, the old article is given up. *)
Lemma X3_retries_exhausted_witness :
  scrape_article old 2 = None
  ∧ TpaArticles.gets (scrape_article_log old 2).2 = 2%nat
  ∧ TpaArticles.sleeps (scrape_article_log old 2).2
    = map (λ i, 2 ^ Z.of_nat i) (seq 0 (2 - 1)).
Proof.
  apply (X3_retries_exhausted 2025 Sample.json_loads Sample.fromisoformat
           Sample.session_get Sample.can_print old 2).
  - lia.
  - intros [|[|i]] Hi; [| |lia].
    + exists Py.TimeoutError. split; [reflexivity|]. left. reflexivity.
    + exists Py.ServerDisconnectedError. split; [reflexivity|]. right.
      eexists. split_and!; reflexivity.
Defined.

Lemma X6_row_invariants_witness :
  TpaArticles.url Sample.old_row = old
  ∧ (TpaArticles.status Sample.old_row = "DELETE_CANDIDATE"
     ∨ TpaArticles.status Sample.old_row = "KEEP"
     ∨ TpaArticles.status Sample.old_row = "REVIEW")
  ∧ (TpaArticles.status Sample.old_row = "REVIEW"
     ↔ TpaArticles.published_date Sample.old_row = "Unknown")
  ∧ (TpaArticles.published_date Sample.old_row = "Unknown"
     ∨ ∃ s d,
         Sample.fromisoformat s = Some d
         ∧ TpaArticles.published_date Sample.old_row = TpaArticles.strftime_Y_m_d d
         ∧ (7 ≤ String.length (TpaArticles.published_date Sample.old_row) ≤ 10)%nat
         ∧ (1000 ≤ TpaArticles.year d →
            String.length (TpaArticles.published_date Sample.old_row) = 10%nat))
  ∧ Py.lstrip_with Py.is_space (TpaArticles.title Sample.old_row)
    = TpaArticles.title Sample.old_row
  ∧ Py.rstrip_with Py.is_space (TpaArticles.title Sample.old_row)
    = TpaArticles.title Sample.old_row.
Proof.
  apply (X6_row_invariants 2025 Sample.json_loads Sample.fromisoformat
           Sample.session_get Sample.can_print old 3 Sample.old_row).
  vm_compute. reflexivity.
Defined.

Lemma X7_article_urls_witness :
  NoDup Sample.article_list
  ∧ ∀ u, u ∈ Sample.article_list →
         Py.contains "/article/" u = true
         ∧ Py.rstrip_char "/" u = u
         ∧ ∃ n sitemap_url locs loc,
             Py.contains "post-sitemap" sitemap_url = true
             ∧ Sample.urlopen n sitemap_url = Py.Ok locs
             ∧ loc ∈ locs
             ∧ u = Py.rstrip_char "/" (TpaArticles.text_or_empty loc).
Proof.
  apply (X7_article_urls Sample.urlopen Sample.hash_lt
           Sample.w0 Sample.article_list Sample.w1).
  vm_compute. reflexivity.
Defined.

Lemma X8_summary_adds_up_witness :
  TpaArticles.summary Sample.rows
  = (length Sample.rows,
     length (filter (λ r, TpaArticles.status r = "DELETE_CANDIDATE") Sample.rows),
     length (filter (λ r, TpaArticles.status r = "REVIEW") Sample.rows),
     length (filter (λ r, TpaArticles.status r = "KEEP") Sample.rows))
  ∧ length Sample.rows
    = (length (filter (λ r, TpaArticles.status r = "DELETE_CANDIDATE") Sample.rows)
       + length (filter (λ r, TpaArticles.status r = "REVIEW") Sample.rows)
       + length (filter (λ r, TpaArticles.status r = "KEEP") Sample.rows))%nat.
Proof.
  apply (X8_summary_adds_up 2025 Sample.json_loads Sample.fromisoformat Sample.urlopen
           Sample.session_get Sample.hash_lt Sample.can_print
           Sample.w0 Sample.rows Sample.w1).
  vm_compute. reflexivity.
Defined.

(** The links of the home page *)
Lemma X9_crawl_url_links_witness :
  (∀ u, u ∈ crawl_url home {[ home ]} →
        (u ∉ ({[ home ]} : gset string))
        ∧ TpaCrawl.should_skip u = false
        ∧ TpaCrawl.is_top_level Sample.urlparse u = Py.Ok true
        ∧ ∃ links link parsed,
            Sample.browse home = Some links
            ∧ link ∈ links
            ∧ Sample.urlparse link = Some parsed
            ∧ TpaCrawl.netloc parsed = "thepaymentsassociation.org"
            ∧ u = TpaCrawl.scheme parsed +:+ "://" +:+ TpaCrawl.netloc parsed
                    +:+ Py.rstrip_char "/" (TpaCrawl.path parsed))
  ∧ (Sample.browse home = None → crawl_url home {[ home ]} = []).
Proof. apply (X9_crawl_url_links Sample.urlparse Sample.browse home {[ home ]}). Defined.

(** The first turn of the crawl *)
Lemma X10_batches_witness :
  ∃ batch,
    TpaCrawl.opened Sample.after_home = TpaCrawl.opened TpaCrawl.initial ++ batch
    ∧ (1 ≤ length batch ≤ 10)%nat
    ∧ (∀ u, u ∈ batch →
            u ∈ TpaCrawl.to_visit TpaCrawl.initial
            ∧ (u ∉ TpaCrawl.visited TpaCrawl.initial)
            ∧ TpaCrawl.should_skip u = false)
    ∧ (∀ u, u ∈ TpaCrawl.to_visit Sample.after_home →
            u ∈ TpaCrawl.to_visit TpaCrawl.initial ∨ on_site u).
Proof.
  apply (X10_batches Sample.urlparse Sample.browse TpaCrawl.initial Sample.after_home).
  vm_compute. reflexivity.
Defined.

Lemma X11_crawl_stays_on_site_witness :
  (∀ u, u ∈ TpaCrawl.opened Sample.after_home →
        TpaCrawl.should_skip u = false ∧ (u = TpaCrawl.BASE_URL ∨ on_site u))
  ∧ (∀ u, u ∈ TpaCrawl.to_visit Sample.after_home →
          u = TpaCrawl.BASE_URL ∨ on_site u)
  ∧ (∀ u, u ∈ TpaCrawl.visited Sample.after_home →
          TpaCrawl.should_skip u = false ∧ (u = TpaCrawl.BASE_URL ∨ on_site u)).
Proof.
  apply (X11_crawl_stays_on_site Sample.urlparse Sample.browse Sample.after_home).
  apply sample_after_home.
Defined.

Lemma X12_crawl_is_complete_witness :
  TpaCrawl.BASE_URL ∈ TpaCrawl.visited Sample.final
  ∧ ∀ page u, page ∈ TpaCrawl.visited Sample.final → u ∈ crawl_url page ∅ →
              u ∈ TpaCrawl.visited Sample.final.
Proof.
  apply (X12_crawl_is_complete Sample.urlparse Sample.browse 3 Sample.final).
  vm_compute. reflexivity.
Defined.

(** The first link of the home page is kept as [/about]. *)
Lemma X13_crawl_url_keeps_witness :
  about ∈ crawl_url home {[ home ]}.
Proof.
  apply (X13_crawl_url_keeps Sample.urlparse Sample.browse home {[ home ]}
           [ "https://thepaymentsassociation.org/about/";
             "https://thepaymentsassociation.org/about";
             "https://thepaymentsassociation.org/event/fintech-2023";
             "https://example.org/elsewhere" ]
           "https://thepaymentsassociation.org/about/"
           {| TpaCrawl.scheme := "https";
              TpaCrawl.netloc := "thepaymentsassociation.org";
              TpaCrawl.path := "/about/" |}).
  - reflexivity.
  - intros l _. eexists. split; [reflexivity|]. eexists. reflexivity.
  - left.
  - reflexivity.
  - reflexivity.
  - vm_compute. reflexivity.
  - vm_compute. reflexivity.
  - intros Hin%elem_of_singleton. discriminate Hin.
Defined.

Lemma X14_crawl_ends_witness :
  ∃ st,
    (∀ fuel, (S (length Sample.site) < fuel)%nat →
             TpaCrawl.crawl Sample.urlparse Sample.browse fuel TpaCrawl.initial
             = Some st)
    ∧ (length (TpaCrawl.opened st) ≤ S (length Sample.site))%nat
    ∧ ∀ u, u ∈ TpaCrawl.opened st → u = TpaCrawl.BASE_URL ∨ u ∈ Sample.site.
Proof.
  apply (X14_crawl_ends Sample.urlparse Sample.browse Sample.site).
  intros page links link parsed Hpage Hlink Hparsed Hnet.
  unfold Sample.browse in Hpage. cbn [Sample.lookup] in Hpage.
  destruct (String.eqb page home).
  - injection Hpage as <-.
    repeat (apply elem_of_cons in Hlink as [->|Hlink];
            [injection Hparsed as <-; vm_compute in Hnet;
             first [discriminate Hnet | apply list_elem_of_In; vm_compute; tauto]|]).
    by apply elem_of_nil in Hlink.
  - destruct (String.eqb page about); [|discriminate Hpage].
    injection Hpage as <-.
    apply list_elem_of_singleton in Hlink as ->. injection Hparsed as <-.
    apply list_elem_of_In. vm_compute. tauto.
Defined.

(** An event of 2019 is a candidate for deletion in 2025. *)
Lemma X16_categorise_verdicts_witness :
  let p := Py.lower "/event/fintech-2019" in
  "DELETE_CANDIDATE" ∈ ["DELETE_CANDIDATE"; "DUPLICATE"; "REVIEW"; "KEEP"]
  ∧ 0 ≤ TpaCrawl.status_key
          {| TpaCrawl.url := "https://thepaymentsassociation.org/event/fintech-2019";
             TpaCrawl.status := "DELETE_CANDIDATE";
             TpaCrawl.reason := "Past event from 2019" |}
      ≤ 3
  ∧ ("DELETE_CANDIDATE" = "DUPLICATE" ↔ p ∈ map fst TpaCrawl.duplicate_pairs)
  ∧ ("DELETE_CANDIDATE" = "DELETE_CANDIDATE" →
     (Py.contains "/gallery/" p = true ∨ Py.contains "/event/" p = true
      ∨ Py.contains "/webinar/" p = true)
     ∧ ∃ pre y post,
         p = pre +:+ y +:+ post
         ∧ Shapes.digits 4 y = true
         ∧ Py.int_of_digits y < TpaCrawl.CUTOFF_YEAR 2025).
Proof.
  apply (X16_categorise_verdicts 2025 Sample.urlparse
           "https://thepaymentsassociation.org/event/fintech-2019"
           {| TpaCrawl.scheme := "https";
              TpaCrawl.netloc := "thepaymentsassociation.org";
              TpaCrawl.path := "/event/fintech-2019" |}
           "DELETE_CANDIDATE" "Past event from 2019").
  - reflexivity.
  - vm_compute. reflexivity.
Defined.

Lemma X17_report_rows_witness :
  map TpaCrawl.url Sample.crawl_rows ≡ₚ elements (TpaCrawl.visited Sample.final)
  ∧ NoDup (map TpaCrawl.url Sample.crawl_rows)
  ∧ length Sample.crawl_rows = size (TpaCrawl.visited Sample.final)
  ∧ ∀ r, r ∈ Sample.crawl_rows →
         TpaCrawl.categorise 2025 Sample.urlparse (TpaCrawl.url r)
         = Py.Ok (TpaCrawl.status r, TpaCrawl.reason r).
Proof.
  pose proof (X17_report_rows 2025 Sample.urlparse (TpaCrawl.visited Sample.final))
    as Hreport.
  rewrite sample_report in Hreport. exact Hreport.
Defined.

Lemma X18_crawl_summary_adds_up_witness :
  TpaCrawl.summary Sample.crawl_rows
  = (size (TpaCrawl.visited Sample.final),
     length (filter (λ r, TpaCrawl.status r = "DELETE_CANDIDATE") Sample.crawl_rows),
     length (filter (λ r, TpaCrawl.status r = "DUPLICATE") Sample.crawl_rows),
     length (filter (λ r, TpaCrawl.status r = "REVIEW") Sample.crawl_rows),
     length (filter (λ r, TpaCrawl.status r = "KEEP") Sample.crawl_rows))
  ∧ size (TpaCrawl.visited Sample.final)
    = (length (filter (λ r, TpaCrawl.status r = "DELETE_CANDIDATE") Sample.crawl_rows)
       + length (filter (λ r, TpaCrawl.status r = "DUPLICATE") Sample.crawl_rows)
       + length (filter (λ r, TpaCrawl.status r = "REVIEW") Sample.crawl_rows)
       + length (filter (λ r, TpaCrawl.status r = "KEEP") Sample.crawl_rows))%nat.
Proof.
  apply (X18_crawl_summary_adds_up 2025 Sample.urlparse (TpaCrawl.visited Sample.final)
           Sample.crawl_rows).
  vm_compute. reflexivity.
Defined.

(** A block that is a list of numbers makes the extraction raise. *)
Lemma X20_page_row_failures_witness :
  (TpaArticles.extract_jsonld Sample.json_loads Sample.numbers_page
   = Py.Raise Py.TypeError
   ∧ (Py.TypeError = Py.TypeError ∨ Py.TypeError = Py.KeyError
      ∨ ∃ text err,
          text ∈ Py.finditer TpaArticles.jsonld_re Sample.numbers_page
          ∧ Sample.json_loads text = inr err
          ∧ err ≠ TpaArticles.Malformed
          ∧ Py.TypeError = TpaArticles.json_exn err))
  ∨ (∃ result,
       TpaArticles.build_row 2025 Sample.json_loads Sample.fromisoformat
         old Sample.numbers_page = Py.Ok result
       ∧ Sample.can_print result = false
       ∧ Py.TypeError = Py.Other "UnicodeEncodeError")
  ∨ ∃ data category,
      TpaArticles.extract_jsonld Sample.json_loads Sample.numbers_page
      = Py.Ok (data, category)
      ∧ ((Py.TypeError = Py.AttributeError ∧ ∀ members, data ≠ Py.JObj members)
         ∨ ∃ members,
             data = Py.JObj members
             ∧ ((∃ headline,
                   Py.assoc "headline" members = Some headline
                   ∧ Py.truthy headline = true
                   ∧ (∀ t, headline ≠ Py.JStr t)
                   ∧ Py.TypeError = Py.AttributeError)
                ∨ (∃ date_str,
                     Py.assoc "datePublished" members = Some date_str
                     ∧ Py.truthy date_str = true
                     ∧ (((∀ s, date_str ≠ Py.JStr s) ∧ Py.TypeError = Py.TypeError)
                        ∨ (∃ s, date_str = Py.JStr s
                                ∧ Sample.fromisoformat s = None
                                ∧ Py.TypeError = Py.ValueError))))).
Proof.
  apply (X20_page_row_failures 2025 Sample.json_loads Sample.fromisoformat
           Sample.can_print old Sample.numbers_page Py.TypeError).
  vm_compute. reflexivity.
Defined.

(** The set of two texts, listed in either order *)
Lemma X22_any_order_is_a_hash_order_witness :
  TpaArticles.listed (Orders.order_of ["b"; "a"]) {[ "a"; "b" ]} = ["b"; "a"]
  ∧ TpaArticles.listed (Orders.order_of ["a"; "b"]) {[ "a"; "b" ]} = ["a"; "b"].
Proof.
  split.
  - apply (X22_any_order_is_a_hash_order {[ "a"; "b" ]} ["b"; "a"]).
    vm_compute. first [reflexivity | apply perm_swap].
  - vm_compute. reflexivity.
Defined.

Lemma X21_no_article_left_out_witness :
  ∃ n0 index,
    (TpaArticles.requests Sample.w0 ≤ n0)%nat
    ∧ Sample.urlopen n0 (TpaArticles.BASE_URL +:+ "/sitemap.xml") = Py.Ok index
    ∧ ∀ sitemap_url,
        Some sitemap_url ∈ index →
        Py.contains "post-sitemap" sitemap_url = true →
        ∃ n locs,
          (n0 < n < TpaArticles.requests Sample.w1)%nat
          ∧ Sample.urlopen n sitemap_url = Py.Ok locs
          ∧ ∀ loc, loc ∈ locs →
                   Py.contains "/article/"
                     (Py.rstrip_char "/" (TpaArticles.text_or_empty loc)) = true →
                   Py.rstrip_char "/" (TpaArticles.text_or_empty loc)
                   ∈ Sample.article_list.
Proof.
  apply (X21_no_article_left_out Sample.urlopen Sample.hash_lt
           Sample.w0 Sample.article_list Sample.w1).
  vm_compute. reflexivity.
Defined.

End Examples.
